(** * type-B editor: document lifecycle and session autosave

    A shallow embedding of the [Index] page component of type-B
    (the React component holding the document, the settings, the debounced
    autosave to [sessionStorage] and the file operations) together with the
    slider bounds of [ControlPanel].

    How the component is read:

    - One React state snapshot is the record [Ui]; the world around it
      ([sessionStorage], the browser's timer table, the mutable ref
      [autoSaveTimerRef], the file reads in flight, a clock) is [World].
    - An event handler runs on the snapshot of the last render: it reads the
      old values and queues updates, which React applies in one batch.  Each
      handler is therefore a function of the old world, followed by [commit],
      which runs the effects whose dependencies changed.
    - [autoSave] is a [useCallback] closure over [content] and
      [autoSaveEnabled]; a timer armed with it keeps the values of the render
      that armed it.  The timer callback [CbAutoSave] stores them.
    - Time is explicit: [Elapse] advances the clock and may not step over a
      pending timer, [Fire] runs a timer that is due.
    - Whether [sessionStorage.setItem] takes the text of the document is
      decided by the environment and is an input of the events that write
      it: the events that run [autoSave], where the call sits in a [try]
      block and the [catch] branch logs the failure, and the completion of a
      file read, where the call is the last statement of [reader.onload],
      outside any [try], so that a failure leaves the callback after the
      state updates were queued.  The writes of the settings are modelled as
      returning.

    Two revisions of the page are in the sources.  They share every handler
    modelled here; the later one adds the paste handler and the keyboard
    shortcuts to [handleKeyDown], and both are covered.

    Not part of [Ui], because no modelled handler reads them: [welcomeText],
    whose animation is modelled on its own as [Animation], [cursorPosition],
    which [getCursorLinePosition] takes as an argument, [cursorCoords],
    [showControlPanel], [showGearPulse], [isCapsLockOn], and the position of
    the control panel. *)

From Stdlib Require Import List NArith ZArith Bool String Ascii Lia.
Import ListNotations.

Open Scope N_scope.

(** ** JavaScript strings *)

(** A JavaScript string is a sequence of UTF-16 code units. *)
Definition jsstring := list N.

Definition js (s : string) : jsstring :=
  map (fun a => N.of_nat (nat_of_ascii a)) (list_ascii_of_string s).

Fixpoint js_eqb (a b : jsstring) : bool :=
  match a, b with
  | [], [] => true
  | x :: a', y :: b' => (x =? y) && js_eqb a' b'
  | _, _ => false
  end.

Definition isHighSurrogate (c : N) : bool := (0xD800 <=? c) && (c <=? 0xDBFF).
Definition isLowSurrogate (c : N) : bool := (0xDC00 <=? c) && (c <=? 0xDFFF).

(** [new Blob([s]).size]: the length of the UTF-8 encoding of [s].  A
    surrogate pair is one code point of four bytes; a lone surrogate is
    replaced by U+FFFD, three bytes. *)
Fixpoint blobSize (s : jsstring) : N :=
  match s with
  | [] => 0
  | c :: rest =>
      if c <? 0x80 then 1 + blobSize rest
      else if c <? 0x800 then 2 + blobSize rest
      else if isHighSurrogate c then
        match rest with
        | d :: rest' =>
            if isLowSurrogate d then 4 + blobSize rest' else 3 + blobSize rest
        | [] => 3
        end
      else 3 + blobSize rest
  end.

(** [s.substring(a, b)]: both indices are clamped to the length and swapped
    when out of order. *)
Definition substring (a b : nat) (s : jsstring) : jsstring :=
  let lo := Nat.min a b in
  let hi := Nat.max a b in
  firstn (hi - lo) (skipn lo s).

(** [s.substring(a)] *)
Definition substringFrom (a : nat) (s : jsstring) : jsstring := skipn a s.

(** [s.slice(a, b)] for indices that are not negative: empty when [b <= a]. *)
Definition slice (a b : nat) (s : jsstring) : jsstring := firstn (b - a) (skipn a s).

(** [s.endsWith(suffix)] *)
Definition endsWith (s suffix : jsstring) : bool :=
  (List.length suffix <=? List.length s)%nat
  && js_eqb (skipn (List.length s - List.length suffix) s) suffix.

(** ** Constants *)

Definition MAX_FILE_SIZE : N := 5 * 1024 * 1024.
Definition AUTO_SAVE_DELAY : N := 3000.

(** ** Settings *)

Record EditorSettings := {
  fontSize : Z;
  isDarkMode : bool;
  showWordCount : bool;
  showCountDisplay : bool;
  currentFilename : jsstring;
  leftMargin : Z;
  rightMargin : Z
}.

(** The initial [useState] value.  [showCountDisplay] starts as [false] in the
    later revision of the page and as [true] in the earlier one; nothing below
    depends on it. *)
Definition defaultSettings : EditorSettings := {|
  fontSize := 16;
  isDarkMode := true;
  showWordCount := true;
  showCountDisplay := false;
  currentFilename := js "document.txt";
  leftMargin := 72;
  rightMargin := 72
|}.

Definition setFontSize (v : Z) (s : EditorSettings) : EditorSettings :=
  {| fontSize := v; isDarkMode := isDarkMode s; showWordCount := showWordCount s;
     showCountDisplay := showCountDisplay s; currentFilename := currentFilename s;
     leftMargin := leftMargin s; rightMargin := rightMargin s |}.

Definition setIsDarkMode (v : bool) (s : EditorSettings) : EditorSettings :=
  {| fontSize := fontSize s; isDarkMode := v; showWordCount := showWordCount s;
     showCountDisplay := showCountDisplay s; currentFilename := currentFilename s;
     leftMargin := leftMargin s; rightMargin := rightMargin s |}.

Definition setShowWordCount (v : bool) (s : EditorSettings) : EditorSettings :=
  {| fontSize := fontSize s; isDarkMode := isDarkMode s; showWordCount := v;
     showCountDisplay := showCountDisplay s; currentFilename := currentFilename s;
     leftMargin := leftMargin s; rightMargin := rightMargin s |}.

Definition setShowCountDisplay (v : bool) (s : EditorSettings) : EditorSettings :=
  {| fontSize := fontSize s; isDarkMode := isDarkMode s; showWordCount := showWordCount s;
     showCountDisplay := v; currentFilename := currentFilename s;
     leftMargin := leftMargin s; rightMargin := rightMargin s |}.

Definition setCurrentFilename (v : jsstring) (s : EditorSettings) : EditorSettings :=
  {| fontSize := fontSize s; isDarkMode := isDarkMode s; showWordCount := showWordCount s;
     showCountDisplay := showCountDisplay s; currentFilename := v;
     leftMargin := leftMargin s; rightMargin := rightMargin s |}.

Definition setLeftMargin (v : Z) (s : EditorSettings) : EditorSettings :=
  {| fontSize := fontSize s; isDarkMode := isDarkMode s; showWordCount := showWordCount s;
     showCountDisplay := showCountDisplay s; currentFilename := currentFilename s;
     leftMargin := v; rightMargin := rightMargin s |}.

Definition setRightMargin (v : Z) (s : EditorSettings) : EditorSettings :=
  {| fontSize := fontSize s; isDarkMode := isDarkMode s; showWordCount := showWordCount s;
     showCountDisplay := showCountDisplay s; currentFilename := currentFilename s;
     leftMargin := leftMargin s; rightMargin := v |}.

(** The settings as they sit in the store: a parsed JSON object, in which any
    field may be missing. *)
Record SettingsBlob := {
  b_fontSize : option Z;
  b_isDarkMode : option bool;
  b_showWordCount : option bool;
  b_showCountDisplay : option bool;
  b_currentFilename : option jsstring;
  b_leftMargin : option Z;
  b_rightMargin : option Z
}.

(** [JSON.stringify(settings)] followed by [JSON.parse]: every field present. *)
Definition stringify (s : EditorSettings) : SettingsBlob := {|
  b_fontSize := Some (fontSize s);
  b_isDarkMode := Some (isDarkMode s);
  b_showWordCount := Some (showWordCount s);
  b_showCountDisplay := Some (showCountDisplay s);
  b_currentFilename := Some (currentFilename s);
  b_leftMargin := Some (leftMargin s);
  b_rightMargin := Some (rightMargin s)
|}.

Definition orDefault {A} (d : A) (o : option A) : A :=
  match o with Some v => v | None => d end.

(** [{ ...defaults, ...parsed }] *)
Definition spread (d : EditorSettings) (p : SettingsBlob) : EditorSettings := {|
  fontSize := orDefault (fontSize d) (b_fontSize p);
  isDarkMode := orDefault (isDarkMode d) (b_isDarkMode p);
  showWordCount := orDefault (showWordCount d) (b_showWordCount p);
  showCountDisplay := orDefault (showCountDisplay d) (b_showCountDisplay p);
  currentFilename := orDefault (currentFilename d) (b_currentFilename p);
  leftMargin := orDefault (leftMargin d) (b_leftMargin p);
  rightMargin := orDefault (rightMargin d) (b_rightMargin p)
|}.

(** ** React state *)

(** The only closure [handleNew] ever stores in [pendingAction]. *)
Inductive PendingAction := ResetDocument.

Record Ui := {
  content : jsstring;
  showWelcome : bool;
  isSaved : bool;
  isAutoSaving : bool;
  autoSaveEnabled : bool;
  showSaveDialog : bool;
  showUnsavedDialog : bool;
  saveFilename : jsstring;
  isDragOver : bool;
  pendingAction : option PendingAction;
  settings : EditorSettings
}.

Definition initialUi : Ui := {|
  content := [];
  showWelcome := true;
  isSaved := true;
  isAutoSaving := false;
  autoSaveEnabled := true;
  showSaveDialog := false;
  showUnsavedDialog := false;
  saveFilename := js "document.txt";
  isDragOver := false;
  pendingAction := None;
  settings := defaultSettings
|}.

Definition setContent (v : jsstring) (u : Ui) : Ui :=
  {| content := v; showWelcome := showWelcome u; isSaved := isSaved u;
     isAutoSaving := isAutoSaving u; autoSaveEnabled := autoSaveEnabled u;
     showSaveDialog := showSaveDialog u; showUnsavedDialog := showUnsavedDialog u;
     saveFilename := saveFilename u; isDragOver := isDragOver u;
     pendingAction := pendingAction u; settings := settings u |}.

Definition setShowWelcome (v : bool) (u : Ui) : Ui :=
  {| content := content u; showWelcome := v; isSaved := isSaved u;
     isAutoSaving := isAutoSaving u; autoSaveEnabled := autoSaveEnabled u;
     showSaveDialog := showSaveDialog u; showUnsavedDialog := showUnsavedDialog u;
     saveFilename := saveFilename u; isDragOver := isDragOver u;
     pendingAction := pendingAction u; settings := settings u |}.

Definition setIsSaved (v : bool) (u : Ui) : Ui :=
  {| content := content u; showWelcome := showWelcome u; isSaved := v;
     isAutoSaving := isAutoSaving u; autoSaveEnabled := autoSaveEnabled u;
     showSaveDialog := showSaveDialog u; showUnsavedDialog := showUnsavedDialog u;
     saveFilename := saveFilename u; isDragOver := isDragOver u;
     pendingAction := pendingAction u; settings := settings u |}.

Definition setIsAutoSaving (v : bool) (u : Ui) : Ui :=
  {| content := content u; showWelcome := showWelcome u; isSaved := isSaved u;
     isAutoSaving := v; autoSaveEnabled := autoSaveEnabled u;
     showSaveDialog := showSaveDialog u; showUnsavedDialog := showUnsavedDialog u;
     saveFilename := saveFilename u; isDragOver := isDragOver u;
     pendingAction := pendingAction u; settings := settings u |}.

Definition setAutoSaveEnabled (v : bool) (u : Ui) : Ui :=
  {| content := content u; showWelcome := showWelcome u; isSaved := isSaved u;
     isAutoSaving := isAutoSaving u; autoSaveEnabled := v;
     showSaveDialog := showSaveDialog u; showUnsavedDialog := showUnsavedDialog u;
     saveFilename := saveFilename u; isDragOver := isDragOver u;
     pendingAction := pendingAction u; settings := settings u |}.

Definition setShowSaveDialog (v : bool) (u : Ui) : Ui :=
  {| content := content u; showWelcome := showWelcome u; isSaved := isSaved u;
     isAutoSaving := isAutoSaving u; autoSaveEnabled := autoSaveEnabled u;
     showSaveDialog := v; showUnsavedDialog := showUnsavedDialog u;
     saveFilename := saveFilename u; isDragOver := isDragOver u;
     pendingAction := pendingAction u; settings := settings u |}.

Definition setShowUnsavedDialog (v : bool) (u : Ui) : Ui :=
  {| content := content u; showWelcome := showWelcome u; isSaved := isSaved u;
     isAutoSaving := isAutoSaving u; autoSaveEnabled := autoSaveEnabled u;
     showSaveDialog := showSaveDialog u; showUnsavedDialog := v;
     saveFilename := saveFilename u; isDragOver := isDragOver u;
     pendingAction := pendingAction u; settings := settings u |}.

Definition setSaveFilename (v : jsstring) (u : Ui) : Ui :=
  {| content := content u; showWelcome := showWelcome u; isSaved := isSaved u;
     isAutoSaving := isAutoSaving u; autoSaveEnabled := autoSaveEnabled u;
     showSaveDialog := showSaveDialog u; showUnsavedDialog := showUnsavedDialog u;
     saveFilename := v; isDragOver := isDragOver u;
     pendingAction := pendingAction u; settings := settings u |}.

Definition setIsDragOver (v : bool) (u : Ui) : Ui :=
  {| content := content u; showWelcome := showWelcome u; isSaved := isSaved u;
     isAutoSaving := isAutoSaving u; autoSaveEnabled := autoSaveEnabled u;
     showSaveDialog := showSaveDialog u; showUnsavedDialog := showUnsavedDialog u;
     saveFilename := saveFilename u; isDragOver := v;
     pendingAction := pendingAction u; settings := settings u |}.

Definition setPendingAction (v : option PendingAction) (u : Ui) : Ui :=
  {| content := content u; showWelcome := showWelcome u; isSaved := isSaved u;
     isAutoSaving := isAutoSaving u; autoSaveEnabled := autoSaveEnabled u;
     showSaveDialog := showSaveDialog u; showUnsavedDialog := showUnsavedDialog u;
     saveFilename := saveFilename u; isDragOver := isDragOver u;
     pendingAction := v; settings := settings u |}.

(** [setSettings(prev => f(prev))] *)
Definition setSettings (f : EditorSettings -> EditorSettings) (u : Ui) : Ui :=
  {| content := content u; showWelcome := showWelcome u; isSaved := isSaved u;
     isAutoSaving := isAutoSaving u; autoSaveEnabled := autoSaveEnabled u;
     showSaveDialog := showSaveDialog u; showUnsavedDialog := showUnsavedDialog u;
     saveFilename := saveFilename u; isDragOver := isDragOver u;
     pendingAction := pendingAction u; settings := f (settings u) |}.

(** ** The world around the component *)

(** [sessionStorage], with the two keys the page uses: [STORAGE_KEY] holds the
    document text, [SETTINGS_KEY] the settings as JSON. *)
Record Storage := {
  item_content : option jsstring;
  item_settings : option SettingsBlob
}.

Definition emptyStorage : Storage :=
  {| item_content := None; item_settings := None |}.

(** [sessionStorage.setItem(STORAGE_KEY, v)] *)
Definition setItem_content (v : jsstring) (st : Storage) : Storage :=
  {| item_content := Some v; item_settings := item_settings st |}.

(** [sessionStorage.setItem(SETTINGS_KEY, JSON.stringify(s))] *)
Definition setItem_settings (b : SettingsBlob) (st : Storage) : Storage :=
  {| item_content := item_content st; item_settings := Some b |}.

(** [sessionStorage.removeItem(STORAGE_KEY)] *)
Definition removeItem_content (st : Storage) : Storage :=
  {| item_content := None; item_settings := item_settings st |}.

(** A [File] as the page uses it: [name], [type], [size], and the string
    [readAsText] yields when the read succeeds. *)
Record File := {
  file_name : jsstring;
  file_type : jsstring;
  file_size : N;
  file_text : jsstring
}.

(** The callbacks handed to [setTimeout]. *)
Inductive Callback :=
| CbAutoSave (c : jsstring) (enabled : bool)
    (* [autoSave] as created by the render with [content = c] and
       [autoSaveEnabled = enabled] *)
| CbAutoSavingOff
    (* [() => setIsAutoSaving(false)] *)
| CbRunPending (a : PendingAction).
    (* [() => { pendingAction(); setPendingAction(null); }] *)

Record Timer := {
  tid : N;
  due : N;
  callback : Callback
}.

Record World := {
  ui : Ui;
  sessionStorage : Storage;
  timers : list Timer;
  autoSaveTimerRef : option N;
  nextTimerId : N;
  now : N;
  reading : list File
}.

Definition onUi (f : Ui -> Ui) (w : World) : World :=
  {| ui := f (ui w); sessionStorage := sessionStorage w; timers := timers w;
     autoSaveTimerRef := autoSaveTimerRef w; nextTimerId := nextTimerId w;
     now := now w; reading := reading w |}.

Definition onStorage (f : Storage -> Storage) (w : World) : World :=
  {| ui := ui w; sessionStorage := f (sessionStorage w); timers := timers w;
     autoSaveTimerRef := autoSaveTimerRef w; nextTimerId := nextTimerId w;
     now := now w; reading := reading w |}.

Definition setReading (r : list File) (w : World) : World :=
  {| ui := ui w; sessionStorage := sessionStorage w; timers := timers w;
     autoSaveTimerRef := autoSaveTimerRef w; nextTimerId := nextTimerId w;
     now := now w; reading := r |}.

Definition setNow (t : N) (w : World) : World :=
  {| ui := ui w; sessionStorage := sessionStorage w; timers := timers w;
     autoSaveTimerRef := autoSaveTimerRef w; nextTimerId := nextTimerId w;
     now := t; reading := reading w |}.

Definition setAutoSaveTimerRef (r : option N) (w : World) : World :=
  {| ui := ui w; sessionStorage := sessionStorage w; timers := timers w;
     autoSaveTimerRef := r; nextTimerId := nextTimerId w;
     now := now w; reading := reading w |}.

(** [setTimeout(cb, delay)]: a fresh identifier, the new timer at the end of
    the table. *)
Definition setTimeout (cb : Callback) (delay : N) (w : World) : N * World :=
  (nextTimerId w,
   {| ui := ui w; sessionStorage := sessionStorage w;
      timers := timers w ++ [{| tid := nextTimerId w; due := now w + delay; callback := cb |}];
      autoSaveTimerRef := autoSaveTimerRef w; nextTimerId := nextTimerId w + 1;
      now := now w; reading := reading w |}).

Definition removeTimer (id : N) (ts : list Timer) : list Timer :=
  filter (fun t => negb (tid t =? id)) ts.

(** [clearTimeout(id)]: nothing happens when [id] is not pending. *)
Definition clearTimeout (id : N) (w : World) : World :=
  {| ui := ui w; sessionStorage := sessionStorage w;
     timers := removeTimer id (timers w);
     autoSaveTimerRef := autoSaveTimerRef w; nextTimerId := nextTimerId w;
     now := now w; reading := reading w |}.

(** What a step shows to the outside. *)
Inductive Output :=
| Out_setItem_content (v : jsstring)         (* the write succeeded *)
| Out_setItem_content_throws (v : jsstring)  (* the write threw *)
| Out_setItem_settings (b : SettingsBlob)
| Out_removeItem_content
| Out_alert (msg : string)
| Out_console_warn (msg : string)
| Out_console_error (msg : string)
| Out_fileInput_click
| Out_readAsText (f : File)
| Out_download (name text : jsstring).

(** The result of a handler: the world with the queued updates applied, the
    outputs, and whether [setSettings] was called (a new settings object, so
    the effect on [[settings]] runs). *)
Record Handled := {
  h_world : World;
  h_out : list Output;
  h_settings : bool
}.

Definition handled (w : World) (o : list Output) (b : bool) : Handled :=
  {| h_world := w; h_out := o; h_settings := b |}.

(** ** The save routine *)

(** [autoSave], as the closure over [content = c] and
    [autoSaveEnabled = enabled].  [storeOk] says whether
    [sessionStorage.setItem] returns; when it throws, the [catch] branch
    runs. *)
Definition autoSave (c : jsstring) (enabled storeOk : bool) (w : World) : Handled :=
  if negb enabled || (List.length c =? 0)%nat then handled w [] false
  else if MAX_FILE_SIZE <? blobSize c then
    handled (onUi (setAutoSaveEnabled false) w)
            [Out_console_warn "File size exceeds 5MB limit. Auto-save disabled."]
            false
  else if storeOk then
    handled (snd (setTimeout CbAutoSavingOff 500
                    (onUi (setIsSaved true)
                       (onStorage (setItem_content c)
                          (onUi (setIsAutoSaving true) w)))))
            [Out_setItem_content c]
            false
  else
    handled (onUi (setIsAutoSaving false) (onUi (setIsAutoSaving true) w))
            [Out_setItem_content_throws c; Out_console_error "Failed to auto-save:"]
            false.

(** ** Effects *)

(** The effect on [[settings]]. *)
Definition saveSettingsEffect (w : World) : World * list Output :=
  (onStorage (setItem_settings (stringify (settings (ui w)))) w,
   [Out_setItem_settings (stringify (settings (ui w)))]).

(** [if (autoSaveTimerRef.current) clearTimeout(autoSaveTimerRef.current)].
    Timer identifiers start at 1, so a stored identifier is truthy. *)
Definition clearAutoSaveTimer (w : World) : World :=
  match autoSaveTimerRef w with
  | Some id => clearTimeout id w
  | None => w
  end.

(** The auto-save timer effect: the cleanup of its previous run, then its
    body. *)
Definition autoSaveTimerEffect (w : World) : World :=
  let w1 := clearAutoSaveTimer (clearAutoSaveTimer w) in
  if negb (isSaved (ui w1)) && (0 <? List.length (content (ui w1)))%nat then
    let (id, w2) :=
      setTimeout (CbAutoSave (content (ui w1)) (autoSaveEnabled (ui w1)))
                 AUTO_SAVE_DELAY w1 in
    setAutoSaveTimerRef (Some id) w2
  else w1.

(** The dependencies [[content, isSaved, autoSave]] of the timer effect;
    [autoSave] is a new closure exactly when [content] or [autoSaveEnabled]
    changed. *)
Definition depsUnchanged (prev next : Ui) : bool :=
  js_eqb (content prev) (content next)
  && Bool.eqb (isSaved prev) (isSaved next)
  && Bool.eqb (autoSaveEnabled prev) (autoSaveEnabled next).

(** The render after a handler and the effects it triggers, in the order the
    component declares them. *)
Definition commit (prev : Ui) (h : Handled) : World * list Output :=
  let (w1, o1) :=
    if h_settings h then saveSettingsEffect (h_world h) else (h_world h, []) in
  let w2 := if depsUnchanged prev (ui w1) then w1 else autoSaveTimerEffect w1 in
  (w2, h_out h ++ o1).

(** ** Handlers *)

Definition handleChange (v : jsstring) (w : World) : Handled :=
  handled
    (onUi (fun u =>
             setIsSaved false
               (setContent v (if showWelcome u then setShowWelcome false u else u)))
          w)
    [] false.

(** The textarea is controlled ([value={content}]): after every render its
    value is [content]. *)
Definition textareaValue (w : World) : jsstring := content (ui w).

(** The [requestAnimationFrame] callback of [handlePaste].  The pasted text
    itself arrives through [handleChange], as any other input. *)
Definition handlePaste_frame (w : World) : Handled :=
  handled (onUi (setContent (textareaValue w)) w) [] false.

(** The pending action stored by [handleNew]. *)
Definition runPending (a : PendingAction) (w : World) : Handled :=
  match a with
  | ResetDocument =>
      handled
        (onStorage removeItem_content
           (onUi (fun u =>
                    setSettings (setCurrentFilename (js "document.txt"))
                      (setIsSaved true (setShowWelcome true (setContent [] u))))
                 w))
        [Out_removeItem_content] true
  end.

Definition handleNew (w : World) : Handled :=
  if negb (isSaved (ui w)) && (0 <? List.length (content (ui w)))%nat then
    handled
      (onUi (fun u => setShowUnsavedDialog true (setPendingAction (Some ResetDocument) u)) w)
      [] false
  else runPending ResetDocument w.

Definition handleOpen (w : World) : Handled :=
  handled w [Out_fileInput_click] false.

Definition readFile (f : File) (w : World) : Handled :=
  if MAX_FILE_SIZE <? file_size f then
    handled w [Out_alert "File size exceeds 5MB limit."] false
  else
    handled (setReading (reading w ++ [f]) w) [Out_readAsText f] false.

(** [reader.onload] of the read started for [f].  The four state updates are
    queued first and [sessionStorage.setItem] is the last statement, outside
    any [try]: [storeOk] says whether it returns.  When it throws, the
    exception leaves the callback uncaught, the store is as it was, and the
    updates queued before it are rendered all the same. *)
Definition reader_onload (f : File) (storeOk : bool) (w : World) : Handled :=
  let text := file_text f in
  let w1 :=
    onUi (fun u =>
            setSettings (setCurrentFilename (file_name f))
              (setIsSaved true (setShowWelcome false (setContent text u))))
         w in
  if storeOk then
    handled (onStorage (setItem_content text) w1) [Out_setItem_content text] true
  else
    handled w1 [Out_setItem_content_throws text] true.

(** [reader.onerror] *)
Definition reader_onerror (w : World) : Handled :=
  handled w [Out_console_error "Failed to read file"] false.

Definition handleFileSelect (files : list File) (w : World) : Handled :=
  match files with
  | f :: _ => readFile f w
  | [] => handled w [] false
  end.

Definition handleSaveAs (w : World) : Handled :=
  handled
    (onUi (fun u => setShowSaveDialog true (setSaveFilename (currentFilename (settings u)) u)) w)
    [] false.

Definition downloadFile (w : World) : Handled :=
  handled
    (onUi (fun u =>
             setSettings (setCurrentFilename (saveFilename u))
               (setIsSaved true (setShowSaveDialog false u)))
          w)
    [Out_download (saveFilename (ui w)) (content (ui w))] true.

Definition handleDragOver (w : World) : Handled :=
  handled (onUi (setIsDragOver true) w) [] false.

Definition handleDragLeave (w : World) : Handled :=
  handled (onUi (setIsDragOver false) w) [] false.

(** The predicate of [files.find] in [handleDrop]. *)
Definition isTextFile (f : File) : bool :=
  js_eqb (file_type f) (js "text/plain")
  || endsWith (file_name f) (js ".txt")
  || endsWith (file_name f) (js ".md").

Definition handleDrop (files : list File) (w : World) : Handled :=
  let w1 := onUi (setIsDragOver false) w in
  match find isTextFile files with
  | Some f => readFile f w1
  | None => handled w1 [] false
  end.

(** The keys [handleKeyDown] tells apart: Tab with the selection of the
    textarea, and the shortcuts with the platform modifier held. *)
Inductive Key :=
| Key_Tab (selectionStart selectionEnd : nat)
| Key_mod_n
| Key_mod_o
| Key_mod_s
| Key_mod_shift_s
| Key_other.

Definition handleKeyDown (k : Key) (storeOk : bool) (w : World) : Handled :=
  match k with
  | Key_Tab start end_ =>
      let newContent :=
        substring 0 start (content (ui w)) ++ js "  "
        ++ substringFrom end_ (content (ui w)) in
      handled (onUi (setContent newContent) w) [] false
  | Key_mod_n => handleNew w
  | Key_mod_o => handleOpen w
  | Key_mod_shift_s => handleSaveAs w
  | Key_mod_s => autoSave (content (ui w)) (autoSaveEnabled (ui w)) storeOk w
  | Key_other => handled w [] false
  end.

(** The unsaved-changes dialog.  [AlertDialogCancel] and [AlertDialogAction]
    close the dialog when clicked, through [onOpenChange], which is
    [setShowUnsavedDialog]. *)
Definition unsaved_dontSave (w : World) : Handled :=
  let h :=
    match pendingAction (ui w) with
    | Some a =>
        let h := runPending a w in
        handled (onUi (setPendingAction None) (h_world h)) (h_out h) (h_settings h)
    | None => handled w [] false
    end in
  handled (onUi (setShowUnsavedDialog false) (h_world h)) (h_out h) (h_settings h).

Definition unsaved_save (storeOk : bool) (w : World) : Handled :=
  let h := autoSave (content (ui w)) (autoSaveEnabled (ui w)) storeOk w in
  let w1 :=
    match pendingAction (ui w) with
    | Some a => snd (setTimeout (CbRunPending a) 100 (h_world h))
    | None => h_world h
    end in
  handled (onUi (setShowUnsavedDialog false) w1) (h_out h) (h_settings h).

Definition unsaved_dismiss (w : World) : Handled :=
  handled (onUi (setShowUnsavedDialog false) w) [] false.

(** ** The control panel *)

(** Modelled from the spec: the [Slider] component ([components/ui/slider]) is
    not among the sources.  The spec gives the numeric settings "fixed valid
    ranges (font 12-24px, margins 0-200px in steps of 4)"; a slider with props
    [min], [max] and [step] reports through [onValueChange] only values of
    that range that lie on the step grid. *)
Definition slider_allows (min max step v : Z) : bool :=
  ((min <=? v) && (v <=? max) && ((v - min) mod step =? 0))%Z.

(** The props of the three sliders of [ControlPanel]. *)
Definition fontSizeSlider (v : Z) : bool := slider_allows 12 24 1 v.
Definition marginSlider (v : Z) : bool := slider_allows 0 200 4 v.

Definition onFontSizeChange (size : Z) (w : World) : Handled :=
  handled (onUi (setSettings (setFontSize size)) w) [] true.

Definition onLeftMarginChange (margin : Z) (w : World) : Handled :=
  handled (onUi (setSettings (setLeftMargin margin)) w) [] true.

Definition onRightMarginChange (margin : Z) (w : World) : Handled :=
  handled (onUi (setSettings (setRightMargin margin)) w) [] true.

Definition onThemeToggle (w : World) : Handled :=
  handled (onUi (setSettings (fun prev => setIsDarkMode (negb (isDarkMode prev)) prev)) w)
          [] true.

Definition onWordCountToggle (w : World) : Handled :=
  handled (onUi (setSettings (fun prev => setShowWordCount (negb (showWordCount prev)) prev)) w)
          [] true.

Definition onCountDisplayToggle (w : World) : Handled :=
  handled
    (onUi (setSettings (fun prev => setShowCountDisplay (negb (showCountDisplay prev)) prev)) w)
    [] true.

(** ** Timers and page load *)

Definition runCallback (cb : Callback) (storeOk : bool) (w : World) : Handled :=
  match cb with
  | CbAutoSave c enabled => autoSave c enabled storeOk w
  | CbAutoSavingOff => handled (onUi (setIsAutoSaving false) w) [] false
  | CbRunPending a =>
      let h := runPending a w in
      handled (onUi (setPendingAction None) (h_world h)) (h_out h) (h_settings h)
  end.

Definition findTimer (id : N) (w : World) : option Timer :=
  find (fun t => tid t =? id) (timers w).

(** A timer that is due leaves the table and its callback runs. *)
Definition fire (id : N) (storeOk : bool) (w : World) : option Handled :=
  match findTimer id w with
  | Some t =>
      if due t <=? now w then Some (runCallback (callback t) storeOk (clearTimeout id w))
      else None
  | None => None
  end.

(** Time passes only up to the next pending timer. *)
Definition mayElapse (dt : N) (w : World) : bool :=
  forallb (fun t => now w + dt <=? due t) (timers w).

(** The first render and the effects of the mount, over the store as the page
    finds it.  The load effect reads the store; the settings effect of the
    first render writes the initial settings, and writes again after the
    render that follows [setSettings]. *)
Definition mount (store : Storage) (t next : N) : World * list Output :=
  let u1 :=
    match item_content store with
    | Some savedContent =>
        if (0 <? List.length savedContent)%nat then
          setIsSaved true (setShowWelcome false (setContent savedContent initialUi))
        else initialUi
    | None => initialUi
    end in
  let first := stringify (settings initialUi) in
  match item_settings store with
  | Some parsed =>
      let u2 := setSettings (fun _ => spread defaultSettings parsed) u1 in
      ({| ui := u2;
          sessionStorage :=
            setItem_settings (stringify (settings u2)) (setItem_settings first store);
          timers := []; autoSaveTimerRef := None; nextTimerId := next;
          now := t; reading := [] |},
       [Out_setItem_settings first; Out_setItem_settings (stringify (settings u2))])
  | None =>
      ({| ui := u1; sessionStorage := setItem_settings first store;
          timers := []; autoSaveTimerRef := None; nextTimerId := next;
          now := t; reading := [] |},
       [Out_setItem_settings first])
  end.

(** Reloading the page: [beforeunload] removes the document from the store,
    the timers and the reads of the old page are gone, the new page mounts. *)
Definition reload (w : World) : World * list Output :=
  let (w', o) := mount (removeItem_content (sessionStorage w)) (now w) (nextTimerId w) in
  (w', Out_removeItem_content :: o).

(** A new tab: the store is empty. *)
Definition fresh : World := fst (mount emptyStorage 0 1).

(** ** Events *)

Inductive Event :=
| Change (v : jsstring)              (* [onChange] of the textarea *)
| PasteFrame                         (* the frame callback of [handlePaste] *)
| KeyDown (k : Key) (storeOk : bool) (* [onKeyDown] of the textarea *)
| ClickNew
| ClickOpen
| ClickSaveAs
| FileSelect (files : list File)     (* [onChange] of the file input *)
| DragOver
| DragLeave
| Drop (files : list File)
| ReaderLoad (i : nat) (storeOk : bool)
    (* the [i]-th read in flight succeeds; [storeOk]: the store takes the text *)
| ReaderError (i : nat)              (* the [i]-th read in flight fails *)
| SaveDialogInput (v : jsstring)
| SaveDialogClose
| SaveDialogSave
| UnsavedDontSave
| UnsavedSave (storeOk : bool)
| UnsavedDismiss
| FontSizeSlider (v : Z)
| LeftMarginSlider (v : Z)
| RightMarginSlider (v : Z)
| ThemeToggle
| WordCountToggle
| CountDisplayToggle
| Elapse (dt : N)
| Fire (id : N) (storeOk : bool)
| Reload.

Fixpoint removeNth {A} (i : nat) (l : list A) : list A :=
  match l, i with
  | [], _ => []
  | _ :: l', O => l'
  | x :: l', S i' => x :: removeNth i' l'
  end.

Definition guard (b : bool) (h : Handled) : option Handled :=
  if b then Some h else None.

(** The handler an event runs, when the event can happen in [w]: the buttons
    of a dialog exist while the dialog is open, a slider reports values its
    props allow, a read completes when it is in flight, a timer fires when
    due. *)
Definition handle (e : Event) (w : World) : option Handled :=
  match e with
  | Change v => Some (handleChange v w)
  | PasteFrame => Some (handlePaste_frame w)
  | KeyDown k storeOk => Some (handleKeyDown k storeOk w)
  | ClickNew => Some (handleNew w)
  | ClickOpen => Some (handleOpen w)
  | ClickSaveAs => Some (handleSaveAs w)
  | FileSelect files => Some (handleFileSelect files w)
  | DragOver => Some (handleDragOver w)
  | DragLeave => Some (handleDragLeave w)
  | Drop files => Some (handleDrop files w)
  | ReaderLoad i storeOk =>
      match nth_error (reading w) i with
      | Some f => Some (reader_onload f storeOk (setReading (removeNth i (reading w)) w))
      | None => None
      end
  | ReaderError i =>
      match nth_error (reading w) i with
      | Some _ => Some (reader_onerror (setReading (removeNth i (reading w)) w))
      | None => None
      end
  | SaveDialogInput v =>
      guard (showSaveDialog (ui w)) (handled (onUi (setSaveFilename v) w) [] false)
  | SaveDialogClose =>
      guard (showSaveDialog (ui w)) (handled (onUi (setShowSaveDialog false) w) [] false)
  | SaveDialogSave => guard (showSaveDialog (ui w)) (downloadFile w)
  | UnsavedDontSave => guard (showUnsavedDialog (ui w)) (unsaved_dontSave w)
  | UnsavedSave storeOk => guard (showUnsavedDialog (ui w)) (unsaved_save storeOk w)
  | UnsavedDismiss => guard (showUnsavedDialog (ui w)) (unsaved_dismiss w)
  | FontSizeSlider v => guard (fontSizeSlider v) (onFontSizeChange v w)
  | LeftMarginSlider v => guard (marginSlider v) (onLeftMarginChange v w)
  | RightMarginSlider v => guard (marginSlider v) (onRightMarginChange v w)
  | ThemeToggle => Some (onThemeToggle w)
  | WordCountToggle => Some (onWordCountToggle w)
  | CountDisplayToggle => Some (onCountDisplayToggle w)
  | Elapse dt => guard (mayElapse dt w) (handled (setNow (now w + dt) w) [] false)
  | Fire id storeOk => fire id storeOk w
  | Reload => None
  end.

(** One event: its handler, then the render and the effects. *)
Definition step (e : Event) (w : World) : option (World * list Output) :=
  match e with
  | Reload => Some (reload w)
  | _ =>
      match handle e w with
      | Some h => Some (commit (ui w) h)
      | None => None
      end
  end.

(** A sequence of events, with the outputs in order. *)
Fixpoint run (es : list Event) (w : World) : option (World * list Output) :=
  match es with
  | [] => Some (w, [])
  | e :: es' =>
      match step e w with
      | Some (w1, o1) =>
          match run es' w1 with
          | Some (w2, o2) => Some (w2, o1 ++ o2)
          | None => None
          end
      | None => None
      end
  end.

(** The worlds a session can be in: a new tab, and whatever events lead to. *)
Inductive reachable : World -> Prop :=
| reach_fresh : reachable fresh
| reach_step w e w' o : reachable w -> step e w = Some (w', o) -> reachable w'.

(** ** Observations *)

Definition isAutoSaveCb (cb : Callback) : bool :=
  match cb with
  | CbAutoSave _ _ => true
  | _ => false
  end.

(** The pending save attempts: the auto-save timers in the table. *)
Definition pendingSaves (w : World) : list Timer :=
  filter (fun t => isAutoSaveCb (callback t)) (timers w).

(** The writes of the document to the store among the outputs. *)
Fixpoint contentWrites (o : list Output) : list jsstring :=
  match o with
  | [] => []
  | Out_setItem_content v :: o' => v :: contentWrites o'
  | _ :: o' => contentWrites o'
  end.

Definition isAlert (x : Output) : bool :=
  match x with
  | Out_alert _ => true
  | _ => false
  end.

(** An event that runs the save routine, and whether the store accepts the
    write then: the save shortcut, the Save button of the unsaved-changes
    dialog, an auto-save timer that fires. *)
Definition saveAttempt (e : Event) (w : World) : option bool :=
  match e with
  | KeyDown Key_mod_s storeOk => Some storeOk
  | UnsavedSave storeOk => Some storeOk
  | Fire id storeOk =>
      match findTimer id w with
      | Some t => if isAutoSaveCb (callback t) then Some storeOk else None
      | None => None
      end
  | _ => None
  end.

Definition isReload (e : Event) : bool :=
  match e with
  | Reload => true
  | _ => false
  end.

(** The ranges of the numeric settings. *)
Definition validSettings (s : EditorSettings) : Prop :=
  (12 <= fontSize s <= 24
   /\ (0 <= leftMargin s <= 200 /\ leftMargin s mod 4 = 0)
   /\ (0 <= rightMargin s <= 200 /\ rightMargin s mod 4 = 0))%Z.

(** A burst of mutations: the first value, then pairs of a pause and the next
    value. *)
Fixpoint burst (v : jsstring) (rest : list (N * jsstring)) : list Event :=
  match rest with
  | [] => [Change v]
  | (d, v') :: rest' => Change v :: Elapse d :: burst v' rest'
  end.

Fixpoint finalContent (v : jsstring) (rest : list (N * jsstring)) : jsstring :=
  match rest with
  | [] => v
  | (_, v') :: rest' => finalContent v' rest'
  end.

(** Every pause is shorter than the debounce delay and every mutation changes
    the text it finds. *)
Fixpoint quickEdits (before : jsstring) (v : jsstring) (rest : list (N * jsstring)) : Prop :=
  v <> before /\
  match rest with
  | [] => True
  | (d, v') :: rest' => d < AUTO_SAVE_DELAY /\ quickEdits v v' rest'
  end.














(** ** The invariants of a session *)

(** An auto-save timer armed by the render of snapshot [u]: it is the one the
    ref names, and it holds the closure of that render. *)
Definition armedFor (u : Ui) (ref : option N) (t : Timer) : Prop :=
  forall c en, callback t = CbAutoSave c en ->
    ref = Some (tid t) /\ c = content u /\ en = autoSaveEnabled u
    /\ isSaved u = false /\ c <> [].

Record timersOk (u : Ui) (w : World) : Prop := {
  ok_fresh : forall t, In t (timers w) -> tid t < nextTimerId w;
  ok_nodup : NoDup (map tid (timers w));
  ok_armed : forall t, In t (timers w) -> armedFor u (autoSaveTimerRef w) t;
  ok_ref : forall id, autoSaveTimerRef w = Some id -> id < nextTimerId w
}.

(** The invariant of the session. *)
Definition wf (w : World) : Prop := timersOk (ui w) w.

(** The settings are in range, and so is what the store would give back on
    the next page load. *)
Definition settingsOk (w : World) : Prop :=
  validSettings (settings (ui w))
  /\ forall b, item_settings (sessionStorage w) = Some b ->
               validSettings (spread defaultSettings b).

(** A handler result that leaves the settings in range and the stored
    settings alone. *)
Definition keepsRanges (w : World) (h : Handled) : Prop :=
  validSettings (settings (ui (h_world h)))
  /\ item_settings (sessionStorage (h_world h)) = item_settings (sessionStorage w).

(** No timer is pending but auto-save timers. *)
Definition calm (w : World) : Prop :=
  forall t, In t (timers w) -> isAutoSaveCb (callback t) = true.

(** The timer the effect arms in [w]. *)
Definition armedTimer (w : World) : Timer :=
  {| tid := nextTimerId w; due := now w + AUTO_SAVE_DELAY;
     callback := CbAutoSave (content (ui w)) (autoSaveEnabled (ui w)) |}.

(** ** Events and outcomes *)

(** The events that hand a file to [readFile]: the file input reports its
    first file, a drop the first dropped file that is plain text or has the
    extension [.txt] or [.md]. *)
Definition opens (e : Event) (f : File) : Prop :=
  match e with
  | FileSelect (f' :: _) => f' = f
  | Drop files => find isTextFile files = Some f
  | _ => False
  end.

(** The events that run [handleNew]: the button of the control panel and the
    shortcut. *)
Definition isNew (e : Event) : bool :=
  match e with
  | ClickNew => true
  | KeyDown Key_mod_n _ => true
  | _ => false
  end.

(** The document after the reset: empty text, welcome state, clean, default
    file name, nothing in the store. *)
Definition isReset (w : World) : Prop :=
  content (ui w) = []
  /\ showWelcome (ui w) = true
  /\ isSaved (ui w) = true
  /\ currentFilename (settings (ui w)) = js "document.txt"
  /\ item_content (sessionStorage w) = None.

(** The request for confirmation: the dialog is shown and the reset is stored,
    not run. *)
Definition askToConfirm (u : Ui) : Ui :=
  setShowUnsavedDialog true (setPendingAction (Some ResetDocument) u).

(** What a run of the save routine on text [c] leaves of the dirty flag, the
    auto-save flag and the store, and what it outputs: nothing when auto-save
    is off or the text is empty; the sticky switch-off when the text is over
    the ceiling; the write, or the logged failure. *)
Definition saveOutcome (c : jsstring) (en ok : bool) (w w' : World) (o : list Output) : Prop :=
  if negb en || (List.length c =? 0)%nat then
    isSaved (ui w') = isSaved (ui w) /\ autoSaveEnabled (ui w') = en
    /\ sessionStorage w' = sessionStorage w /\ o = []
  else if MAX_FILE_SIZE <? blobSize c then
    isSaved (ui w') = isSaved (ui w) /\ autoSaveEnabled (ui w') = false
    /\ sessionStorage w' = sessionStorage w
    /\ o = [Out_console_warn "File size exceeds 5MB limit. Auto-save disabled."]
  else if ok then
    isSaved (ui w') = true /\ autoSaveEnabled (ui w') = en
    /\ sessionStorage w' = setItem_content c (sessionStorage w)
    /\ o = [Out_setItem_content c]
  else
    isSaved (ui w') = isSaved (ui w) /\ autoSaveEnabled (ui w') = en
    /\ sessionStorage w' = sessionStorage w
    /\ o = [Out_setItem_content_throws c; Out_console_error "Failed to auto-save:"].

(** ** Sample files and sessions *)

(** The world after the events [es] in a new tab. *)
Definition after (es : list Event) : World :=
  match run es fresh with
  | Some (w, _) => w
  | None => fresh
  end.

(** What the events [es] output in a new tab, when they can all happen. *)
Definition outputs (es : list Event) : option (list Output) :=
  match run es fresh with
  | Some (_, o) => Some o
  | None => None
  end.

(** A file of 5 MiB and one byte, a small Markdown file, and a picture. *)
Definition hugeFile : File :=
  {| file_name := js "huge.txt"; file_type := js "text/plain";
     file_size := 5242881; file_text := js "x" |}.

Definition notesFile : File :=
  {| file_name := js "notes.md"; file_type := js "";
     file_size := 7; file_text := js "# Title" |}.

Definition pictureFile : File :=
  {| file_name := js "photo.png"; file_type := js "image/png";
     file_size := 2048; file_text := [] |}.

Definition todoFile : File :=
  {| file_name := js "todo.txt"; file_type := js "text/plain";
     file_size := 9; file_text := js "- buy tea" |}.

(** A new tab in which "draft" was typed. *)
Definition draftWorld : World := after [Change (js "draft")].


(** A document typed and then emptied: dirty, with no text. *)
Definition emptiedWorld : World := after [Change (js "a"); Change []].

(** A text of 5 MiB and one byte, typed into a new tab. *)
Definition bigText : jsstring := repeat 97 (N.to_nat 5242881).

Definition bigWorld : World := after [Change bigText].

(** A session in which the sliders were moved and the page was reloaded. *)
Definition tunedWorld : World :=
  after [FontSizeSlider 20; LeftMarginSlider 100; RightMarginSlider 0; Reload].

(** ** The counter, the caret and the welcome text *)

(** The code units matched by [\s] in a regular expression, which are also
    the ones [trim] strips: white space and line terminators. *)
Definition isWhiteSpace (c : N) : bool :=
  (c =? 0x09) || (c =? 0x0A) || (c =? 0x0B) || (c =? 0x0C) || (c =? 0x0D)
  || (c =? 0x20) || (c =? 0xA0) || (c =? 0x1680)
  || ((0x2000 <=? c) && (c <=? 0x200A))
  || (c =? 0x2028) || (c =? 0x2029) || (c =? 0x202F) || (c =? 0x205F)
  || (c =? 0x3000) || (c =? 0xFEFF).

(** [s.trim()] *)
Fixpoint trimStart (s : jsstring) : jsstring :=
  match s with
  | [] => []
  | c :: rest => if isWhiteSpace c then trimStart rest else s
  end.

Definition trimEnd (s : jsstring) : jsstring := rev (trimStart (rev s)).

Definition trim (s : jsstring) : jsstring := trimEnd (trimStart s).

(** [s.split(/\s+/)]: the pieces between the maximal runs of white space.  A
    run at the start or at the end leaves an empty piece there, and the empty
    string gives one empty piece.  [cur] is the piece being read, reversed;
    [inRun] says that the last code unit was white space. *)
Fixpoint splitWhiteSpace_from (cur : jsstring) (inRun : bool) (s : jsstring) : list jsstring :=
  match s with
  | [] => [rev cur]
  | c :: rest =>
      if isWhiteSpace c then
        if inRun then splitWhiteSpace_from [] true rest
        else rev cur :: splitWhiteSpace_from [] true rest
      else splitWhiteSpace_from (c :: cur) false rest
  end.

Definition splitWhiteSpace (s : jsstring) : list jsstring :=
  splitWhiteSpace_from [] false s.

(** [getCount]: the words, or the code units, of the text. *)
Definition getCount (u : Ui) : nat :=
  if showWordCount (settings u) then
    List.length
      (filter (fun word => (0 <? List.length word)%nat)
              (splitWhiteSpace (trim (content u))))
  else List.length (content u).

(** The words of a text, counted where they start: at a code unit that is not
    white space and follows white space or the start of the text. *)
Fixpoint wordStarts (afterSpace : bool) (s : jsstring) : nat :=
  match s with
  | [] => 0
  | c :: rest =>
      if isWhiteSpace c then wordStarts true rest
      else ((if afterSpace then 1 else 0) + wordStarts false rest)%nat
  end.

Definition countWords (s : jsstring) : nat := wordStarts true s.

(** [s.split('\n')]; [cur] is the line being read, reversed. *)
Fixpoint splitLines_from (cur : jsstring) (s : jsstring) : list jsstring :=
  match s with
  | [] => [rev cur]
  | c :: rest =>
      if c =? 10 then rev cur :: splitLines_from [] rest
      else splitLines_from (c :: cur) rest
  end.

Definition splitLines (s : jsstring) : list jsstring := splitLines_from [] s.

(** [getCursorLinePosition], for the text and the caret offset of the
    render: the line and the column of the caret, both from 0. *)
Definition getCursorLinePosition (content : jsstring) (cursorPosition : nat) : nat * nat :=
  let textBeforeCursor := substring 0 cursorPosition content in
  let lines := splitLines textBeforeCursor in
  ((List.length lines - 1)%nat,
   List.length (nth (List.length lines - 1) lines [])).

Definition welcomeMessage : jsstring :=
  js "Welcome to type-B... to start just type anything".

(** The welcome animation: the counter [index] of the effect's closure, the
    state [welcomeText], and whether the interval is still set. *)
Record Animation := {
  anim_index : nat;
  anim_welcomeText : jsstring;
  anim_running : bool
}.

(** The effect starts with [index = 0]; [welcomeText] is what the state holds
    then. *)
Definition animation_start (welcomeText : jsstring) : Animation :=
  {| anim_index := 0; anim_welcomeText := welcomeText; anim_running := true |}.

(** One call of the interval callback, every 80 ms while the interval is
    set. *)
Definition animation_tick (a : Animation) : Animation :=
  if anim_running a then
    if (anim_index a <? List.length welcomeMessage)%nat then
      {| anim_index := S (anim_index a);
         anim_welcomeText := slice 0 (anim_index a + 1) welcomeMessage;
         anim_running := true |}
    else
      {| anim_index := anim_index a; anim_welcomeText := anim_welcomeText a;
         anim_running := false |}
  else a.

Fixpoint animation_ticks (n : nat) (a : Animation) : Animation :=
  match n with
  | O => a
  | S n' => animation_ticks n' (animation_tick a)
  end.

(** The sizes the page renders from the settings: the left padding of the
    editor, its right padding (in the earlier revision, with room for the
    branding), its right margin (in the later revision), and the font size of
    the inline count. *)
Definition paddingLeft (s : EditorSettings) : Z := Z.max 32 (leftMargin s).
Definition paddingRight (s : EditorSettings) : Z := Z.max 32 (rightMargin s + 200).
Definition marginRight (s : EditorSettings) : Z := Z.max 32 (rightMargin s).
Definition countFontSize (s : EditorSettings) : Z := Z.max 12 (fontSize s - 2).

(** The stored settings are the current ones. *)
Definition settingsMirrored (w : World) : Prop :=
  item_settings (sessionStorage w) = Some (stringify (settings (ui w))).

(** The world in which [readFile] runs: [handleDrop] first ends the drag
    highlight, [handleFileSelect] changes nothing. *)
Definition entered (e : Event) (w : World) : World :=
  match e with
  | Drop _ => onUi (setIsDragOver false) w
  | _ => w
  end.

(** The snapshot [reader.onload] of a read of [f] leaves. *)
Definition loaded (f : File) (u : Ui) : Ui :=
  setSettings (setCurrentFilename (file_name f))
    (setIsSaved true (setShowWelcome false (setContent (file_text f) u))).

(** What a handler did to the stored document of [w]: nothing, removed it, or
    put there the text its world shows. *)
Definition storedBy (w : World) (h : Handled) : Prop :=
  (item_content (sessionStorage (h_world h)) = item_content (sessionStorage w)
   /\ contentWrites (h_out h) = [])
  \/ (item_content (sessionStorage (h_world h)) = None
      /\ contentWrites (h_out h) = [])
  \/ (item_content (sessionStorage (h_world h)) = Some (content (ui (h_world h)))
      /\ contentWrites (h_out h) = [content (ui (h_world h))]).

(** ** Strings *)

Section Strings.

Lemma js_eqb_refl (a : jsstring) : js_eqb a a = true.
Proof.
  induction a as [|x a IH]; simpl; [reflexivity|].
  now rewrite N.eqb_refl, IH.
Qed.

Lemma js_eqb_eq (a b : jsstring) : js_eqb a b = true <-> a = b.
Proof.
  split.
  - revert b. induction a as [|x a IH]; intros [|y b] H; simpl in H;
      try discriminate; [reflexivity|].
    apply andb_true_iff in H as [Hx Hab].
    apply N.eqb_eq in Hx. apply IH in Hab. now subst.
  - intros ->. apply js_eqb_refl.
Qed.

Lemma js_eqb_neq (a b : jsstring) : a <> b -> js_eqb a b = false.
Proof.
  intros H. destruct (js_eqb a b) eqn:E; [|reflexivity].
  apply js_eqb_eq in E. contradiction.
Qed.

Lemma length_eqb_0 (a : jsstring) : (List.length a =? 0)%nat = true <-> a = [].
Proof.
  destruct a; simpl; split; intros H; try reflexivity; discriminate.
Qed.

Lemma length_pos (a : jsstring) : (0 <? List.length a)%nat = true <-> a <> [].
Proof.
  destruct a; simpl; split; intros H; try discriminate; try reflexivity.
  now contradiction H.
Qed.

Lemma length_pos_false (a : jsstring) : (0 <? List.length a)%nat = false <-> a = [].
Proof.
  destruct a; simpl; split; intros H; try reflexivity; discriminate.
Qed.

(** A text of [n] ASCII characters takes [n] bytes. *)
Lemma blobSize_repeat_ascii (c : N) (n : nat) :
  c < 0x80 -> blobSize (repeat c n) = N.of_nat n.
Proof.
  intros Hc. induction n as [|n IH].
  - reflexivity.
  - cbn [repeat blobSize]. apply N.ltb_lt in Hc. rewrite Hc, IH. lia.
Qed.

End Strings.

(** ** The timer invariant *)

Section TimerInvariant.

Lemma timersOk_onUi u f w : timersOk u w -> timersOk u (onUi f w).
Proof. intros [H1 H2 H3 H4]. constructor; assumption. Qed.

Lemma timersOk_onStorage u f w : timersOk u w -> timersOk u (onStorage f w).
Proof. intros [H1 H2 H3 H4]. constructor; assumption. Qed.

Lemma timersOk_setReading u r w : timersOk u w -> timersOk u (setReading r w).
Proof. intros [H1 H2 H3 H4]. constructor; assumption. Qed.

Lemma timersOk_setNow u t w : timersOk u w -> timersOk u (setNow t w).
Proof. intros [H1 H2 H3 H4]. constructor; assumption. Qed.

Lemma In_removeTimer id t ts :
  In t (removeTimer id ts) <-> In t ts /\ tid t <> id.
Proof.
  unfold removeTimer. rewrite filter_In, negb_true_iff, N.eqb_neq. tauto.
Qed.

(** Taking a timer out of the table keeps the identifiers distinct. *)
Lemma removeTimer_NoDup id ts :
  NoDup (map tid ts) -> NoDup (map tid (removeTimer id ts)).
Proof.
  unfold removeTimer.
  induction ts as [|t ts IH]; intros D; [exact D|].
  apply NoDup_cons_iff in D as [Hnew Hrest]. cbn [filter].
  destruct (negb (tid t =? id)); [|now apply IH].
  cbn [map]. apply NoDup_cons_iff. split; [|now apply IH].
  intros Hin. apply in_map_iff in Hin as (t' & Heq & Hin).
  apply filter_In in Hin as [Hin _].
  apply Hnew. apply in_map_iff. now exists t'.
Qed.

Lemma timersOk_clearTimeout u id w : timersOk u w -> timersOk u (clearTimeout id w).
Proof.
  intros [H1 H2 H3 H4]. constructor; cbn.
  - intros t Ht. apply In_removeTimer in Ht as [Ht _]. auto.
  - now apply removeTimer_NoDup.
  - intros t Ht. apply In_removeTimer in Ht as [Ht _]. auto.
  - exact H4.
Qed.

Lemma timersOk_setTimeout u cb d w :
  isAutoSaveCb cb = false -> timersOk u w -> timersOk u (snd (setTimeout cb d w)).
Proof.
  intros Hcb [H1 H2 H3 H4]. constructor; cbn.
  - intros t Ht. apply in_app_iff in Ht as [Ht|[<-|[]]]; cbn.
    + specialize (H1 t Ht). lia.
    + lia.
  - rewrite map_app. cbn. apply NoDup_app; [assumption|repeat constructor; intros []|].
    intros a Ha [<-|[]]. apply in_map_iff in Ha as [t [Ht Hin]].
    specialize (H1 t Hin). lia.
  - intros t Ht. apply in_app_iff in Ht as [Ht|[<-|[]]]; [auto|].
    intros c en Hc. cbn in Hc. subst cb. discriminate.
  - intros id Hid. specialize (H4 id Hid). lia.
Qed.

End TimerInvariant.

Section TimerInvariantSteps.

Lemma depsUnchanged_true prev next :
  depsUnchanged prev next = true <->
  content prev = content next /\ isSaved prev = isSaved next
  /\ autoSaveEnabled prev = autoSaveEnabled next.
Proof.
  unfold depsUnchanged.
  rewrite !andb_true_iff, js_eqb_eq, !Bool.eqb_true_iff. tauto.
Qed.

Lemma depsUnchanged_refl u : depsUnchanged u u = true.
Proof. apply depsUnchanged_true. auto. Qed.

Lemma timersOk_deps prev next w :
  depsUnchanged prev next = true -> timersOk prev w -> timersOk next w.
Proof.
  intros Hd [H1 H2 H3 H4]. apply depsUnchanged_true in Hd as (Hc & Hs & He).
  constructor; try assumption.
  intros t Ht c en Hcb. destruct (H3 t Ht c en Hcb) as (? & ? & ? & ? & ?).
  repeat split; congruence.
Qed.

Lemma timersOk_clearAutoSaveTimer u w :
  timersOk u w -> timersOk u (clearAutoSaveTimer w).
Proof.
  intros H. unfold clearAutoSaveTimer.
  destruct (autoSaveTimerRef w); [now apply timersOk_clearTimeout|assumption].
Qed.

(** Clearing the timer the ref names leaves no auto-save timer behind. *)
Lemma clearAutoSaveTimer_none u w t :
  timersOk u w -> In t (timers (clearAutoSaveTimer w)) ->
  isAutoSaveCb (callback t) = false.
Proof.
  intros [_ _ H3 _] Ht.
  destruct (callback t) as [c en| |a] eqn:Hcb; try reflexivity. exfalso.
  unfold clearAutoSaveTimer in Ht. destruct (autoSaveTimerRef w) as [id|] eqn:Hr.
  - cbn in Ht. apply In_removeTimer in Ht as [Ht Hne].
    destruct (H3 t Ht c en Hcb) as (Href & _). congruence.
  - destruct (H3 t Ht c en Hcb) as (Href & _). congruence.
Qed.

Lemma clearAutoSaveTimer_ui w : ui (clearAutoSaveTimer w) = ui w.
Proof. unfold clearAutoSaveTimer. now destruct (autoSaveTimerRef w). Qed.

Lemma clearAutoSaveTimer_nextTimerId w :
  nextTimerId (clearAutoSaveTimer w) = nextTimerId w.
Proof. unfold clearAutoSaveTimer. now destruct (autoSaveTimerRef w). Qed.

(** Whenever the timer effect runs, the timers it leaves are those of the
    new snapshot: the old auto-save timer is gone, and at most the new one is
    there. *)
Lemma autoSaveTimerEffect_wf prev w : timersOk prev w -> wf (autoSaveTimerEffect w).
Proof.
  intros H. unfold autoSaveTimerEffect.
  pose proof (timersOk_clearAutoSaveTimer _ _ H) as H1.
  pose proof (timersOk_clearAutoSaveTimer _ _ H1) as H2.
  assert (Hnone : forall t, In t (timers (clearAutoSaveTimer (clearAutoSaveTimer w))) ->
                            isAutoSaveCb (callback t) = false)
    by (intros t; apply (clearAutoSaveTimer_none prev); assumption).
  set (w1 := clearAutoSaveTimer (clearAutoSaveTimer w)) in *.
  destruct H2 as [F N A R].
  destruct (negb (isSaved (ui w1)) && (0 <? List.length (content (ui w1)))%nat) eqn:Harm.
  - apply andb_true_iff in Harm as [Hs Hl].
    apply negb_true_iff in Hs. apply length_pos in Hl.
    constructor; cbn.
    + intros t Ht. apply in_app_iff in Ht as [Ht|[<-|[]]]; cbn; [specialize (F t Ht)|]; lia.
    + rewrite map_app. cbn. apply NoDup_app; [assumption|repeat constructor; intros []|].
      intros a Ha [<-|[]]. apply in_map_iff in Ha as [t [Ht Hin]].
      specialize (F t Hin). lia.
    + intros t Ht c en Hcb. apply in_app_iff in Ht as [Ht|[<-|[]]].
      * apply Hnone in Ht. rewrite Hcb in Ht. discriminate.
      * cbn in Hcb. injection Hcb as <- <-. cbn. auto.
    + intros id Hid. injection Hid as <-. lia.
  - constructor; try assumption.
    intros t Ht c en Hcb. apply Hnone in Ht. rewrite Hcb in Ht. discriminate.
Qed.

Lemma commit_wf prev h : timersOk prev (h_world h) -> wf (fst (commit prev h)).
Proof.
  intros H. unfold commit.
  destruct (h_settings h); cbn [saveSettingsEffect].
  - destruct (depsUnchanged prev _) eqn:Hd; cbn [fst].
    + apply (timersOk_deps _ _ _ Hd). now apply timersOk_onStorage.
    + apply (autoSaveTimerEffect_wf prev). now apply timersOk_onStorage.
  - destruct (depsUnchanged prev _) eqn:Hd; cbn [fst].
    + now apply (timersOk_deps _ _ _ Hd).
    + now apply (autoSaveTimerEffect_wf prev).
Qed.

Create HintDb timers.

#[local] Hint Resolve timersOk_onUi timersOk_onStorage timersOk_setReading
  timersOk_setNow timersOk_clearTimeout timersOk_setTimeout : timers.

Lemma timersOk_autoSave u c en ok w :
  timersOk u w -> timersOk u (h_world (autoSave c en ok w)).
Proof.
  intros H. unfold autoSave.
  destruct (negb en || _); [assumption|].
  destruct (MAX_FILE_SIZE <? blobSize c); [cbn; auto with timers|].
  destruct ok; cbn [h_world handled]; auto 6 with timers.
Qed.

Lemma timersOk_runPending u a w :
  timersOk u w -> timersOk u (h_world (runPending a w)).
Proof. intros H. destruct a. cbn. auto with timers. Qed.

Lemma timersOk_readFile u f w :
  timersOk u w -> timersOk u (h_world (readFile f w)).
Proof.
  intros H. unfold readFile.
  destruct (MAX_FILE_SIZE <? file_size f); cbn; auto with timers.
Qed.

Lemma timersOk_handleNew u w :
  timersOk u w -> timersOk u (h_world (handleNew w)).
Proof.
  intros H. unfold handleNew.
  destruct (negb _ && _); [cbn; auto with timers|now apply timersOk_runPending].
Qed.

#[local] Hint Resolve timersOk_autoSave timersOk_runPending timersOk_readFile
  timersOk_handleNew : timers.

Lemma timersOk_handleKeyDown u k ok w :
  timersOk u w -> timersOk u (h_world (handleKeyDown k ok w)).
Proof. intros H. destruct k; cbn [handleKeyDown]; cbn; auto with timers. Qed.

Lemma guard_Some b h h' : guard b h = Some h' -> b = true /\ h' = h.
Proof. unfold guard. destruct b; intros E; [injection E as <-; auto|discriminate]. Qed.

(** Handlers add timers that are not auto-save timers, or remove timers. *)
Lemma handle_timersOk e w h :
  wf w -> handle e w = Some h -> timersOk (ui w) (h_world h).
Proof.
  unfold wf. intros H E.
  destruct e; cbn [handle] in E;
    try (injection E as <-);
    try (apply guard_Some in E as [_ ->]);
    try (cbn; now auto with timers).
  - (* KeyDown *) now apply timersOk_handleKeyDown.
  - (* FileSelect *) unfold handleFileSelect. destruct files; cbn; auto with timers.
  - (* Drop *) unfold handleDrop. destruct (find isTextFile files); cbn; auto with timers.
  - (* ReaderLoad *)
    destruct (nth_error (reading w) i); [injection E as <-|discriminate].
    destruct storeOk; cbn; auto with timers.
  - (* ReaderError *)
    destruct (nth_error (reading w) i); [injection E as <-|discriminate].
    cbn. auto with timers.
  - (* UnsavedDontSave *)
    unfold unsaved_dontSave. destruct (pendingAction (ui w)); cbn; auto with timers.
  - (* UnsavedSave *)
    unfold unsaved_save. destruct (pendingAction (ui w)); cbn [h_world handled];
      auto 6 with timers.
  - (* Fire *)
    unfold fire in E. destruct (findTimer id w) as [t|]; [|discriminate].
    destruct (due t <=? now w); [injection E as <-|discriminate].
    destruct (callback t); cbn [runCallback h_world handled]; auto 6 with timers.
Qed.

Lemma wf_mount store t next : wf (fst (mount store t next)).
Proof.
  unfold mount. destruct (item_settings store); cbn [fst];
    (constructor; cbn; [intros ? []|constructor|intros ? []|discriminate]).
Qed.

Lemma step_wf e w w' o : wf w -> step e w = Some (w', o) -> wf w'.
Proof.
  intros H E. unfold step in E.
  destruct (isReload e) eqn:R.
  - destruct e; try discriminate. injection E as E. unfold reload in E.
    pose proof (wf_mount (removeItem_content (sessionStorage w)) (now w) (nextTimerId w)) as M.
    destruct (mount _ _ _) as [w1 o1]. injection E as <- _. exact M.
  - assert (E' : match handle e w with
                 | Some h => Some (commit (ui w) h)
                 | None => None
                 end = Some (w', o)) by (destruct e; try exact E; discriminate).
    destruct (handle e w) as [h|] eqn:Hh; [|discriminate].
    injection E' as E'. pose proof (commit_wf (ui w) h (handle_timersOk _ _ _ H Hh)) as C.
    rewrite E' in C. exact C.
Qed.

Lemma reachable_wf w : reachable w -> wf w.
Proof.
  induction 1 as [|w e w' o _ IH E]; [apply wf_mount|].
  exact (step_wf _ _ _ _ IH E).
Qed.

(** At most one save attempt is pending. *)
Lemma wf_pendingSaves w : wf w -> (List.length (pendingSaves w) <= 1)%nat.
Proof.
  intros [_ N A _]. unfold pendingSaves.
  assert (K : forall t, In t (timers w) -> isAutoSaveCb (callback t) = true ->
                        autoSaveTimerRef w = Some (tid t)).
  { intros t Ht Hc. destruct (callback t) eqn:Hcb; try discriminate.
    now destruct (A t Ht _ _ Hcb). }
  revert N K. generalize (autoSaveTimerRef w). generalize (timers w).
  induction l as [|t l IH]; intros ref N K; cbn; [lia|].
  inversion N as [|? ? Hx Hl]; subst.
  destruct (isAutoSaveCb (callback t)) eqn:Ht.
  - cbn. assert (Hnil : filter (fun t => isAutoSaveCb (callback t)) l = []).
    { destruct (filter _ l) as [|t' l'] eqn:Hf; [reflexivity|exfalso].
      assert (Hin : In t' (filter (fun t => isAutoSaveCb (callback t)) l))
        by (rewrite Hf; now left).
      apply filter_In in Hin as [Hin Hc]. apply Hx. apply in_map_iff.
      exists t'. split; [|assumption].
      pose proof (K t (or_introl eq_refl) Ht) as K1.
      pose proof (K t' (or_intror Hin) Hc) as K2. congruence. }
    rewrite Hnil. cbn. lia.
  - apply (IH ref); [assumption|]. intros t' Hin. apply K. now right.
Qed.

End TimerInvariantSteps.

(** ** What a render leaves alone *)

Section Commit.

Lemma autoSaveTimerEffect_ui w : ui (autoSaveTimerEffect w) = ui w.
Proof.
  unfold autoSaveTimerEffect. destruct (negb _ && _); cbn;
    now rewrite !clearAutoSaveTimer_ui.
Qed.

Lemma clearAutoSaveTimer_frame w :
  sessionStorage (clearAutoSaveTimer w) = sessionStorage w
  /\ now (clearAutoSaveTimer w) = now w
  /\ reading (clearAutoSaveTimer w) = reading w.
Proof. unfold clearAutoSaveTimer. now destruct (autoSaveTimerRef w). Qed.

Lemma autoSaveTimerEffect_frame w :
  sessionStorage (autoSaveTimerEffect w) = sessionStorage w
  /\ now (autoSaveTimerEffect w) = now w
  /\ reading (autoSaveTimerEffect w) = reading w.
Proof.
  destruct (clearAutoSaveTimer_frame w) as (S1 & N1 & R1).
  destruct (clearAutoSaveTimer_frame (clearAutoSaveTimer w)) as (S2 & N2 & R2).
  unfold autoSaveTimerEffect. destruct (negb _ && _); cbn;
    repeat split; congruence.
Qed.

Lemma commit_ui prev h : ui (fst (commit prev h)) = ui (h_world h).
Proof.
  unfold commit. destruct (h_settings h); cbn [saveSettingsEffect];
    destruct (depsUnchanged prev _); cbn [fst];
    now rewrite ?autoSaveTimerEffect_ui.
Qed.

Lemma commit_now prev h : now (fst (commit prev h)) = now (h_world h).
Proof.
  unfold commit. destruct (h_settings h); cbn [saveSettingsEffect];
    destruct (depsUnchanged prev _); cbn [fst]; try reflexivity;
    now rewrite (proj1 (proj2 (autoSaveTimerEffect_frame _))).
Qed.

Lemma commit_reading prev h : reading (fst (commit prev h)) = reading (h_world h).
Proof.
  unfold commit. destruct (h_settings h); cbn [saveSettingsEffect];
    destruct (depsUnchanged prev _); cbn [fst]; try reflexivity;
    now rewrite (proj2 (proj2 (autoSaveTimerEffect_frame _))).
Qed.

Lemma commit_storage prev h :
  sessionStorage (fst (commit prev h)) =
  if h_settings h
  then setItem_settings (stringify (settings (ui (h_world h)))) (sessionStorage (h_world h))
  else sessionStorage (h_world h).
Proof.
  unfold commit. destruct (h_settings h); cbn [saveSettingsEffect];
    destruct (depsUnchanged prev _); cbn [fst]; try reflexivity;
    now rewrite (proj1 (autoSaveTimerEffect_frame _)).
Qed.

Lemma commit_item_content prev h :
  item_content (sessionStorage (fst (commit prev h))) =
  item_content (sessionStorage (h_world h)).
Proof. rewrite commit_storage. now destruct (h_settings h). Qed.

Lemma commit_out prev h :
  snd (commit prev h) =
  h_out h ++ (if h_settings h
              then [Out_setItem_settings (stringify (settings (ui (h_world h))))]
              else []).
Proof.
  unfold commit. destruct (h_settings h); cbn [saveSettingsEffect];
    destruct (depsUnchanged prev _); reflexivity.
Qed.

(** A handler that leaves the snapshot and the settings alone is followed by
    no effect at all. *)
Lemma commit_quiet prev w o :
  depsUnchanged prev (ui w) = true -> commit prev (handled w o false) = (w, o).
Proof. intros H. unfold commit. cbn. rewrite H. now rewrite app_nil_r. Qed.

Lemma step_handle e w :
  isReload e = false ->
  step e w = match handle e w with
             | Some h => Some (commit (ui w) h)
             | None => None
             end.
Proof. destruct e; intros R; try reflexivity; discriminate. Qed.

Lemma step_commit e w h :
  isReload e = false -> handle e w = Some h ->
  step e w = Some (fst (commit (ui w) h), snd (commit (ui w) h)).
Proof.
  intros R H. rewrite step_handle by assumption. rewrite H.
  now rewrite <- surjective_pairing.
Qed.

Lemma contentWrites_app o1 o2 :
  contentWrites (o1 ++ o2) = contentWrites o1 ++ contentWrites o2.
Proof.
  induction o1 as [|x o1 IH]; [reflexivity|].
  destruct x; cbn; now rewrite ?IH.
Qed.

End Commit.

(** ** Opening a file *)

Section Open.

Lemma nth_error_snoc {A} (l : list A) (x : A) : nth_error (l ++ [x]) (List.length l) = Some x.
Proof. induction l as [|y l IH]; [reflexivity|exact IH]. Qed.

Lemma removeNth_snoc {A} (l : list A) (x : A) : removeNth (List.length l) (l ++ [x]) = l.
Proof. induction l as [|y l IH]; [reflexivity|]. cbn. now rewrite IH. Qed.

(** What [reader.onload] leaves, whatever the world it finds: the document
    of the file in any case, the text in the store when the store takes it. *)
Lemma step_ReaderLoad w i ok f :
  nth_error (reading w) i = Some f ->
  exists w' o,
    step (ReaderLoad i ok) w = Some (w', o)
    /\ content (ui w') = file_text f
    /\ showWelcome (ui w') = false
    /\ isSaved (ui w') = true
    /\ currentFilename (settings (ui w')) = file_name f
    /\ item_content (sessionStorage w')
       = (if ok then Some (file_text f) else item_content (sessionStorage w))
    /\ contentWrites o = (if ok then [file_text f] else [])
    /\ (if ok then True else In (Out_setItem_content_throws (file_text f)) o)
    /\ now w' = now w
    /\ showUnsavedDialog (ui w') = showUnsavedDialog (ui w)
    /\ pendingAction (ui w') = pendingAction (ui w)
    /\ autoSaveEnabled (ui w') = autoSaveEnabled (ui w).
Proof.
  intros Hn.
  assert (H : handle (ReaderLoad i ok) w =
              Some (reader_onload f ok (setReading (removeNth i (reading w)) w)))
    by (cbn [handle]; now rewrite Hn).
  eexists _, _. split; [exact (step_commit (ReaderLoad i ok) _ _ eq_refl H)|].
  rewrite commit_ui, commit_item_content, commit_now, commit_out.
  destruct ok; cbn; repeat split; auto.
Qed.

(** What [readFile] does with a file it accepts: the read starts, nothing
    else changes yet. *)
Lemma step_opens_accepted e f w :
  opens e f -> file_size f <= MAX_FILE_SIZE ->
  exists w',
    step e w = Some (w', [Out_readAsText f])
    /\ reading w' = reading w ++ [f]
    /\ content (ui w') = content (ui w)
    /\ settings (ui w') = settings (ui w)
    /\ isSaved (ui w') = isSaved (ui w)
    /\ showWelcome (ui w') = showWelcome (ui w)
    /\ showUnsavedDialog (ui w') = showUnsavedDialog (ui w)
    /\ pendingAction (ui w') = pendingAction (ui w)
    /\ sessionStorage w' = sessionStorage w
    /\ now w' = now w.
Proof.
  intros Ho Hs. apply N.ltb_ge in Hs.
  destruct e; try contradiction; cbn in Ho.
  - destruct files as [|f' rest]; [contradiction|subst f'].
    rewrite step_handle by reflexivity. cbn [handle handleFileSelect].
    unfold readFile. rewrite Hs. rewrite commit_quiet by apply depsUnchanged_refl.
    eexists. split; [reflexivity|]. cbn. repeat split; reflexivity.
  - rewrite step_handle by reflexivity. cbn [handle]. unfold handleDrop. rewrite Ho.
    unfold readFile. rewrite Hs.
    rewrite commit_quiet by (apply depsUnchanged_true; cbn; auto).
    eexists. split; [reflexivity|]. cbn. repeat split; reflexivity.
Qed.

End Open.

(** C6: a file larger than [MAX_FILE_SIZE] handed to Open, by the file input
    or by a drop, raises the alert and nothing else: no read starts, and the
    text, the file name and the other settings, the dirty flag, the welcome
    state and the store are as before.  Through the file input the whole
    world is unchanged; a drop also ends the drag highlight. *)
Theorem C6_oversize_file_is_rejected (e : Event) (f : File) (w : World) :
  opens e f ->
  MAX_FILE_SIZE < file_size f ->
  exists w',
    step e w = Some (w', [Out_alert "File size exceeds 5MB limit."])
    /\ content (ui w') = content (ui w)
    /\ settings (ui w') = settings (ui w)
    /\ isSaved (ui w') = isSaved (ui w)
    /\ showWelcome (ui w') = showWelcome (ui w)
    /\ sessionStorage w' = sessionStorage w
    /\ reading w' = reading w
    /\ timers w' = timers w
    /\ (forall files, e = FileSelect files -> w' = w).
Proof.
  intros Ho Hs. apply N.ltb_lt in Hs.
  destruct e; try contradiction; cbn in Ho.
  - destruct files as [|f' rest]; [contradiction|subst f'].
    rewrite step_handle by reflexivity. cbn [handle handleFileSelect].
    unfold readFile. rewrite Hs. rewrite commit_quiet by apply depsUnchanged_refl.
    exists w. repeat split; reflexivity.
  - rewrite step_handle by reflexivity. cbn [handle]. unfold handleDrop. rewrite Ho.
    unfold readFile. rewrite Hs.
    rewrite commit_quiet by (apply depsUnchanged_true; cbn; auto).
    eexists. split; [reflexivity|]. cbn. repeat split; try reflexivity.
    intros files' Hf. discriminate.
Qed.


Lemma C6_oversize_file_is_rejected_witness :
  MAX_FILE_SIZE < file_size hugeFile
  /\ step (FileSelect [hugeFile]) fresh
     = Some (fresh, [Out_alert "File size exceeds 5MB limit."]).
Proof.
  assert (H : MAX_FILE_SIZE < file_size hugeFile) by reflexivity.
  split; [exact H|].
  destruct (C6_oversize_file_is_rejected (FileSelect [hugeFile]) hugeFile fresh eq_refl H)
    as (w' & E & _ & _ & _ & _ & _ & _ & _ & Hw).
  rewrite (Hw _ eq_refl) in E. exact E.
Defined.



(** ** Timers across a render *)

Section TimersKept.

Lemma findTimer_Some id w t : findTimer id w = Some t -> In t (timers w) /\ tid t = id.
Proof.
  unfold findTimer. intros H. apply find_some in H as [Hin Hid].
  now apply N.eqb_eq in Hid.
Qed.

Lemma findTimer_In w t :
  NoDup (map tid (timers w)) -> In t (timers w) -> findTimer (tid t) w = Some t.
Proof.
  unfold findTimer. induction (timers w) as [|x ts IH]; intros D Hin; [contradiction|].
  apply NoDup_cons_iff in D as [Hx D]. cbn [find map] in *.
  destruct Hin as [->|Hin]; [rewrite N.eqb_refl; reflexivity|].
  destruct (tid x =? tid t) eqn:E; [|now apply IH].
  apply N.eqb_eq in E. exfalso. apply Hx. rewrite E. now apply in_map.
Qed.

Lemma clearAutoSaveTimer_ref w :
  autoSaveTimerRef (clearAutoSaveTimer w) = autoSaveTimerRef w.
Proof.
  unfold clearAutoSaveTimer. destruct (autoSaveTimerRef w) eqn:E; [exact E|exact E].
Qed.

Lemma clearAutoSaveTimer_keeps w t :
  In t (timers w) -> autoSaveTimerRef w <> Some (tid t) ->
  In t (timers (clearAutoSaveTimer w)).
Proof.
  intros Hin Hr. unfold clearAutoSaveTimer.
  destruct (autoSaveTimerRef w) as [id|]; [|assumption].
  cbn. apply In_removeTimer. split; [assumption|]. congruence.
Qed.

(** The timer effect touches no timer but the one the ref names. *)
Lemma autoSaveTimerEffect_keeps w t :
  In t (timers w) -> autoSaveTimerRef w <> Some (tid t) ->
  In t (timers (autoSaveTimerEffect w)).
Proof.
  intros Hin Hr.
  assert (K : In t (timers (clearAutoSaveTimer (clearAutoSaveTimer w)))).
  { apply clearAutoSaveTimer_keeps; [now apply clearAutoSaveTimer_keeps|].
    now rewrite clearAutoSaveTimer_ref. }
  unfold autoSaveTimerEffect. destruct (negb _ && _); cbn; [|assumption].
  apply in_app_iff. now left.
Qed.

Lemma commit_keeps prev h t :
  In t (timers (h_world h)) -> autoSaveTimerRef (h_world h) <> Some (tid t) ->
  In t (timers (fst (commit prev h))).
Proof.
  intros Hin Hr. unfold commit.
  destruct (h_settings h); cbn [saveSettingsEffect];
    destruct (depsUnchanged prev _); cbn [fst]; try assumption;
    now apply autoSaveTimerEffect_keeps.
Qed.

End TimersKept.

(** ** New and the unsaved-changes dialog *)

Section New.

Lemma handle_isNew e w : isNew e = true -> handle e w = Some (handleNew w).
Proof. destruct e; try discriminate; [destruct k; try discriminate|]; reflexivity. Qed.

Lemma isNew_not_reload e : isNew e = true -> isReload e = false.
Proof. destruct e; try discriminate; reflexivity. Qed.

Lemma handleNew_guarded w :
  isSaved (ui w) = false -> content (ui w) <> [] ->
  handleNew w = handled (onUi askToConfirm w) [] false.
Proof.
  intros Hs Hc. unfold handleNew. rewrite Hs. apply length_pos in Hc. now rewrite Hc.
Qed.

Lemma handleNew_empty w :
  content (ui w) = [] -> handleNew w = runPending ResetDocument w.
Proof.
  intros Hc. unfold handleNew. rewrite Hc. cbn. now rewrite andb_false_r.
Qed.

(** New on a dirty, non-empty document: the dialog opens, nothing else
    happens. *)
Lemma step_new_guarded e w :
  isNew e = true -> isSaved (ui w) = false -> content (ui w) <> [] ->
  step e w = Some (onUi askToConfirm w, []).
Proof.
  intros He Hs Hc.
  rewrite step_handle by now apply isNew_not_reload.
  rewrite (handle_isNew _ _ He), (handleNew_guarded _ Hs Hc).
  rewrite commit_quiet; [reflexivity|]. apply depsUnchanged_true. cbn. auto.
Qed.

(** Whatever runs the stored reset leaves the reset document. *)
Lemma commit_runPending prev w (f : Ui -> Ui) :
  (forall u, content (f u) = content u /\ showWelcome (f u) = showWelcome u
             /\ isSaved (f u) = isSaved u /\ settings (f u) = settings u) ->
  let h := runPending ResetDocument w in
  isReset (fst (commit prev (handled (onUi f (h_world h)) (h_out h) (h_settings h)))).
Proof.
  intros Hf h. unfold isReset.
  rewrite commit_ui, commit_item_content. subst h.
  cbn [runPending h_world h_out h_settings handled onUi onStorage ui sessionStorage].
  destruct (Hf (setSettings (setCurrentFilename (js "document.txt"))
                  (setIsSaved true (setShowWelcome true (setContent [] (ui w))))))
    as (-> & -> & -> & ->).
  repeat split; reflexivity.
Qed.

(** New on an empty document: the reset, and no dialog. *)
Lemma step_new_empty e w :
  isNew e = true -> content (ui w) = [] ->
  exists w' o,
    step e w = Some (w', o) /\ isReset w'
    /\ showUnsavedDialog (ui w') = showUnsavedDialog (ui w)
    /\ pendingAction (ui w') = pendingAction (ui w).
Proof.
  intros He Hc.
  assert (H : handle e w = Some (runPending ResetDocument w))
    by (rewrite (handle_isNew _ _ He); now rewrite handleNew_empty).
  eexists _, _. split; [exact (step_commit e _ _ (isNew_not_reload _ He) H)|].
  split.
  - apply (commit_runPending (ui w) w (fun u => u)). auto.
  - rewrite commit_ui. cbn. auto.
Qed.

(** "Don't Save": the stored action runs at once. *)
Lemma step_dontSave w :
  showUnsavedDialog (ui w) = true -> pendingAction (ui w) = Some ResetDocument ->
  exists w' o,
    step UnsavedDontSave w = Some (w', o) /\ isReset w'
    /\ pendingAction (ui w') = None /\ showUnsavedDialog (ui w') = false.
Proof.
  intros Hd Hp.
  assert (H : handle UnsavedDontSave w = Some (unsaved_dontSave w))
    by (cbn [handle]; now rewrite Hd).
  eexists _, _. split; [exact (step_commit UnsavedDontSave _ _ eq_refl H)|].
  unfold unsaved_dontSave. rewrite Hp. split.
  - apply (commit_runPending (ui w) w
             (fun u => setShowUnsavedDialog false (setPendingAction None u))).
    cbn. auto.
  - rewrite commit_ui. cbn. auto.
Qed.

(** Dismissing the dialog: it closes, and that is all. *)
Lemma step_dismiss w :
  showUnsavedDialog (ui w) = true ->
  step UnsavedDismiss w = Some (onUi (setShowUnsavedDialog false) w, []).
Proof.
  intros Hd. rewrite step_handle by reflexivity. cbn [handle]. rewrite Hd. cbn [guard].
  unfold unsaved_dismiss. rewrite commit_quiet; [reflexivity|].
  apply depsUnchanged_true. cbn. auto.
Qed.

Lemma autoSave_frame c en ok w :
  content (ui (h_world (autoSave c en ok w))) = content (ui w)
  /\ pendingAction (ui (h_world (autoSave c en ok w))) = pendingAction (ui w)
  /\ now (h_world (autoSave c en ok w)) = now w
  /\ h_settings (autoSave c en ok w) = false.
Proof.
  unfold autoSave. destruct (negb en || _); [cbn; auto|].
  destruct (MAX_FILE_SIZE <? blobSize c); [cbn; auto|].
  destruct ok; cbn; auto.
Qed.

(** "Save": the save routine runs, the text stays, and the stored action is
    put on a timer of 100 ms. *)
Lemma step_unsavedSave ok w :
  wf w ->
  showUnsavedDialog (ui w) = true -> pendingAction (ui w) = Some ResetDocument ->
  exists w' o id,
    step (UnsavedSave ok) w = Some (w', o)
    /\ content (ui w') = content (ui w)
    /\ showUnsavedDialog (ui w') = false
    /\ findTimer id w'
       = Some {| tid := id; due := now w + 100; callback := CbRunPending ResetDocument |}.
Proof.
  intros Hwf Hd Hp.
  assert (H : handle (UnsavedSave ok) w = Some (unsaved_save ok w))
    by (cbn [handle]; now rewrite Hd).
  pose proof (commit_wf (ui w) _ (handle_timersOk _ _ _ Hwf H)) as Hwf'.
  destruct (autoSave_frame (content (ui w)) (autoSaveEnabled (ui w)) ok w)
    as (Hc & _ & Hn & _).
  pose proof (timersOk_autoSave (ui w) (content (ui w)) (autoSaveEnabled (ui w)) ok w Hwf)
    as Hok.
  set (h := autoSave (content (ui w)) (autoSaveEnabled (ui w)) ok w) in *.
  set (t0 := {| tid := nextTimerId (h_world h); due := now w + 100;
                callback := CbRunPending ResetDocument |}).
  exists (fst (commit (ui w) (unsaved_save ok w))),
         (snd (commit (ui w) (unsaved_save ok w))), (nextTimerId (h_world h)).
  split; [exact (step_commit (UnsavedSave ok) _ _ eq_refl H)|].
  split; [|split].
  - rewrite commit_ui. unfold unsaved_save. rewrite Hp. exact Hc.
  - rewrite commit_ui. unfold unsaved_save. rewrite Hp. reflexivity.
  - apply (findTimer_In _ t0); [apply Hwf'|].
    apply commit_keeps; unfold unsaved_save; rewrite Hp; fold h; cbn.
    + apply in_app_iff. right. left. unfold t0. now rewrite Hn.
    + intros Hr. apply (ok_ref _ _ Hok) in Hr. lia.
Qed.

(** The timer of "Save" runs the stored action when it fires. *)
Lemma step_fire_pending id ok w t :
  findTimer id w = Some t -> callback t = CbRunPending ResetDocument ->
  due t <= now w ->
  exists w' o,
    step (Fire id ok) w = Some (w', o) /\ isReset w' /\ pendingAction (ui w') = None.
Proof.
  intros Hf Hc Hdue.
  assert (H : handle (Fire id ok) w
              = Some (runCallback (CbRunPending ResetDocument) ok (clearTimeout id w))).
  { cbn [handle]. unfold fire. rewrite Hf, Hc.
    apply N.leb_le in Hdue. now rewrite Hdue. }
  eexists _, _. split; [exact (step_commit (Fire id ok) _ _ eq_refl H)|].
  split.
  - apply (commit_runPending (ui w) (clearTimeout id w) (setPendingAction None)).
    cbn. auto.
  - rewrite commit_ui. reflexivity.
Qed.

End New.

(** ** Sessions *)

Section Sessions.

Lemma reachable_run es : forall w w' o,
  reachable w -> run es w = Some (w', o) -> reachable w'.
Proof.
  induction es as [|e es IH]; intros w w' o Hr E; cbn in E.
  - injection E as <- _. exact Hr.
  - destruct (step e w) as [[w1 o1]|] eqn:S; [|discriminate].
    destruct (run es w1) as [[w2 o2]|] eqn:R; [|discriminate].
    injection E as <- _. apply (IH w1 w2 o2); [|exact R].
    exact (reach_step _ _ _ _ Hr S).
Qed.

Lemma reachable_after es : reachable (after es).
Proof.
  unfold after. destruct (run es fresh) as [[w o]|] eqn:R; [|constructor].
  exact (reachable_run _ _ _ _ reach_fresh R).
Qed.

End Sessions.

(** C1, as the code has it: on a dirty, non-empty document New only opens the
    unsaved-changes dialog and stores the reset; nothing else changes and
    nothing is output.  The reset then runs when the user answers: at once on
    "Don't Save", through a timer of 100 ms on "Save" after the save routine
    ran; dismissing the dialog runs nothing.  Open is not guarded: a file
    handed to Open in the same dirty state is read and replaces the text, and
    neither step shows the dialog or stores an action.  New on an empty
    document resets it without the dialog, whatever the dirty flag. *)
Theorem C1_new_asks_first_open_does_not (w : World) :
  reachable w ->
  isSaved (ui w) = false ->
  content (ui w) <> [] ->
  (forall e, isNew e = true ->
     step e w = Some (onUi askToConfirm w, [])
     /\ (exists w' o,
           step UnsavedDontSave (onUi askToConfirm w) = Some (w', o)
           /\ isReset w' /\ pendingAction (ui w') = None
           /\ showUnsavedDialog (ui w') = false)
     /\ (forall ok, exists w' o id,
           step (UnsavedSave ok) (onUi askToConfirm w) = Some (w', o)
           /\ content (ui w') = content (ui w)
           /\ showUnsavedDialog (ui w') = false
           /\ findTimer id w'
              = Some {| tid := id; due := now w + 100;
                        callback := CbRunPending ResetDocument |})
     /\ step UnsavedDismiss (onUi askToConfirm w)
        = Some (onUi (setShowUnsavedDialog false) (onUi askToConfirm w), []))
  /\ (forall w3 id ok t,
        findTimer id w3 = Some t -> callback t = CbRunPending ResetDocument ->
        due t <= now w3 ->
        exists w' o,
          step (Fire id ok) w3 = Some (w', o) /\ isReset w'
          /\ pendingAction (ui w') = None)
  /\ (forall e f, opens e f -> file_size f <= MAX_FILE_SIZE ->
        exists w1,
          step e w = Some (w1, [Out_readAsText f])
          /\ content (ui w1) = content (ui w)
          /\ showUnsavedDialog (ui w1) = showUnsavedDialog (ui w)
          /\ pendingAction (ui w1) = pendingAction (ui w)
          /\ forall ok, exists w2 o2,
               step (ReaderLoad (List.length (reading w)) ok) w1 = Some (w2, o2)
               /\ content (ui w2) = file_text f
               /\ showUnsavedDialog (ui w2) = showUnsavedDialog (ui w)
               /\ pendingAction (ui w2) = pendingAction (ui w))
  /\ (forall w0 e, isNew e = true -> content (ui w0) = [] ->
        exists w' o,
          step e w0 = Some (w', o) /\ isReset w'
          /\ showUnsavedDialog (ui w') = showUnsavedDialog (ui w0)
          /\ pendingAction (ui w') = pendingAction (ui w0)).
Proof.
  intros Hr Hs Hc. split; [|split; [|split]].
  - intros e He.
    pose proof (step_new_guarded e w He Hs Hc) as E.
    pose proof (step_wf _ _ _ _ (reachable_wf _ Hr) E) as Hwf.
    split; [exact E|]. split; [|split].
    + exact (step_dontSave (onUi askToConfirm w) eq_refl eq_refl).
    + intros ok. exact (step_unsavedSave ok (onUi askToConfirm w) Hwf eq_refl eq_refl).
    + exact (step_dismiss (onUi askToConfirm w) eq_refl).
  - intros w3 id ok t. apply step_fire_pending.
  - intros e f Ho Hsz.
    destruct (step_opens_accepted e f w Ho Hsz)
      as (w1 & E1 & R1 & C1 & _ & _ & _ & D1 & P1 & _ & _).
    assert (Hn : nth_error (reading w1) (List.length (reading w)) = Some f)
      by (rewrite R1; apply nth_error_snoc).
    exists w1. split; [exact E1|]. split; [exact C1|]. split; [exact D1|].
    split; [exact P1|]. intros ok.
    destruct (step_ReaderLoad w1 _ ok f Hn)
      as (w2 & o2 & E2 & C2 & _ & _ & _ & _ & _ & _ & _ & D2 & P2 & _).
    exists w2, o2. split; [exact E2|]. split; [exact C2|]. split; congruence.
  - intros w0 e. apply step_new_empty.
Qed.

Lemma C1_new_asks_first_open_does_not_witness :
  isSaved (ui draftWorld) = false
  /\ content (ui draftWorld) <> []
  /\ step ClickNew draftWorld = Some (onUi askToConfirm draftWorld, []).
Proof.
  assert (Hs : isSaved (ui draftWorld) = false) by reflexivity.
  assert (Hc : content (ui draftWorld) <> []) by discriminate.
  split; [exact Hs|]. split; [exact Hc|].
  destruct (C1_new_asks_first_open_does_not draftWorld
              (reachable_after _) Hs Hc) as (Hnew & _).
  exact (proj1 (Hnew ClickNew eq_refl)).
Defined.

(** C1 as stated fails for Open: with "draft" typed and unsaved, opening
    [notes.md] replaces the text, and at no point is the dialog shown or an
    action stored. *)
Lemma C1_open_replaces_without_confirmation :
  let picked := [Change (js "draft"); FileSelect [notesFile]] in
  let loaded := [Change (js "draft"); FileSelect [notesFile]; ReaderLoad 0 true] in
  isSaved (ui draftWorld) = false
  /\ content (ui draftWorld) = js "draft"
  /\ outputs loaded
     = Some [Out_readAsText notesFile; Out_setItem_content (js "# Title");
             Out_setItem_settings
               (stringify (setCurrentFilename (js "notes.md") defaultSettings))]
  /\ showUnsavedDialog (ui (after picked)) = false
  /\ pendingAction (ui (after picked)) = None
  /\ content (ui (after picked)) = js "draft"
  /\ showUnsavedDialog (ui (after loaded)) = false
  /\ pendingAction (ui (after loaded)) = None
  /\ content (ui (after loaded)) = js "# Title".
Proof. vm_compute. auto 10. Qed.

(** ** Save attempts *)

Section SaveAttempts.

Lemma autoSave_outcome c ok w :
  let a := autoSave c (autoSaveEnabled (ui w)) ok w in
  saveOutcome c (autoSaveEnabled (ui w)) ok w (h_world a) (h_out a).
Proof.
  unfold saveOutcome, autoSave.
  destruct (negb (autoSaveEnabled (ui w)) || _) eqn:E1; [cbn; auto|].
  destruct (MAX_FILE_SIZE <? blobSize c); [cbn; auto|].
  destruct ok; cbn; auto.
Qed.

(** The handler of a save attempt is the save routine on the current text
    and flag, run in a world with the same snapshot and store, and followed
    by updates [g] that touch neither the document nor the store. *)
Lemma handle_saveAttempt e ok w h :
  wf w -> saveAttempt e w = Some ok -> handle e w = Some h ->
  exists w0 (g : World -> World),
    ui w0 = ui w /\ sessionStorage w0 = sessionStorage w
    /\ (forall x, ui (g x) = setShowUnsavedDialog false (ui x) \/ ui (g x) = ui x)
    /\ (forall x, sessionStorage (g x) = sessionStorage x)
    /\ h_world h = g (h_world (autoSave (content (ui w)) (autoSaveEnabled (ui w)) ok w0))
    /\ h_out h = h_out (autoSave (content (ui w)) (autoSaveEnabled (ui w)) ok w0)
    /\ h_settings h = false.
Proof.
  intros Hwf Hs Hh. destruct e; try discriminate.
  - (* the shortcut *)
    destruct k; try discriminate. injection Hs as ->. injection Hh as <-.
    exists w, (fun x => x). cbn [handleKeyDown].
    repeat split; auto. apply autoSave_frame.
  - (* the Save button of the dialog *)
    injection Hs as ->. cbn [handle] in Hh. apply guard_Some in Hh as [_ ->].
    exists w, (fun x => onUi (setShowUnsavedDialog false)
                          match pendingAction (ui w) with
                          | Some a => snd (setTimeout (CbRunPending a) 100 x)
                          | None => x
                          end).
    unfold unsaved_save. cbn [h_world h_out h_settings handled].
    repeat split; auto.
    + intros x. left. now destruct (pendingAction (ui w)).
    + intros x. now destruct (pendingAction (ui w)).
    + apply autoSave_frame.
  - (* the timer *)
    cbn [saveAttempt] in Hs. cbn [handle] in Hh. unfold fire in Hh.
    destruct (findTimer id w) as [t|] eqn:Hf; [|discriminate].
    destruct (callback t) as [c en| |a] eqn:Hc; try discriminate.
    injection Hs as ->.
    destruct (due t <=? now w); [injection Hh as <-|discriminate].
    apply findTimer_Some in Hf as [Hin _].
    destruct (ok_armed _ _ Hwf t Hin c en Hc) as (_ & -> & -> & _).
    exists (clearTimeout id w), (fun x => x). cbn [runCallback].
    repeat split; auto. apply autoSave_frame.
Qed.

(** A save attempt, as one step. *)
Lemma step_saveAttempt e ok w w' o :
  wf w -> saveAttempt e w = Some ok -> step e w = Some (w', o) ->
  content (ui w') = content (ui w)
  /\ saveOutcome (content (ui w)) (autoSaveEnabled (ui w)) ok w w' o.
Proof.
  intros Hwf Hs E.
  assert (R : isReload e = false) by (destruct e; try discriminate; reflexivity).
  rewrite step_handle in E by exact R.
  destruct (handle e w) as [h|] eqn:Hh; [|discriminate].
  injection E as E.
  destruct (handle_saveAttempt e ok w h Hwf Hs Hh)
    as (w0 & g & Hu & Hst & Hg & Hgs & Hw & Ho & Hset).
  assert (Ew : w' = fst (commit (ui w) h)) by now rewrite E.
  assert (Eo : o = snd (commit (ui w) h)) by now rewrite E.
  assert (Eu : ui w' = ui (h_world h)) by (rewrite Ew; apply commit_ui).
  assert (Es : sessionStorage w' = sessionStorage (h_world h))
    by (rewrite Ew, commit_storage, Hset; reflexivity).
  rewrite commit_out, Hset, app_nil_r in Eo.
  pose proof (autoSave_outcome (content (ui w)) ok w0) as A. cbn zeta in A.
  rewrite Hu in A.
  destruct (autoSave_frame (content (ui w)) (autoSaveEnabled (ui w)) ok w0) as (Hc & _).
  set (a := autoSave (content (ui w)) (autoSaveEnabled (ui w)) ok w0) in *.
  assert (Hdoc : content (ui (g (h_world a))) = content (ui (h_world a))
                 /\ isSaved (ui (g (h_world a))) = isSaved (ui (h_world a))
                 /\ autoSaveEnabled (ui (g (h_world a))) = autoSaveEnabled (ui (h_world a)))
    by (destruct (Hg (h_world a)) as [-> | ->]; cbn; auto).
  destruct Hdoc as (G1 & G2 & G3).
  split; [rewrite Eu, Hw, G1, Hc, Hu; reflexivity|].
  unfold saveOutcome in *. rewrite ?Hu, ?Hst in A.
  rewrite Eu, Es, Eo, Hw, Ho, Hgs, G2, G3. exact A.
Qed.

End SaveAttempts.

Section SaveAttemptFacts.

Lemma saveAttempt_shortcut ok w : saveAttempt (KeyDown Key_mod_s ok) w = Some ok.
Proof. reflexivity. Qed.

(** The save shortcut can always be pressed. *)
Lemma step_shortcut_total ok w :
  exists w' o, step (KeyDown Key_mod_s ok) w = Some (w', o).
Proof.
  eexists _, _. exact (step_commit (KeyDown Key_mod_s ok) w _ eq_refl eq_refl).
Qed.

(** With an empty text no auto-save timer is pending. *)
Lemma wf_empty_no_pendingSaves w : wf w -> content (ui w) = [] -> pendingSaves w = [].
Proof.
  intros Hwf Hc. unfold pendingSaves.
  destruct (filter _ (timers w)) as [|t l] eqn:F; [reflexivity|exfalso].
  assert (Hin : In t (filter (fun t => isAutoSaveCb (callback t)) (timers w)))
    by (rewrite F; now left).
  apply filter_In in Hin as [Hin Hcb].
  destruct (callback t) as [c en| |a] eqn:E; try discriminate.
  destruct (ok_armed _ _ Hwf t Hin c en E) as (_ & -> & _ & _ & Hne).
  contradiction.
Qed.

Lemma saveOutcome_skip c en ok w w' o :
  en = false \/ c = [] -> saveOutcome c en ok w w' o ->
  isSaved (ui w') = isSaved (ui w) /\ autoSaveEnabled (ui w') = en
  /\ sessionStorage w' = sessionStorage w /\ o = [].
Proof.
  unfold saveOutcome. intros [-> | ->]; cbn; [tauto|].
  now rewrite orb_true_r.
Qed.

Lemma blobSize_nil_inv c : 0 < blobSize c -> c <> [].
Proof. intros H ->. cbn in H. lia. Qed.

Lemma saveOutcome_oversize c ok w w' o :
  MAX_FILE_SIZE < blobSize c -> saveOutcome c true ok w w' o ->
  isSaved (ui w') = isSaved (ui w) /\ autoSaveEnabled (ui w') = false
  /\ sessionStorage w' = sessionStorage w
  /\ o = [Out_console_warn "File size exceeds 5MB limit. Auto-save disabled."].
Proof.
  unfold saveOutcome. intros H.
  assert (Hc : c <> []) by (apply blobSize_nil_inv; unfold MAX_FILE_SIZE in H; lia).
  destruct c as [|x c]; [contradiction|]. cbn [negb orb List.length Nat.eqb].
  apply N.ltb_lt in H. now rewrite H.
Qed.

Lemma saveOutcome_attempt c ok w w' o :
  c <> [] -> blobSize c <= MAX_FILE_SIZE -> saveOutcome c true ok w w' o ->
  if ok then
    isSaved (ui w') = true /\ autoSaveEnabled (ui w') = true
    /\ sessionStorage w' = setItem_content c (sessionStorage w)
    /\ o = [Out_setItem_content c]
  else
    isSaved (ui w') = isSaved (ui w) /\ autoSaveEnabled (ui w') = true
    /\ sessionStorage w' = sessionStorage w
    /\ o = [Out_setItem_content_throws c; Out_console_error "Failed to auto-save:"].
Proof.
  unfold saveOutcome. intros Hc H.
  destruct c as [|x c]; [contradiction|]. cbn [negb orb List.length Nat.eqb].
  apply N.ltb_ge in H. now rewrite H.
Qed.

End SaveAttemptFacts.

(** C10: with an empty text no save attempt is pending, and a save attempt
    that runs all the same (the shortcut, the Save button of the dialog, a
    timer) writes nothing, outputs nothing, and leaves the store and the
    dirty flag as they were; the shortcut in particular goes through and does
    exactly that. *)
Theorem C10_empty_text_is_not_saved (w : World) :
  reachable w ->
  content (ui w) = [] ->
  pendingSaves w = []
  /\ (forall e ok w' o,
        saveAttempt e w = Some ok -> step e w = Some (w', o) ->
        o = [] /\ sessionStorage w' = sessionStorage w
        /\ isSaved (ui w') = isSaved (ui w) /\ content (ui w') = [])
  /\ (forall ok, exists w',
        step (KeyDown Key_mod_s ok) w = Some (w', [])
        /\ sessionStorage w' = sessionStorage w
        /\ isSaved (ui w') = isSaved (ui w)).
Proof.
  intros Hr Hc. pose proof (reachable_wf _ Hr) as Hwf.
  assert (K : forall e ok w' o,
             saveAttempt e w = Some ok -> step e w = Some (w', o) ->
             o = [] /\ sessionStorage w' = sessionStorage w
             /\ isSaved (ui w') = isSaved (ui w) /\ content (ui w') = []).
  { intros e ok w' o Hs E.
    destruct (step_saveAttempt e ok w w' o Hwf Hs E) as (C & O).
    apply saveOutcome_skip in O as (S1 & _ & S2 & S3); [|now right].
    repeat split; congruence. }
  split; [now apply wf_empty_no_pendingSaves|]. split; [exact K|].
  intros ok. destruct (step_shortcut_total ok w) as (w' & o & E).
  destruct (K _ ok w' o (saveAttempt_shortcut ok w) E) as (-> & S & D & _).
  now exists w'.
Qed.

Lemma C10_empty_text_is_not_saved_witness :
  content (ui emptiedWorld) = []
  /\ isSaved (ui emptiedWorld) = false
  /\ exists w',
       step (KeyDown Key_mod_s true) emptiedWorld = Some (w', [])
       /\ sessionStorage w' = sessionStorage emptiedWorld
       /\ isSaved (ui w') = false.
Proof.
  assert (Hc : content (ui emptiedWorld) = []) by reflexivity.
  split; [exact Hc|]. split; [reflexivity|].
  destruct (C10_empty_text_is_not_saved emptiedWorld (reachable_after _) Hc)
    as (_ & _ & K).
  exact (K true).
Defined.

(** ** The dirty flag and the store *)

Section Dirty.

Lemma step_inv e w w' o :
  isReload e = false -> step e w = Some (w', o) ->
  exists h, handle e w = Some h
            /\ w' = fst (commit (ui w) h) /\ o = snd (commit (ui w) h).
Proof.
  intros R E. rewrite step_handle in E by exact R.
  destruct (handle e w) as [h|]; [|discriminate].
  exists h. split; [reflexivity|].
  assert (E' : commit (ui w) h = (w', o)) by congruence.
  now rewrite E'.
Qed.


(** Every change of the textarea leaves the document dirty. *)
Lemma step_Change v w :
  exists w', step (Change v) w = Some (w', [])
             /\ content (ui w') = v /\ isSaved (ui w') = false
             /\ showWelcome (ui w') = false
             /\ sessionStorage w' = sessionStorage w.
Proof.
  exists (fst (commit (ui w) (handleChange v w))).
  assert (E : step (Change v) w
              = Some (fst (commit (ui w) (handleChange v w)),
                      snd (commit (ui w) (handleChange v w))))
    by exact (step_commit (Change v) w _ eq_refl eq_refl).
  rewrite commit_out in E. cbn [handleChange h_out h_settings handled app] in E.
  split; [exact E|]. rewrite commit_ui, commit_storage.
  cbn [handleChange h_world h_settings handled onUi ui sessionStorage].
  destruct (showWelcome (ui w)) eqn:W; cbn; auto.
Qed.

(** Tab changes the text and leaves the dirty flag as it was. *)
Lemma step_Tab start end_ ok w :
  exists w', step (KeyDown (Key_Tab start end_) ok) w = Some (w', [])
             /\ content (ui w')
                = substring 0 start (content (ui w)) ++ js "  "
                  ++ substringFrom end_ (content (ui w))
             /\ isSaved (ui w') = isSaved (ui w)
             /\ sessionStorage w' = sessionStorage w.
Proof.
  exists (fst (commit (ui w) (handleKeyDown (Key_Tab start end_) ok w))).
  assert (E : step (KeyDown (Key_Tab start end_) ok) w
              = Some (fst (commit (ui w) (handleKeyDown (Key_Tab start end_) ok w)),
                      snd (commit (ui w) (handleKeyDown (Key_Tab start end_) ok w))))
    by exact (step_commit (KeyDown (Key_Tab start end_) ok) w _ eq_refl eq_refl).
  rewrite commit_out in E. cbn [handleKeyDown h_out h_settings handled app] in E.
  split; [exact E|]. rewrite commit_ui, commit_storage.
  cbn [handleKeyDown h_world h_settings handled onUi ui sessionStorage].
  repeat split; reflexivity.
Qed.

End Dirty.




(** C4, where the code departs from it: [notes.md] is opened, so the
    document is clean and the store holds its text; Tab at the start of the
    text then changes the text, and the document is still marked clean, no
    save attempt is pending, and the store holds the old text. *)
Theorem C4_tab_leaves_the_document_clean :
  let opened := [FileSelect [notesFile]; ReaderLoad 0 true] in
  let tabbed := [FileSelect [notesFile]; ReaderLoad 0 true; KeyDown (Key_Tab 0 0) true] in
  content (ui (after opened)) = js "# Title"
  /\ isSaved (ui (after opened)) = true
  /\ run tabbed fresh <> None
  /\ content (ui (after tabbed)) = js "  # Title"
  /\ isSaved (ui (after tabbed)) = true
  /\ pendingSaves (after tabbed) = []
  /\ item_content (sessionStorage (after tabbed)) = Some (js "# Title").
Proof. vm_compute. repeat split; try reflexivity. discriminate. Qed.

(** ** The sticky switch-off *)

Section Sticky.

(** Nothing in the page sets [autoSaveEnabled] back to [true]. *)
Lemma autoSave_keeps_disabled c en ok w :
  autoSaveEnabled (ui w) = false ->
  autoSaveEnabled (ui (h_world (autoSave c en ok w))) = false.
Proof.
  intros H. unfold autoSave. destruct (negb en || _); [exact H|].
  destruct (MAX_FILE_SIZE <? blobSize c); [reflexivity|].
  destruct ok; exact H.
Qed.

Lemma handleNew_keeps_disabled w :
  autoSaveEnabled (ui w) = false ->
  autoSaveEnabled (ui (h_world (handleNew w))) = false.
Proof. intros H. unfold handleNew. destruct (negb _ && _); exact H. Qed.

Lemma readFile_keeps_disabled f w :
  autoSaveEnabled (ui w) = false ->
  autoSaveEnabled (ui (h_world (readFile f w))) = false.
Proof. intros H. unfold readFile. destruct (MAX_FILE_SIZE <? file_size f); exact H. Qed.

Lemma handle_keeps_disabled e w h :
  handle e w = Some h -> autoSaveEnabled (ui w) = false ->
  autoSaveEnabled (ui (h_world h)) = false.
Proof.
  intros E H.
  destruct e; cbn [handle] in E;
    try (injection E as <-);
    try (apply guard_Some in E as [_ ->]);
    try exact H.
  - (* Change *)
    cbn [handleChange h_world handled onUi ui].
    destruct (showWelcome (ui w)); exact H.
  - (* KeyDown *)
    destruct k; cbn [handleKeyDown]; try exact H.
    + now apply handleNew_keeps_disabled.
    + now apply autoSave_keeps_disabled.
  - (* ClickNew *) now apply handleNew_keeps_disabled.
  - (* FileSelect *)
    unfold handleFileSelect. destruct files; [exact H|now apply readFile_keeps_disabled].
  - (* Drop *)
    unfold handleDrop. destruct (find isTextFile files);
      [now apply readFile_keeps_disabled|exact H].
  - (* ReaderLoad *)
    destruct (nth_error (reading w) i); [injection E as <-|discriminate].
    destruct storeOk; exact H.
  - (* ReaderError *)
    destruct (nth_error (reading w) i); [injection E as <-|discriminate]. exact H.
  - (* UnsavedDontSave *)
    unfold unsaved_dontSave. destruct (pendingAction (ui w)) as [[]|]; exact H.
  - (* UnsavedSave *)
    unfold unsaved_save. cbn [h_world handled].
    pose proof (autoSave_keeps_disabled (content (ui w)) (autoSaveEnabled (ui w))
                  storeOk w H) as A.
    destruct (pendingAction (ui w)); exact A.
  - (* Fire *)
    unfold fire in E. destruct (findTimer id w) as [t|]; [|discriminate].
    destruct (due t <=? now w); [injection E as <-|discriminate].
    destruct (callback t) as [c en| |[]]; cbn [runCallback]; try exact H.
    now apply autoSave_keeps_disabled.
  - discriminate.
Qed.

Lemma step_keeps_disabled e w w' o :
  isReload e = false -> step e w = Some (w', o) ->
  autoSaveEnabled (ui w) = false -> autoSaveEnabled (ui w') = false.
Proof.
  intros R E H. apply step_inv in E as (h & Hh & -> & _); [|exact R].
  rewrite commit_ui. exact (handle_keeps_disabled _ _ _ Hh H).
Qed.

Lemma run_keeps_disabled es : forall w w' o,
  existsb isReload es = false -> run es w = Some (w', o) ->
  autoSaveEnabled (ui w) = false -> autoSaveEnabled (ui w') = false.
Proof.
  induction es as [|e es IH]; intros w w' o R E H; cbn in E.
  - injection E as <- _. exact H.
  - cbn in R. apply orb_false_iff in R as [Re Res].
    destruct (step e w) as [[w1 o1]|] eqn:S; [|discriminate].
    destruct (run es w1) as [[w2 o2]|] eqn:Rn; [|discriminate].
    injection E as <- _. apply (IH w1 w2 o2 Res Rn).
    exact (step_keeps_disabled _ _ _ _ Re S H).
Qed.

End Sticky.

(** C2: a save attempt that runs on a text of more than [MAX_FILE_SIZE]
    bytes leaves the store as it was, writes nothing, and leaves auto-save
    switched off.  From then on, through any events short of a reload of the
    page and whatever the text becomes, auto-save stays off, and every save
    attempt leaves the store as it was and outputs nothing. *)
Theorem C2_oversize_switches_autosave_off (w : World) (e : Event) (ok : bool)
        (w1 : World) (o1 : list Output) :
  reachable w ->
  MAX_FILE_SIZE < blobSize (content (ui w)) ->
  saveAttempt e w = Some ok ->
  step e w = Some (w1, o1) ->
  sessionStorage w1 = sessionStorage w
  /\ contentWrites o1 = []
  /\ autoSaveEnabled (ui w1) = false
  /\ forall es w2 o2,
       existsb isReload es = false -> run es w1 = Some (w2, o2) ->
       autoSaveEnabled (ui w2) = false
       /\ forall e3 ok3 w3 o3,
            saveAttempt e3 w2 = Some ok3 -> step e3 w2 = Some (w3, o3) ->
            sessionStorage w3 = sessionStorage w2 /\ o3 = [].
Proof.
  intros Hr Hsz Hs E. pose proof (reachable_wf _ Hr) as Hwf.
  destruct (step_saveAttempt e ok w w1 o1 Hwf Hs E) as (_ & O).
  assert (H1 : sessionStorage w1 = sessionStorage w /\ contentWrites o1 = []
               /\ autoSaveEnabled (ui w1) = false).
  { destruct (autoSaveEnabled (ui w)) eqn:En.
    - apply saveOutcome_oversize in O as (_ & D & S & ->); [|exact Hsz]. auto.
    - apply saveOutcome_skip in O as (_ & D & S & ->); [|now left]. auto. }
  destruct H1 as (S1 & W1 & D1).
  split; [exact S1|]. split; [exact W1|]. split; [exact D1|].
  intros es w2 o2 Hes R.
  pose proof (run_keeps_disabled es w1 w2 o2 Hes R D1) as D2.
  split; [exact D2|].
  intros e3 ok3 w3 o3 Hs3 E3.
  assert (Hwf2 : wf w2).
  { apply reachable_wf. apply (reachable_run es w1 w2 o2); [|exact R].
    exact (reach_step _ _ _ _ Hr E). }
  destruct (step_saveAttempt e3 ok3 w2 w3 o3 Hwf2 Hs3 E3) as (_ & O3).
  rewrite D2 in O3. apply saveOutcome_skip in O3 as (_ & _ & S3 & O3'); [|now left].
  split; [exact S3|exact O3'].
Qed.

Lemma bigText_over : MAX_FILE_SIZE < blobSize bigText.
Proof.
  unfold bigText. rewrite blobSize_repeat_ascii by reflexivity.
  rewrite N2Nat.id. reflexivity.
Qed.

Lemma after_Change_content v : content (ui (after [Change v])) = v.
Proof.
  unfold after. cbn [run].
  destruct (step_Change v fresh) as (w' & E & C & _). rewrite E. exact C.
Qed.

Lemma bigWorld_content : content (ui bigWorld) = bigText.
Proof. apply after_Change_content. Qed.

Lemma C2_oversize_switches_autosave_off_witness :
  MAX_FILE_SIZE < blobSize (content (ui bigWorld))
  /\ exists w1 o1,
       step (KeyDown Key_mod_s true) bigWorld = Some (w1, o1)
       /\ sessionStorage w1 = sessionStorage bigWorld
       /\ contentWrites o1 = []
       /\ autoSaveEnabled (ui w1) = false
       /\ forall w2 o2,
            run [Change (js "a")] w1 = Some (w2, o2) ->
            autoSaveEnabled (ui w2) = false
            /\ forall w3 o3,
                 step (KeyDown Key_mod_s true) w2 = Some (w3, o3) ->
                 sessionStorage w3 = sessionStorage w2 /\ o3 = [].
Proof.
  assert (Hsz : MAX_FILE_SIZE < blobSize (content (ui bigWorld)))
    by (rewrite bigWorld_content; exact bigText_over).
  split; [exact Hsz|].
  destruct (step_shortcut_total true bigWorld) as (w1 & o1 & E).
  destruct (C2_oversize_switches_autosave_off bigWorld (KeyDown Key_mod_s true) true w1 o1
              (reachable_after _) Hsz (saveAttempt_shortcut true bigWorld) E)
    as (S & W & D & K).
  exists w1, o1.
  split; [exact E|]. split; [exact S|]. split; [exact W|]. split; [exact D|].
  intros w2 o2 R.
  destruct (K [Change (js "a")] w2 o2 eq_refl R) as (D2 & K2).
  split; [exact D2|].
  intros w3 o3 E3.
  exact (K2 (KeyDown Key_mod_s true) true w3 o3 (saveAttempt_shortcut true w2) E3).
Defined.

(** ** The ranges of the settings *)

Section Ranges.

Lemma validSettings_default : validSettings defaultSettings.
Proof. unfold validSettings. cbn. lia. Qed.

Lemma spread_stringify d s : spread d (stringify s) = s.
Proof. now destruct s. Qed.

Lemma fontSizeSlider_range v : fontSizeSlider v = true -> (12 <= v <= 24)%Z.
Proof.
  unfold fontSizeSlider, slider_allows. rewrite !andb_true_iff, !Z.leb_le. tauto.
Qed.

Lemma marginSlider_range v :
  marginSlider v = true -> (0 <= v <= 200 /\ v mod 4 = 0)%Z.
Proof.
  unfold marginSlider, slider_allows.
  rewrite !andb_true_iff, !Z.leb_le, Z.eqb_eq, Z.sub_0_r. tauto.
Qed.

Lemma keepsRanges_same w w1 o b :
  settings (ui w1) = settings (ui w) ->
  item_settings (sessionStorage w1) = item_settings (sessionStorage w) ->
  validSettings (settings (ui w)) -> keepsRanges w (handled w1 o b).
Proof. intros Hs Hi Hv. split; cbn; [now rewrite Hs|exact Hi]. Qed.

Lemma keepsRanges_filename w w1 o b v :
  settings (ui w1) = setCurrentFilename v (settings (ui w)) ->
  item_settings (sessionStorage w1) = item_settings (sessionStorage w) ->
  validSettings (settings (ui w)) -> keepsRanges w (handled w1 o b).
Proof. intros Hs Hi Hv. split; cbn; [rewrite Hs; exact Hv|exact Hi]. Qed.

Lemma autoSave_settings c en ok w :
  settings (ui (h_world (autoSave c en ok w))) = settings (ui w)
  /\ item_settings (sessionStorage (h_world (autoSave c en ok w)))
     = item_settings (sessionStorage w).
Proof.
  unfold autoSave. destruct (negb en || _); [cbn; auto|].
  destruct (MAX_FILE_SIZE <? blobSize c); [cbn; auto|].
  destruct ok; cbn; auto.
Qed.

Lemma keepsRanges_runPending a w :
  validSettings (settings (ui w)) -> keepsRanges w (runPending a w).
Proof. intros Hv. destruct a. split; [exact Hv|reflexivity]. Qed.

Lemma keepsRanges_handleNew w :
  validSettings (settings (ui w)) -> keepsRanges w (handleNew w).
Proof.
  intros Hv. unfold handleNew. destruct (negb _ && _).
  - split; [exact Hv|reflexivity].
  - now apply keepsRanges_runPending.
Qed.

Lemma keepsRanges_readFile f w :
  validSettings (settings (ui w)) -> keepsRanges w (readFile f w).
Proof.
  intros Hv. unfold readFile.
  destruct (MAX_FILE_SIZE <? file_size f); (split; [exact Hv|reflexivity]).
Qed.

Lemma keepsRanges_autoSave c en ok w :
  validSettings (settings (ui w)) -> keepsRanges w (autoSave c en ok w).
Proof.
  intros Hv. destruct (autoSave_settings c en ok w) as (Hs & Hi).
  split; [now rewrite Hs|exact Hi].
Qed.

(** No handler takes a numeric setting out of its range, and no handler
    writes the stored settings: that is the effect's work. *)
Lemma handle_keepsRanges e w h :
  handle e w = Some h -> validSettings (settings (ui w)) -> keepsRanges w h.
Proof.
  intros E Hv.
  destruct e; cbn [handle] in E;
    try (injection E as <-);
    try (apply guard_Some in E as [G ->]);
    try (split; [exact Hv|reflexivity]).
  - (* Change *)
    unfold handleChange. apply keepsRanges_same; try assumption; cbn;
      now destruct (showWelcome (ui w)).
  - (* KeyDown *)
    destruct k; cbn [handleKeyDown]; try (split; [exact Hv|reflexivity]).
    + now apply keepsRanges_handleNew.
    + now apply keepsRanges_autoSave.
  - (* ClickNew *) now apply keepsRanges_handleNew.
  - (* FileSelect *)
    unfold handleFileSelect. destruct files;
      [split; [exact Hv|reflexivity]|now apply keepsRanges_readFile].
  - (* Drop *)
    unfold handleDrop. destruct (find isTextFile files);
      [|split; [exact Hv|reflexivity]].
    destruct (keepsRanges_readFile f (onUi (setIsDragOver false) w) Hv) as (A & B).
    split; assumption.
  - (* ReaderLoad *)
    destruct (nth_error (reading w) i); [injection E as <-|discriminate].
    destruct storeOk; (split; [exact Hv|reflexivity]).
  - (* ReaderError *)
    destruct (nth_error (reading w) i); [injection E as <-|discriminate].
    split; [exact Hv|reflexivity].
  - (* UnsavedDontSave *)
    unfold unsaved_dontSave. destruct (pendingAction (ui w)) as [[]|];
      (split; [exact Hv|reflexivity]).
  - (* UnsavedSave *)
    unfold unsaved_save.
    destruct (autoSave_settings (content (ui w)) (autoSaveEnabled (ui w)) storeOk w)
      as (Hs & Hi).
    destruct (pendingAction (ui w)); (split; cbn; [now rewrite Hs|exact Hi]).
  - (* FontSizeSlider *)
    apply fontSizeSlider_range in G. split; [|reflexivity].
    destruct Hv as (_ & Hl & Hr). split; [exact G|split; assumption].
  - (* LeftMarginSlider *)
    apply marginSlider_range in G. split; [|reflexivity].
    destruct Hv as (Hf & _ & Hr). split; [exact Hf|split; assumption].
  - (* RightMarginSlider *)
    apply marginSlider_range in G. split; [|reflexivity].
    destruct Hv as (Hf & Hl & _). split; [exact Hf|split; assumption].
  - (* Fire *)
    unfold fire in E. destruct (findTimer id w) as [t|]; [|discriminate].
    destruct (due t <=? now w); [injection E as <-|discriminate].
    destruct (callback t) as [c en| |[]]; cbn [runCallback];
      try (split; [exact Hv|reflexivity]).
    destruct (keepsRanges_autoSave c en storeOk (clearTimeout id w) Hv) as (A & B).
    split; assumption.
  - discriminate.
Qed.

Lemma commit_settingsOk w h :
  settingsOk w -> keepsRanges w h -> settingsOk (fst (commit (ui w) h)).
Proof.
  intros (_ & Hst) (Hv & Hi). split.
  - now rewrite commit_ui.
  - rewrite commit_storage. intros b Hb. destruct (h_settings h).
    + cbn in Hb. injection Hb as <-. now rewrite spread_stringify.
    + apply Hst. now rewrite <- Hi.
Qed.

Lemma mount_settingsOk store t next :
  (forall b, item_settings store = Some b -> validSettings (spread defaultSettings b)) ->
  settingsOk (fst (mount store t next)).
Proof.
  intros Hst. unfold mount.
  destruct (item_settings store) as [parsed|] eqn:Hp;
    destruct (item_content store) as [[|x c]|]; cbn [fst]; split; cbn;
    try exact (Hst parsed eq_refl);
    try exact validSettings_default;
    intros b Hb; injection Hb as <-;
    try exact (Hst parsed eq_refl);
    exact validSettings_default.
Qed.

Lemma step_settingsOk e w w' o : settingsOk w -> step e w = Some (w', o) -> settingsOk w'.
Proof.
  intros H E. destruct (isReload e) eqn:R.
  - destruct e; try discriminate. cbn [step] in E. unfold reload in E.
    pose proof (mount_settingsOk (removeItem_content (sessionStorage w))
                  (now w) (nextTimerId w) (proj2 H)) as M.
    destruct (mount _ _ _) as [w1 o1]. injection E as <- _. exact M.
  - apply step_inv in E as (h & Hh & -> & _); [|exact R].
    apply commit_settingsOk; [exact H|].
    exact (handle_keepsRanges _ _ _ Hh (proj1 H)).
Qed.

Lemma reachable_settingsOk w : reachable w -> settingsOk w.
Proof.
  induction 1 as [|w e w' o _ IH E].
  - apply mount_settingsOk. discriminate.
  - exact (step_settingsOk _ _ _ _ IH E).
Qed.

End Ranges.

(** C9: in every state of a session the font size is between 12 and 24 and
    each margin is between 0 and 200 and a multiple of 4; the settings in the
    store are in range too, so that the state the page builds from the store
    when it loads again is in range. *)
Theorem C9_settings_stay_in_range (w : World) :
  reachable w ->
  validSettings (settings (ui w))
  /\ (forall b, item_settings (sessionStorage w) = Some b ->
                validSettings (spread defaultSettings b))
  /\ validSettings (settings (ui (fst (reload w)))).
Proof.
  intros Hr. destruct (reachable_settingsOk w Hr) as (Hv & Hst).
  split; [exact Hv|]. split; [exact Hst|].
  assert (E : step Reload w = Some (fst (reload w), snd (reload w)))
    by (cbn [step]; now rewrite <- surjective_pairing).
  exact (proj1 (step_settingsOk _ _ _ _ (conj Hv Hst) E)).
Qed.

Lemma C9_settings_stay_in_range_witness :
  fontSize (settings (ui tunedWorld)) = 20%Z
  /\ leftMargin (settings (ui tunedWorld)) = 100%Z
  /\ validSettings (settings (ui tunedWorld)).
Proof.
  split; [reflexivity|]. split; [reflexivity|].
  exact (proj1 (C9_settings_stay_in_range tunedWorld (reachable_after _))).
Defined.

(** ** The debounce *)

Section Debounce.

Lemma clearAutoSaveTimer_subset w t :
  In t (timers (clearAutoSaveTimer w)) -> In t (timers w).
Proof.
  unfold clearAutoSaveTimer. destruct (autoSaveTimerRef w); [|auto].
  cbn. intros H. now apply In_removeTimer in H.
Qed.

(** Among auto-save timers only, clearing the one the ref names empties the
    table: arming cancels the pending attempt. *)
Lemma clearAutoSaveTimer_calm u w :
  timersOk u w -> calm w -> timers (clearAutoSaveTimer w) = [].
Proof.
  intros Hok Hcalm.
  destruct (timers (clearAutoSaveTimer w)) as [|t l] eqn:T; [reflexivity|exfalso].
  assert (Hin : In t (timers (clearAutoSaveTimer w))) by (rewrite T; now left).
  pose proof (clearAutoSaveTimer_none u w t Hok Hin) as N.
  pose proof (Hcalm t (clearAutoSaveTimer_subset w t Hin)) as C.
  congruence.
Qed.

Lemma autoSaveTimerEffect_calm u w :
  timersOk u w -> calm w ->
  timers (autoSaveTimerEffect w)
  = if negb (isSaved (ui w)) && (0 <? List.length (content (ui w)))%nat
    then [armedTimer w] else [].
Proof.
  intros Hok Hcalm.
  assert (T : timers (clearAutoSaveTimer (clearAutoSaveTimer w)) = []).
  { apply (clearAutoSaveTimer_calm u); [now apply timersOk_clearAutoSaveTimer|].
    intros t Ht. rewrite (clearAutoSaveTimer_calm u w Hok Hcalm) in Ht. contradiction. }
  unfold autoSaveTimerEffect, armedTimer.
  rewrite !clearAutoSaveTimer_ui.
  destruct (negb _ && _); [|exact T].
  cbn. rewrite T, !clearAutoSaveTimer_nextTimerId.
  now rewrite !(proj1 (proj2 (clearAutoSaveTimer_frame _))).
Qed.

Lemma depsUnchanged_content prev next :
  content prev <> content next -> depsUnchanged prev next = false.
Proof.
  intros H. unfold depsUnchanged. now rewrite (js_eqb_neq _ _ H).
Qed.

(** A change of the text, with nothing but a save attempt pending: the
    pending attempt is cancelled and, when the new text is not empty, one is
    armed for it, a full delay ahead. *)
Lemma step_Change_calm v w :
  wf w -> calm w -> v <> content (ui w) ->
  exists w',
    step (Change v) w = Some (w', [])
    /\ content (ui w') = v
    /\ isSaved (ui w') = false
    /\ autoSaveEnabled (ui w') = autoSaveEnabled (ui w)
    /\ sessionStorage w' = sessionStorage w
    /\ now w' = now w
    /\ timers w'
       = match v with
         | [] => []
         | _ => [{| tid := nextTimerId w; due := now w + AUTO_SAVE_DELAY;
                    callback := CbAutoSave v (autoSaveEnabled (ui w)) |}]
         end.
Proof.
  intros Hwf Hcalm Hv.
  destruct (step_Change v w) as (w' & E & C & S & _ & St).
  exists w'. split; [exact E|].
  apply step_inv in E as (h & Hh & Ew & _); [|reflexivity].
  cbn [handle] in Hh. injection Hh as <-.
  split; [exact C|]. split; [exact S|].
  assert (Hu : autoSaveEnabled (ui w') = autoSaveEnabled (ui w)).
  { rewrite Ew, commit_ui. cbn. now destruct (showWelcome (ui w)). }
  split; [exact Hu|]. split; [exact St|].
  split; [rewrite Ew, commit_now; reflexivity|].
  set (w1 := h_world (handleChange v w)).
  assert (Hc1 : content (ui w1) = v)
    by (unfold w1; cbn; now destruct (showWelcome (ui w))).
  assert (Hs1 : isSaved (ui w1) = false)
    by (unfold w1; cbn; now destruct (showWelcome (ui w))).
  assert (He1 : autoSaveEnabled (ui w1) = autoSaveEnabled (ui w))
    by (unfold w1; cbn; now destruct (showWelcome (ui w))).
  assert (Hd : depsUnchanged (ui w) (ui w1) = false)
    by (apply depsUnchanged_content; rewrite Hc1; congruence).
  assert (Hw' : w' = autoSaveTimerEffect w1).
  { rewrite Ew. unfold commit. cbn [handleChange h_settings handled].
    fold w1. change (h_world (handleChange v w)) with w1. now rewrite Hd. }
  rewrite Hw'.
  rewrite (autoSaveTimerEffect_calm (ui w) w1);
    [|unfold w1; cbn; now apply timersOk_onUi|exact Hcalm].
  unfold armedTimer. rewrite Hs1, Hc1, He1. cbn [negb andb].
  destruct v; reflexivity.
Qed.

(** Time passing short of every pending timer. *)
Lemma step_Elapse d w :
  mayElapse d w = true -> step (Elapse d) w = Some (setNow (now w + d) w, []).
Proof.
  intros H. rewrite step_handle by reflexivity. cbn [handle]. rewrite H. cbn [guard].
  rewrite commit_quiet; [reflexivity|apply depsUnchanged_refl].
Qed.

(** After a burst: the text is the last one typed, the document is dirty,
    nothing was output, and exactly the save attempt for the last text is
    pending, a full delay after the last mutation. *)
Lemma run_burst rest : forall v w,
  wf w -> calm w -> quickEdits (content (ui w)) v rest ->
  exists w',
    run (burst v rest) w = Some (w', [])
    /\ wf w'
    /\ content (ui w') = finalContent v rest
    /\ isSaved (ui w') = false
    /\ autoSaveEnabled (ui w') = autoSaveEnabled (ui w)
    /\ sessionStorage w' = sessionStorage w
    /\ (finalContent v rest = [] -> timers w' = [])
    /\ (finalContent v rest <> [] ->
        exists id, timers w'
                   = [{| tid := id; due := now w' + AUTO_SAVE_DELAY;
                         callback := CbAutoSave (finalContent v rest)
                                       (autoSaveEnabled (ui w)) |}]).
Proof.
  induction rest as [|[d v'] rest IH]; intros v w Hwf Hcalm Hq.
  - destruct Hq as [Hv _].
    destruct (step_Change_calm v w Hwf Hcalm Hv) as (w' & E & C & S & En & St & N & T).
    exists w'. cbn [burst run finalContent]. rewrite E.
    split; [reflexivity|]. split; [exact (step_wf _ _ _ _ Hwf E)|].
    repeat (split; [assumption|]). split.
    + intros H0. rewrite T. now rewrite H0.
    + intros Hne. exists (nextTimerId w). rewrite T, N.
      destruct v; [contradiction|reflexivity].
  - destruct Hq as (Hv & Hd & Hq').
    destruct (step_Change_calm v w Hwf Hcalm Hv) as (w1 & E & C & S & En & St & N & T).
    pose proof (step_wf _ _ _ _ Hwf E) as Hwf1.
    assert (Hel : mayElapse d w1 = true).
    { unfold mayElapse. rewrite T. destruct v; [reflexivity|]. cbn.
      rewrite andb_true_r. apply N.leb_le. lia. }
    pose proof (step_Elapse d w1 Hel) as E2.
    pose proof (step_wf _ _ _ _ Hwf1 E2) as Hwf2.
    assert (Hcalm2 : calm (setNow (now w1 + d) w1)).
    { intros t Ht. cbn in Ht. rewrite T in Ht.
      destruct v; [contradiction|]. destruct Ht as [<-|[]]. reflexivity. }
    destruct (IH v' (setNow (now w1 + d) w1) Hwf2 Hcalm2) as
        (w' & R & W & C' & S' & En' & St' & T0 & T1).
    { cbn. now rewrite C. }
    exists w'. cbn [burst run finalContent]. rewrite E, E2, R.
    split; [reflexivity|]. split; [exact W|]. split; [exact C'|]. split; [exact S'|].
    cbn in En', St'. split; [congruence|]. split; [congruence|].
    split; [exact T0|]. intros Hne. destruct (T1 Hne) as (id & Tid).
    exists id. rewrite Tid. cbn. now rewrite En.
Qed.

End Debounce.

Section DebounceRun.

Lemma run_app es1 : forall es2 w,
  run (es1 ++ es2) w
  = match run es1 w with
    | Some (w1, o1) =>
        match run es2 w1 with
        | Some (w2, o2) => Some (w2, o1 ++ o2)
        | None => None
        end
    | None => None
    end.
Proof.
  induction es1 as [|e es1 IH]; intros es2 w; cbn [app run].
  - destruct (run es2 w) as [[w2 o2]|]; reflexivity.
  - destruct (step e w) as [[w1 o1]|]; [|reflexivity].
    rewrite IH. destruct (run es1 w1) as [[w2 o2]|]; [|reflexivity].
    destruct (run es2 w2) as [[w3 o3]|]; [|reflexivity].
    now rewrite app_assoc.
Qed.

(** A clean document has no save attempt pending. *)
Lemma wf_clean_no_pendingSaves w : wf w -> isSaved (ui w) = true -> pendingSaves w = [].
Proof.
  intros Hwf Hs. unfold pendingSaves.
  destruct (filter _ (timers w)) as [|t l] eqn:F; [reflexivity|exfalso].
  assert (Hin : In t (filter (fun t => isAutoSaveCb (callback t)) (timers w)))
    by (rewrite F; now left).
  apply filter_In in Hin as [Hin Hcb].
  destruct (callback t) as [c en| |a] eqn:E; try discriminate.
  destruct (ok_armed _ _ Hwf t Hin c en E) as (_ & _ & _ & Hd & _).
  congruence.
Qed.

(** The pending save attempt fires a full delay after the last mutation and
    writes the text. *)
Lemma run_debounced_save w c id :
  wf w ->
  timers w = [{| tid := id; due := now w + AUTO_SAVE_DELAY; callback := CbAutoSave c true |}] ->
  c <> [] -> blobSize c <= MAX_FILE_SIZE ->
  exists w',
    run [Elapse AUTO_SAVE_DELAY; Fire id true] w = Some (w', [Out_setItem_content c])
    /\ isSaved (ui w') = true
    /\ content (ui w') = c
    /\ sessionStorage w' = setItem_content c (sessionStorage w)
    /\ pendingSaves w' = [].
Proof.
  intros Hwf T Hc Hsz.
  set (t := {| tid := id; due := now w + AUTO_SAVE_DELAY; callback := CbAutoSave c true |}) in *.
  assert (Hel : mayElapse AUTO_SAVE_DELAY w = true).
  { unfold mayElapse. rewrite T. cbn. rewrite andb_true_r. apply N.leb_le. lia. }
  pose proof (step_Elapse _ w Hel) as E1.
  pose proof (step_wf _ _ _ _ Hwf E1) as Hwf1.
  set (w1 := setNow (now w + AUTO_SAVE_DELAY) w) in *.
  assert (Hf : findTimer id w1 = Some t).
  { unfold findTimer, w1. cbn [timers setNow]. rewrite T. cbn.
    now rewrite N.eqb_refl. }
  assert (Hh : handle (Fire id true) w1
               = Some (runCallback (callback t) true (clearTimeout id w1))).
  { cbn [handle]. unfold fire. rewrite Hf.
    assert (D : (due t <=? now w1) = true) by (apply N.leb_le; cbn; lia).
    now rewrite D. }
  pose proof (step_commit (Fire id true) w1 _ eq_refl Hh) as E2.
  set (w2 := fst (commit (ui w1) (runCallback (callback t) true (clearTimeout id w1)))) in *.
  set (o2 := snd (commit (ui w1) (runCallback (callback t) true (clearTimeout id w1)))) in *.
  assert (Hs : saveAttempt (Fire id true) w1 = Some true)
    by (cbn [saveAttempt]; now rewrite Hf).
  destruct (step_saveAttempt _ true w1 w2 o2 Hwf1 Hs E2) as (C2 & O).
  assert (In1 : In t (timers w1)) by (unfold w1; cbn [timers setNow]; rewrite T; now left).
  destruct (ok_armed _ _ Hwf1 t In1 c true eq_refl) as (_ & Hcc & Hen & _).
  rewrite <- Hcc, <- Hen in O.
  apply saveOutcome_attempt in O as (S1 & _ & S3 & S4); try assumption.
  exists w2. cbn [run]. rewrite E1, E2. subst o2. rewrite S4.
  split; [reflexivity|]. split; [exact S1|]. split; [congruence|]. split; [exact S3|].
  apply wf_clean_no_pendingSaves; [|exact S1]. exact (step_wf _ _ _ _ Hwf1 E2).
Qed.

End DebounceRun.

(** C8: when the write of a save attempt throws, the step outputs the failed
    write and the logged error and nothing else (no alert), and leaves the
    dirty flag, the store, the text and the auto-save flag as they were; in
    particular a dirty document stays dirty.  Any later save attempt tries
    the write again: the save shortcut, pressed when the store accepts the
    write, stores the text and marks the document clean, and when no other
    timer is pending, the next mutation arms the timer again, which fires
    [AUTO_SAVE_DELAY] later and stores the new text. *)
Theorem C8_store_failure_is_logged_only (w : World) (e : Event) (w' : World) (o : list Output) :
  reachable w ->
  autoSaveEnabled (ui w) = true ->
  content (ui w) <> [] ->
  blobSize (content (ui w)) <= MAX_FILE_SIZE ->
  saveAttempt e w = Some false ->
  step e w = Some (w', o) ->
  o = [Out_setItem_content_throws (content (ui w));
       Out_console_error "Failed to auto-save:"]
  /\ existsb isAlert o = false
  /\ isSaved (ui w') = isSaved (ui w)
  /\ sessionStorage w' = sessionStorage w
  /\ content (ui w') = content (ui w)
  /\ autoSaveEnabled (ui w') = true
  /\ (forall e2 ok2 w2 o2,
        saveAttempt e2 w' = Some ok2 -> step e2 w' = Some (w2, o2) ->
        o2 = if ok2
             then [Out_setItem_content (content (ui w))]
             else [Out_setItem_content_throws (content (ui w));
                   Out_console_error "Failed to auto-save:"])
  /\ (exists w2,
        step (KeyDown Key_mod_s true) w' = Some (w2, [Out_setItem_content (content (ui w))])
        /\ isSaved (ui w2) = true
        /\ item_content (sessionStorage w2) = Some (content (ui w)))
  /\ (calm w' ->
      forall v, v <> content (ui w) -> v <> [] -> blobSize v <= MAX_FILE_SIZE ->
      exists id w2,
        run [Change v; Elapse AUTO_SAVE_DELAY; Fire id true] w'
        = Some (w2, [Out_setItem_content v])
        /\ isSaved (ui w2) = true
        /\ item_content (sessionStorage w2) = Some v).
Proof.
  intros Hr Hen Hc Hsz Hs E. pose proof (reachable_wf _ Hr) as Hwf.
  destruct (step_saveAttempt e false w w' o Hwf Hs E) as (C & O).
  rewrite Hen in O. apply saveOutcome_attempt in O as (S1 & S2 & S3 & S4); try assumption.
  pose proof (step_wf _ _ _ _ Hwf E) as Hwf'.
  assert (K : forall e2 ok2 w2 o2,
             saveAttempt e2 w' = Some ok2 -> step e2 w' = Some (w2, o2) ->
             if ok2 then
               isSaved (ui w2) = true /\ autoSaveEnabled (ui w2) = true
               /\ sessionStorage w2 = setItem_content (content (ui w)) (sessionStorage w')
               /\ o2 = [Out_setItem_content (content (ui w))]
             else
               isSaved (ui w2) = isSaved (ui w') /\ autoSaveEnabled (ui w2) = true
               /\ sessionStorage w2 = sessionStorage w'
               /\ o2 = [Out_setItem_content_throws (content (ui w));
                        Out_console_error "Failed to auto-save:"]).
  { intros e2 ok2 w2 o2 Hs2 E2.
    destruct (step_saveAttempt e2 ok2 w' w2 o2 Hwf' Hs2 E2) as (_ & O2).
    rewrite S2, C in O2. now apply saveOutcome_attempt in O2. }
  subst o. repeat split; try assumption; try reflexivity.
  - intros e2 ok2 w2 o2 Hs2 E2. specialize (K e2 ok2 w2 o2 Hs2 E2).
    destruct ok2; tauto.
  - destruct (step_shortcut_total true w') as (w2 & o2 & E2).
    destruct (K _ true w2 o2 (saveAttempt_shortcut true w') E2) as (K1 & _ & K3 & ->).
    exists w2. repeat split; try assumption. now rewrite K3.
  - intros Hcalm v Hv Hne Hszv.
    assert (Hq : quickEdits (content (ui w')) v []) by (cbn; rewrite C; auto).
    destruct (run_burst [] v w' Hwf' Hcalm Hq) as (w1 & R1 & Hwf1 & _ & _ & _ & _ & _ & T1).
    destruct (T1 Hne) as (id & Tid). cbn [finalContent] in Tid. rewrite S2 in Tid.
    destruct (run_debounced_save w1 v id Hwf1 Tid Hne Hszv) as (w2 & R2 & D2 & _ & St2 & _).
    exists id, w2.
    change [Change v; Elapse AUTO_SAVE_DELAY; Fire id true]
      with (burst v [] ++ [Elapse AUTO_SAVE_DELAY; Fire id true]).
    rewrite run_app, R1, R2. split; [reflexivity|]. split; [exact D2|].
    now rewrite St2.
Qed.

Lemma C8_store_failure_is_logged_only_witness :
  exists w',
    step (KeyDown Key_mod_s false) draftWorld
    = Some (w', [Out_setItem_content_throws (js "draft");
                 Out_console_error "Failed to auto-save:"])
    /\ isSaved (ui w') = false
    /\ sessionStorage w' = sessionStorage draftWorld.
Proof.
  destruct (step_shortcut_total false draftWorld) as (w' & o & E).
  assert (Hsz : blobSize (content (ui draftWorld)) <= MAX_FILE_SIZE)
    by (apply N.leb_le; reflexivity).
  assert (Hc : content (ui draftWorld) <> []) by discriminate.
  destruct (C8_store_failure_is_logged_only draftWorld (KeyDown Key_mod_s false) w' o
              (reachable_after _) eq_refl Hc Hsz eq_refl E)
    as (Ho & _ & Hs & Hst & _).
  exists w'. rewrite Ho in E. repeat split; assumption.
Defined.

(** ** Bursts and pauses *)

Section Pauses.




















End Pauses.




(** ** The word count *)

Section WordCount.

(** The non-empty pieces of the split are the words, whatever piece is being
    read when the split is entered. *)
Lemma splitWhiteSpace_from_words s : forall cur inRun,
  (inRun = true -> cur = []) ->
  List.length (filter (fun word => (0 <? List.length word)%nat)
                 (splitWhiteSpace_from cur inRun s))
  = match cur with
    | [] => wordStarts true s
    | _ => S (wordStarts false s)
    end.
Proof.
  induction s as [|c s IH]; intros cur inRun Hrun; cbn [splitWhiteSpace_from wordStarts].
  - destruct cur as [|x cur]; [reflexivity|].
    cbn [filter]. rewrite length_rev. reflexivity.
  - destruct (isWhiteSpace c).
    + destruct inRun.
      * rewrite (Hrun eq_refl). now apply IH.
      * cbn [filter]. rewrite length_rev.
        destruct cur as [|x cur]; cbn [List.length Nat.ltb Nat.leb];
          cbn [List.length]; now rewrite IH.
    + rewrite (IH (c :: cur) false) by discriminate.
      destruct cur; reflexivity.
Qed.

Lemma wordStarts_trimStart s : wordStarts true (trimStart s) = wordStarts true s.
Proof.
  induction s as [|c s IH]; [reflexivity|]. cbn [trimStart wordStarts].
  destruct (isWhiteSpace c) eqn:E; [exact IH|]. cbn [wordStarts]. now rewrite E.
Qed.

Lemma trimStart_split s :
  exists t, s = t ++ trimStart s /\ forallb isWhiteSpace t = true.
Proof.
  induction s as [|c s (t & E & W)]; [now exists []|]. cbn [trimStart].
  destruct (isWhiteSpace c) eqn:C.
  - exists (c :: t). cbn. rewrite C, W. split; [now rewrite <- E|reflexivity].
  - now exists [].
Qed.

Lemma wordStarts_white b t : forallb isWhiteSpace t = true -> wordStarts b t = 0%nat.
Proof.
  revert b. induction t as [|c t IH]; intros b H; [reflexivity|].
  cbn in H. apply andb_true_iff in H as [C W]. cbn [wordStarts]. rewrite C. now apply IH.
Qed.

Lemma wordStarts_app_white b s t :
  forallb isWhiteSpace t = true -> wordStarts b (s ++ t) = wordStarts b s.
Proof.
  intros W. revert b. induction s as [|c s IH]; intros b; cbn [app wordStarts].
  - now apply wordStarts_white.
  - destruct (isWhiteSpace c); now rewrite IH.
Qed.

Lemma forallb_rev {A} (p : A -> bool) (l : list A) : forallb p (rev l) = forallb p l.
Proof.
  induction l as [|x l IH]; [reflexivity|]. cbn [rev].
  rewrite forallb_app, IH. cbn. rewrite andb_true_r. apply andb_comm.
Qed.

Lemma wordStarts_trimEnd b s : wordStarts b (trimEnd s) = wordStarts b s.
Proof.
  unfold trimEnd. destruct (trimStart_split (rev s)) as (t & E & W).
  assert (Es : s = rev (trimStart (rev s)) ++ rev t)
    by (rewrite <- rev_app_distr, <- E; now rewrite rev_involutive).
  rewrite Es at 2. symmetry. apply wordStarts_app_white. now rewrite forallb_rev.
Qed.

Lemma countWords_trim s : countWords (trim s) = countWords s.
Proof.
  unfold countWords, trim. now rewrite wordStarts_trimEnd, wordStarts_trimStart.
Qed.

Lemma getCount_words u :
  showWordCount (settings u) = true -> getCount u = countWords (content u).
Proof.
  intros H. unfold getCount. rewrite H. unfold splitWhiteSpace.
  rewrite (splitWhiteSpace_from_words (trim (content u)) [] false) by discriminate.
  apply countWords_trim.
Qed.

Lemma wordStarts_app b s t :
  wordStarts b (s ++ t)
  = (wordStarts b s
     + wordStarts (match rev s with [] => b | c :: _ => isWhiteSpace c end) t)%nat.
Proof.
  revert b. induction s as [|c s IH]; intros b; [reflexivity|].
  cbn [app wordStarts rev].
  assert (L : match rev s ++ [c] with [] => b | x :: _ => isWhiteSpace x end
              = match rev s with [] => isWhiteSpace c | x :: _ => isWhiteSpace x end)
    by (destruct (rev s); reflexivity).
  rewrite L. destruct (isWhiteSpace c) eqn:C; rewrite IH; lia.
Qed.

Lemma wordStarts_bound s : forall b,
  (2 * wordStarts b s <= List.length s + (if b then 1 else 0))%nat.
Proof.
  induction s as [|c s IH]; intros b; simpl.
  - destruct b; lia.
  - pose proof (IH true) as T. pose proof (IH false) as F. simpl in T, F.
    destruct (isWhiteSpace c), b; lia.
Qed.

End WordCount.

(** X1: in word mode the counter shows the number of maximal runs of code
    units that are not white space: the words of the text, counted where they
    start.  A text of white space only, the empty text included, counts 0. *)
Theorem X1_getCount_counts_words (u : Ui) :
  showWordCount (settings u) = true ->
  getCount u = countWords (content u)
  /\ (forallb isWhiteSpace (content u) = true -> getCount u = 0%nat).
Proof.
  intros H. pose proof (getCount_words u H) as G. split; [exact G|].
  intros W. rewrite G. now apply wordStarts_white.
Qed.

Lemma X1_getCount_counts_words_witness :
  getCount (setContent (js "  two  words ") initialUi) = 2%nat
  /\ getCount (setContent (js "   ") initialUi) = 0%nat.
Proof.
  split.
  - rewrite (proj1 (X1_getCount_counts_words (setContent (js "  two  words ") initialUi)
                      eq_refl)).
    reflexivity.
  - exact (proj2 (X1_getCount_counts_words (setContent (js "   ") initialUi) eq_refl)
             eq_refl).
Defined.

(** X2: in word mode the count of two texts joined by a white-space code
    unit is the sum of their counts, and a text of [n] code units has at most
    [(n + 1) / 2] words. *)
Theorem X2_getCount_adds_up (u : Ui) (a b : jsstring) (c : N) :
  showWordCount (settings u) = true ->
  isWhiteSpace c = true ->
  getCount (setContent (a ++ c :: b) u)
  = (getCount (setContent a u) + getCount (setContent b u))%nat
  /\ (2 * getCount u <= List.length (content u) + 1)%nat.
Proof.
  intros H C.
  rewrite !getCount_words by exact H. cbn [content setContent]. split.
  - unfold countWords. rewrite wordStarts_app. f_equal.
    cbn [wordStarts]. rewrite C. reflexivity.
  - exact (wordStarts_bound (content u) true).
Qed.

Lemma X2_getCount_adds_up_witness :
  getCount (setContent (js "to be" ++ 10 :: js "or not") initialUi) = 4%nat.
Proof.
  rewrite (proj1 (X2_getCount_adds_up initialUi (js "to be") (js "or not") 10
                    eq_refl eq_refl)).
  reflexivity.
Defined.

(** ** The line and the column of the caret *)

Section Caret.

Lemma substring_0 n s : substring 0 n s = firstn n s.
Proof. unfold substring. cbn. now rewrite Nat.sub_0_r. Qed.

Lemma splitLines_from_not_nil s : forall cur, splitLines_from cur s <> [].
Proof.
  induction s as [|c s IH]; intros cur; cbn; [discriminate|].
  destruct (c =? 10); [discriminate|apply IH].
Qed.

(** As many lines as newlines, and one more. *)
Lemma splitLines_from_length s : forall cur,
  List.length (splitLines_from cur s) = S (count_occ N.eq_dec s 10).
Proof.
  induction s as [|c s IH]; intros cur; cbn [splitLines_from count_occ]; [reflexivity|].
  destruct (N.eq_dec c 10) as [->|Hne].
  - cbn. now rewrite IH.
  - apply N.eqb_neq in Hne. rewrite Hne. apply IH.
Qed.

Lemma nth_last_line (l : list jsstring) : nth (List.length l - 1) l [] = last l [].
Proof.
  induction l as [|x l IH]; [reflexivity|].
  destruct l as [|y l]; [reflexivity|].
  cbn [List.length last] in *. rewrite <- IH. cbn. now rewrite Nat.sub_0_r.
Qed.

(** The last line is what follows the last newline. *)
Lemma splitLines_from_last s : forall cur,
  ~ In 10 cur ->
  exists pre l,
    rev cur ++ s = pre ++ l
    /\ last (splitLines_from cur s) [] = l
    /\ ~ In 10 l
    /\ (count_occ N.eq_dec s 10 = 0%nat -> pre = [])
    /\ (count_occ N.eq_dec s 10 <> 0%nat -> exists pre', pre = pre' ++ [10]).
Proof.
  induction s as [|c s IH]; intros cur Hcur.
  - exists [], (rev cur). cbn. rewrite app_nil_r. repeat split; auto.
    + now rewrite <- in_rev.
    + intros H. now contradiction H.
  - cbn [splitLines_from count_occ]. destruct (N.eq_dec c 10) as [->|Hne].
    + cbn [N.eqb Pos.eqb].
      destruct (IH [] (fun H => H)) as (pre1 & l & E & L & N & Z & P).
      exists (rev cur ++ 10 :: pre1), l. cbn in E. repeat split.
      * rewrite E, <- app_assoc. reflexivity.
      * pose proof (splitLines_from_not_nil s []) as NN.
        destruct (splitLines_from [] s) as [|x xs]; [contradiction|exact L].
      * exact N.
      * discriminate.
      * intros _. destruct (count_occ N.eq_dec s 10) as [|k] eqn:K.
        -- rewrite (Z eq_refl). now exists (rev cur).
        -- destruct (P (Nat.neq_succ_0 k)) as (pre' & ->).
           exists (rev cur ++ 10 :: pre'). now rewrite <- app_assoc.
    + pose proof Hne as Hb. apply N.eqb_neq in Hb. rewrite Hb.
      destruct (IH (c :: cur)) as (pre & l & E & L & N & Z & P).
      { intros [H|H]; [now apply Hne|now apply Hcur]. }
      exists pre, l. cbn [rev] in E. rewrite <- app_assoc in E. repeat split; assumption.
Qed.

Lemma firstn_le_split {A} (p q : nat) (s : list A) :
  (p <= q)%nat -> firstn q s = firstn p s ++ firstn (q - p) (skipn p s).
Proof.
  revert q s. induction p as [|p IH]; intros q s H.
  - cbn. now rewrite Nat.sub_0_r.
  - destruct q as [|q]; [lia|]. destruct s as [|x s]; [now rewrite !firstn_nil|].
    cbn. f_equal. apply IH. lia.
Qed.

End Caret.

(** X3: the line of the caret is the number of newlines before it, and the
    column is the number of code units between the last of these newlines, or
    the start of the text, and the caret; a caret further on is never on an
    earlier line.  An offset past the end of the text counts as the end. *)
Theorem X3_caret_line_and_column (c : jsstring) (p : nat) :
  fst (getCursorLinePosition c p) = count_occ N.eq_dec (firstn p c) 10
  /\ (exists pre l,
        firstn p c = pre ++ l
        /\ List.length l = snd (getCursorLinePosition c p)
        /\ ~ In 10 l
        /\ (fst (getCursorLinePosition c p) = 0%nat -> pre = [])
        /\ (fst (getCursorLinePosition c p) <> 0%nat -> exists pre', pre = pre' ++ [10]))
  /\ (forall q, (p <= q)%nat ->
        (fst (getCursorLinePosition c p) <= fst (getCursorLinePosition c q))%nat)
  /\ getCursorLinePosition c (List.length c + p) = getCursorLinePosition c (List.length c).
Proof.
  assert (Line : forall n, fst (getCursorLinePosition c n)
                           = count_occ N.eq_dec (firstn n c) 10).
  { intros n. unfold getCursorLinePosition. cbn [fst]. unfold splitLines.
    rewrite substring_0, splitLines_from_length. cbn. now rewrite Nat.sub_0_r. }
  split; [apply Line|]. split; [|split].
  - destruct (splitLines_from_last (firstn p c) [] (fun H => H))
      as (pre & l & E & L & N & Z & P).
    exists pre, l. rewrite Line. cbn in E. split; [exact E|].
    split; [|auto].
    unfold getCursorLinePosition. cbn [snd]. rewrite substring_0, nth_last_line.
    unfold splitLines. now rewrite L.
  - intros q H. rewrite !Line, (firstn_le_split p q c H), count_occ_app. lia.
  - unfold getCursorLinePosition. rewrite !substring_0.
    rewrite !firstn_all2 by lia. reflexivity.
Qed.

(** ** The size of a text *)

Section BlobSize.

Lemma blobSize_bounds_upto n : forall s,
  (List.length s <= n)%nat ->
  N.of_nat (List.length s) <= blobSize s <= 3 * N.of_nat (List.length s).
Proof.
  induction n as [|n IH]; intros s H.
  - destruct s; [cbn; lia|cbn in H; lia].
  - destruct s as [|c rest]; [cbn; lia|]. cbn in H.
    assert (R : N.of_nat (List.length rest) <= blobSize rest
                <= 3 * N.of_nat (List.length rest)) by (apply IH; lia).
    cbn [blobSize]. cbn [List.length]. rewrite Nat2N.inj_succ.
    destruct (c <? 128); [lia|]. destruct (c <? 2048); [lia|].
    destruct (isHighSurrogate c); [|lia].
    destruct rest as [|d rest']; [cbn; lia|].
    destruct (isLowSurrogate d); [|lia].
    cbn in H.
    assert (R' : N.of_nat (List.length rest') <= blobSize rest'
                 <= 3 * N.of_nat (List.length rest')) by (apply IH; lia).
    cbn [List.length]. rewrite Nat2N.inj_succ. lia.
Qed.

Lemma blobSize_bounds s :
  N.of_nat (List.length s) <= blobSize s <= 3 * N.of_nat (List.length s).
Proof. exact (blobSize_bounds_upto (List.length s) s (Nat.le_refl _)). Qed.

End BlobSize.

(** X4: the size the save routine compares with the ceiling is at least the
    number of code units of the text and at most three times that number.  So
    the save routine never switches auto-save off for a text of at most a
    third of [MAX_FILE_SIZE] code units, and, when auto-save is on, always
    does for a text of more than [MAX_FILE_SIZE] code units, writing
    nothing. *)
Theorem X4_size_follows_length (c : jsstring) (ok : bool) (w : World) :
  (N.of_nat (List.length c) <= blobSize c <= 3 * N.of_nat (List.length c))
  /\ (3 * N.of_nat (List.length c) <= MAX_FILE_SIZE ->
      autoSaveEnabled (ui (h_world (autoSave c (autoSaveEnabled (ui w)) ok w)))
      = autoSaveEnabled (ui w))
  /\ (MAX_FILE_SIZE < N.of_nat (List.length c) ->
      autoSaveEnabled (ui w) = true ->
      autoSaveEnabled (ui (h_world (autoSave c true ok w))) = false
      /\ contentWrites (h_out (autoSave c true ok w)) = []
      /\ sessionStorage (h_world (autoSave c true ok w)) = sessionStorage w).
Proof.
  pose proof (blobSize_bounds c) as B. split; [exact B|]. split.
  - intros H. unfold autoSave.
    destruct (negb (autoSaveEnabled (ui w)) || _); [reflexivity|].
    assert (L : (MAX_FILE_SIZE <? blobSize c) = false) by (apply N.ltb_ge; lia).
    rewrite L. destruct ok; reflexivity.
  - intros H En. unfold autoSave.
    assert (Hl : (List.length c =? 0)%nat = false).
    { apply Nat.eqb_neq. intros Z. rewrite Z in H. unfold MAX_FILE_SIZE in H. lia. }
    assert (L : (MAX_FILE_SIZE <? blobSize c) = true) by (apply N.ltb_lt; lia).
    cbn [negb orb]. rewrite Hl, L. cbn. auto.
Qed.

Lemma X4_size_follows_length_witness :
  autoSaveEnabled (ui (h_world (autoSave (js "draft") true true draftWorld))) = true
  /\ autoSaveEnabled (ui (h_world (autoSave bigText true true fresh))) = false.
Proof.
  split.
  - apply (proj1 (proj2 (X4_size_follows_length (js "draft") true draftWorld))).
    apply N.leb_le. reflexivity.
  - apply (proj2 (proj2 (X4_size_follows_length bigText true fresh))); [|reflexivity].
    unfold bigText. rewrite repeat_length, N2Nat.id. reflexivity.
Defined.

(** ** Tab *)

(** X5: with the selection from [start] to [end_] inside the text, Tab
    replaces the selected code units by two spaces: what was before the
    selection and what was after it stays, the text grows by two less the
    length of the selection, and taking the two spaces out again leaves the
    text without the selection. *)
Theorem X5_tab_replaces_the_selection (w : World) (start end_ : nat) (ok : bool) :
  (start <= end_)%nat ->
  (end_ <= List.length (content (ui w)))%nat ->
  exists w',
    step (KeyDown (Key_Tab start end_) ok) w = Some (w', [])
    /\ content (ui w')
       = firstn start (content (ui w)) ++ [32; 32] ++ skipn end_ (content (ui w))
    /\ (List.length (content (ui w')) + (end_ - start)
        = List.length (content (ui w)) + 2)%nat
    /\ firstn start (content (ui w')) = firstn start (content (ui w))
    /\ skipn (start + 2) (content (ui w')) = skipn end_ (content (ui w)).
Proof.
  intros Hse Hel.
  destruct (step_Tab start end_ ok w) as (w' & E & C & _).
  exists w'. split; [exact E|].
  rewrite substring_0 in C. unfold substringFrom in C.
  change (js "  ") with [32; 32] in C.
  assert (Lf : List.length (firstn start (content (ui w))) = start)
    by (apply firstn_length_le; lia).
  split; [exact C|]. rewrite C. split; [|split].
  - rewrite !length_app, Lf, length_skipn. cbn [List.length]. lia.
  - rewrite firstn_app, Lf, Nat.sub_diag. cbn [firstn]. rewrite app_nil_r.
    rewrite firstn_firstn. now rewrite Nat.min_id.
  - rewrite skipn_app, Lf.
    replace (start + 2 - start)%nat with 2%nat by lia.
    rewrite (skipn_all2 (firstn start (content (ui w)))) by lia.
    reflexivity.
Qed.

Lemma X5_tab_replaces_the_selection_witness :
  exists w',
    step (KeyDown (Key_Tab 1 3) true) draftWorld = Some (w', [])
    /\ content (ui w') = js "d  ft".
Proof.
  destruct (X5_tab_replaces_the_selection draftWorld 1 3 true) as (w' & E & C & _).
  - repeat constructor.
  - cbn. repeat constructor.
  - exists w'. split; [exact E|]. rewrite C. reflexivity.
Defined.

(** ** The stored settings *)

Section StoredSettings.

(** A handler that does not call [setSettings] leaves the settings alone, and
    no handler writes the stored settings itself. *)
Lemma handle_settings_untouched e w h :
  handle e w = Some h -> h_settings h = false ->
  settings (ui (h_world h)) = settings (ui w)
  /\ item_settings (sessionStorage (h_world h)) = item_settings (sessionStorage w).
Proof.
  intros E F.
  destruct e; cbn [handle] in E;
    try (injection E as <-);
    try (apply guard_Some in E as [G ->]);
    try discriminate F;
    try (split; reflexivity).
  - (* Change *)
    cbn. now destruct (showWelcome (ui w)).
  - (* KeyDown *)
    destruct k; cbn [handleKeyDown] in *; try (split; reflexivity).
    + unfold handleNew in *. destruct (negb _ && _); [split; reflexivity|discriminate F].
    + apply autoSave_settings.
  - (* ClickNew *)
    unfold handleNew in *. destruct (negb _ && _); [split; reflexivity|discriminate F].
  - (* FileSelect *)
    unfold handleFileSelect, readFile. destruct files; [split; reflexivity|].
    destruct (MAX_FILE_SIZE <? file_size f); split; reflexivity.
  - (* Drop *)
    unfold handleDrop, readFile. destruct (find isTextFile files); [|split; reflexivity].
    destruct (MAX_FILE_SIZE <? file_size f); split; reflexivity.
  - (* ReaderLoad *)
    destruct (nth_error (reading w) i); [injection E as <-|discriminate].
    destruct storeOk; discriminate F.
  - (* ReaderError *)
    destruct (nth_error (reading w) i); [injection E as <-|discriminate].
    split; reflexivity.
  - (* UnsavedDontSave *)
    unfold unsaved_dontSave in *. destruct (pendingAction (ui w)) as [[]|];
      [discriminate F|split; reflexivity].
  - (* UnsavedSave *)
    unfold unsaved_save.
    destruct (autoSave_settings (content (ui w)) (autoSaveEnabled (ui w)) storeOk w)
      as (Hs & Hi).
    destruct (pendingAction (ui w)); split; cbn; assumption.
  - (* Fire *)
    unfold fire in E. destruct (findTimer id w) as [t|]; [|discriminate].
    destruct (due t <=? now w); [injection E as <-|discriminate].
    destruct (callback t) as [c en| |[]]; cbn [runCallback] in *;
      [|split; reflexivity|discriminate F].
    destruct (autoSave_settings c en storeOk (clearTimeout id w)) as (Hs & Hi).
    split; assumption.
  - discriminate.
Qed.

Lemma commit_settingsMirrored e w h :
  handle e w = Some h -> settingsMirrored w -> settingsMirrored (fst (commit (ui w) h)).
Proof.
  intros E M. unfold settingsMirrored. rewrite commit_ui, commit_storage.
  destruct (h_settings h) eqn:F; [reflexivity|].
  destruct (handle_settings_untouched e w h E F) as (Hs & Hi).
  now rewrite Hs, Hi.
Qed.

Lemma mount_settingsMirrored store t next : settingsMirrored (fst (mount store t next)).
Proof.
  unfold settingsMirrored, mount.
  destruct (item_settings store); destruct (item_content store) as [[|x c]|];
    reflexivity.
Qed.

Lemma step_settingsMirrored e w w' o :
  settingsMirrored w -> step e w = Some (w', o) -> settingsMirrored w'.
Proof.
  intros M E. destruct (isReload e) eqn:R.
  - destruct e; try discriminate. cbn [step] in E. unfold reload in E.
    pose proof (mount_settingsMirrored (removeItem_content (sessionStorage w))
                  (now w) (nextTimerId w)) as K.
    destruct (mount _ _ _) as [w1 o1]. injection E as <- _. exact K.
  - apply step_inv in E as (h & Hh & -> & _); [|exact R].
    exact (commit_settingsMirrored e w h Hh M).
Qed.

Lemma reachable_settingsMirrored w : reachable w -> settingsMirrored w.
Proof.
  induction 1 as [|w e w' o _ IH E]; [apply mount_settingsMirrored|].
  exact (step_settingsMirrored _ _ _ _ IH E).
Qed.

(** What the page finds when it loads over a store whose settings are those
    of [s] and which holds no text. *)
Lemma mount_mirrored st s t next :
  item_settings st = Some (stringify s) -> item_content st = None ->
  let w' := fst (mount st t next) in
  ui w' = setSettings (fun _ => s) initialUi
  /\ sessionStorage w' = setItem_settings (stringify s) st
  /\ timers w' = [] /\ reading w' = [].
Proof.
  intros Hs Hc. unfold mount. rewrite Hs, Hc. cbn.
  rewrite spread_stringify. destruct st as [ic ise]. cbn in *. subst. auto.
Qed.

End StoredSettings.

(** X6: in every state of a session the settings in the store are exactly
    the current settings: every change of a setting, through a control or
    through New, Open and Save As, which set the file name, is written to the
    store by the step that makes it. *)
Theorem X6_settings_are_persisted (w : World) :
  reachable w ->
  item_settings (sessionStorage w) = Some (stringify (settings (ui w)))
  /\ spread defaultSettings (stringify (settings (ui w))) = settings (ui w).
Proof.
  intros Hr. split; [exact (reachable_settingsMirrored w Hr)|apply spread_stringify].
Qed.

Lemma X6_settings_are_persisted_witness :
  item_settings (sessionStorage tunedWorld)
  = Some (stringify (settings (ui tunedWorld)))
  /\ fontSize (settings (ui tunedWorld)) = 20%Z.
Proof.
  split; [|reflexivity].
  exact (proj1 (X6_settings_are_persisted tunedWorld (reachable_after _))).
Defined.

(** X7: a reload of the page keeps the settings and drops the document.  The
    page that loads again has the settings of the page that was left, in its
    state and in the store; its text is empty, the welcome state is on, the
    document is clean, auto-save is on again, no dialog is open and no action
    is stored, no timer and no read is left, and the store holds no text. *)
Theorem X7_reload_keeps_settings_only (w : World) :
  reachable w ->
  exists w' o,
    step Reload w = Some (w', o)
    /\ ui w' = setSettings (fun _ => settings (ui w)) initialUi
    /\ item_settings (sessionStorage w') = Some (stringify (settings (ui w)))
    /\ item_content (sessionStorage w') = None
    /\ timers w' = []
    /\ reading w' = []
    /\ contentWrites o = [].
Proof.
  intros Hr. pose proof (reachable_settingsMirrored w Hr) as M.
  exists (fst (reload w)), (snd (reload w)).
  split; [cbn [step]; now rewrite <- surjective_pairing|].
  unfold reload.
  pose proof (mount_mirrored (removeItem_content (sessionStorage w)) (settings (ui w))
                (now w) (nextTimerId w) M eq_refl) as K. cbn zeta in K.
  destruct K as (Ku & Ks & Kt & Kr).
  assert (Ko : contentWrites (snd (mount (removeItem_content (sessionStorage w))
                                     (now w) (nextTimerId w))) = []).
  { unfold mount. cbn [removeItem_content item_settings item_content].
    now destruct (item_settings (sessionStorage w)). }
  destruct (mount _ _ _) as [w1 o1]. cbn [fst snd] in *.
  rewrite Ku, Ks. cbn. auto 10.
Qed.

Lemma X7_reload_keeps_settings_only_witness :
  let w := after [ThemeToggle; FontSizeSlider 18; Change (js "draft");
                  KeyDown Key_mod_s true] in
  item_content (sessionStorage w) = Some (js "draft")
  /\ exists w' o,
       step Reload w = Some (w', o)
       /\ content (ui w') = []
       /\ isDarkMode (settings (ui w')) = false
       /\ fontSize (settings (ui w')) = 18%Z
       /\ item_content (sessionStorage w') = None.
Proof.
  intros w. split; [reflexivity|].
  destruct (X7_reload_keeps_settings_only w (reachable_after _))
    as (w' & o & E & U & _ & C & _).
  exists w', o. rewrite U. split; [exact E|]. split; [reflexivity|].
  split; [reflexivity|]. split; [reflexivity|exact C].
Defined.

(** X8: loading is stable.  Over the store a page load leaves, whatever the
    store was before, a second page load builds the same state and leaves the
    same store: a text that was in the store is loaded again as a clean
    document, and the settings read back are the settings written. *)
Theorem X8_loading_twice_is_loading_once (store : Storage) (t next t' next' : N) :
  let w := fst (mount store t next) in
  let w2 := fst (mount (sessionStorage w) t' next') in
  ui w2 = ui w
  /\ sessionStorage w2 = sessionStorage w
  /\ isSaved (ui w) = true
  /\ timers w = []
  /\ (forall c, item_content store = Some c -> c <> [] ->
        content (ui w) = c /\ showWelcome (ui w) = false)
  /\ (item_content store = None \/ item_content store = Some [] ->
        content (ui w) = [] /\ showWelcome (ui w) = true).
Proof.
  destruct store as [ic ise]. unfold mount. cbn [item_content item_settings].
  assert (Some_nil : forall c : jsstring, Some (@nil N) = Some c -> c <> [] -> False)
    by (intros c H N; injection H as <-; now apply N).
  destruct ise as [parsed|]; destruct ic as [[|x c]|];
    cbn; rewrite ?spread_stringify;
    (split; [reflexivity|]); (split; [reflexivity|]); (split; [reflexivity|]);
    (split; [reflexivity|]); (split; [intros c0 H0 H1|intros [H0|H0]]);
    try discriminate H0;
    try (exfalso; exact (Some_nil c0 H0 H1));
    try (injection H0 as <-);
    split; reflexivity.
Qed.

Lemma X8_loading_twice_is_loading_once_witness :
  let store := {| item_content := Some (js "kept");
                  item_settings :=
                    Some {| b_fontSize := Some 20%Z; b_isDarkMode := None;
                            b_showWordCount := None; b_showCountDisplay := None;
                            b_currentFilename := None; b_leftMargin := None;
                            b_rightMargin := None |} |} in
  let w := fst (mount store 0 1) in
  content (ui w) = js "kept"
  /\ showWelcome (ui w) = false
  /\ fontSize (settings (ui w)) = 20%Z
  /\ leftMargin (settings (ui w)) = 72%Z
  /\ ui (fst (mount (sessionStorage w) 5 1)) = ui w.
Proof.
  intros store w.
  destruct (X8_loading_twice_is_loading_once store 0 1 5 1) as (U & _ & _ & _ & L & _).
  destruct (L (js "kept") eq_refl) as (C & W); [discriminate|].
  split; [exact C|]. split; [exact W|]. split; [reflexivity|]. split; [reflexivity|exact U].
Defined.

(** ** Reads in flight *)

Section Reads.

Lemma endsWith_app p suffix : endsWith (p ++ suffix) suffix = true.
Proof.
  unfold endsWith. rewrite length_app. apply andb_true_iff. split.
  - apply Nat.leb_le. lia.
  - replace (List.length p + List.length suffix - List.length suffix)%nat
      with (List.length p) by lia.
    rewrite skipn_app, Nat.sub_diag, skipn_all. apply js_eqb_refl.
Qed.

Lemma endsWith_inv s suffix : endsWith s suffix = true -> exists p, s = p ++ suffix.
Proof.
  unfold endsWith. intros H. apply andb_true_iff in H as [_ H].
  apply js_eqb_eq in H.
  exists (firstn (List.length s - List.length suffix) s).
  pose proof (firstn_skipn (List.length s - List.length suffix) s) as E.
  rewrite H in E. now symmetry.
Qed.

Lemma step_opens_exact e f w :
  opens e f -> file_size f <= MAX_FILE_SIZE ->
  step e w = Some (setReading (reading w ++ [f]) (entered e w), [Out_readAsText f]).
Proof.
  intros Ho Hs. apply N.ltb_ge in Hs.
  destruct e; try contradiction; cbn in Ho.
  - destruct files as [|f' rest]; [contradiction|subst f'].
    rewrite step_handle by reflexivity. cbn [handle handleFileSelect].
    unfold readFile. rewrite Hs. now rewrite commit_quiet by apply depsUnchanged_refl.
  - rewrite step_handle by reflexivity. cbn [handle]. unfold handleDrop. rewrite Ho.
    unfold readFile. rewrite Hs.
    now rewrite commit_quiet by (apply depsUnchanged_true; cbn; auto).
Qed.

Lemma step_ReaderError_exact i f w :
  nth_error (reading w) i = Some f ->
  step (ReaderError i) w
  = Some (setReading (removeNth i (reading w)) w,
          [Out_console_error "Failed to read file"]).
Proof.
  intros Hn. rewrite step_handle by reflexivity. cbn [handle]. rewrite Hn.
  unfold reader_onerror. now rewrite commit_quiet by apply depsUnchanged_refl.
Qed.

Lemma step_ReaderLoad_exact i ok f w :
  nth_error (reading w) i = Some f ->
  exists w',
    step (ReaderLoad i ok) w
    = Some (w', [if ok then Out_setItem_content (file_text f)
                 else Out_setItem_content_throws (file_text f);
                 Out_setItem_settings (stringify (settings (loaded f (ui w))))])
    /\ ui w' = loaded f (ui w)
    /\ sessionStorage w'
       = setItem_settings (stringify (settings (loaded f (ui w))))
           (if ok then setItem_content (file_text f) (sessionStorage w)
            else sessionStorage w)
    /\ reading w' = removeNth i (reading w).
Proof.
  intros Hn.
  assert (H : handle (ReaderLoad i ok) w =
              Some (reader_onload f ok (setReading (removeNth i (reading w)) w)))
    by (cbn [handle]; now rewrite Hn).
  pose proof (step_commit (ReaderLoad i ok) _ _ eq_refl H) as E.
  rewrite commit_out in E.
  eexists. split.
  - rewrite E. destruct ok; reflexivity.
  - rewrite commit_ui, commit_storage, commit_reading.
    destruct ok; cbn; split; [reflexivity| |reflexivity|]; split; reflexivity.
Qed.

Lemma find_skips {A} (p : A -> bool) (pre : list A) (x : A) (post : list A) :
  forallb (fun y => negb (p y)) pre = true -> p x = true ->
  find p (pre ++ x :: post) = Some x.
Proof.
  intros Hpre Hx. induction pre as [|y pre IH]; cbn.
  - now rewrite Hx.
  - cbn in Hpre. apply andb_true_iff in Hpre as [Hy Hpre].
    apply negb_true_iff in Hy. rewrite Hy. now apply IH.
Qed.

Lemma find_none {A} (p : A -> bool) (l : list A) :
  forallb (fun y => negb (p y)) l = true -> find p l = None.
Proof.
  induction l as [|y l IH]; intros H; [reflexivity|]. cbn in *.
  apply andb_true_iff in H as [Hy H]. apply negb_true_iff in Hy. rewrite Hy. now apply IH.
Qed.

End Reads.

Section ReadsInFlight.

Lemma removeNth_middle {A} (l : list A) (x : A) (m : list A) :
  removeNth (List.length l) (l ++ x :: m) = l ++ m.
Proof. induction l as [|y l IH]; [reflexivity|]. cbn. now rewrite IH. Qed.

Lemma nth_error_middle {A} (l : list A) (x : A) (m : list A) :
  nth_error (l ++ x :: m) (List.length l) = Some x.
Proof. induction l as [|y l IH]; [reflexivity|exact IH]. Qed.

Lemma reading_two_opens e1 e2 f1 f2 w :
  opens e1 f1 -> opens e2 f2 ->
  file_size f1 <= MAX_FILE_SIZE -> file_size f2 <= MAX_FILE_SIZE ->
  exists w2,
    run [e1; e2] w = Some (w2, [Out_readAsText f1; Out_readAsText f2])
    /\ reading w2 = reading w ++ [f1; f2]
    /\ ui w2 = ui (entered e2 (entered e1 w))
    /\ sessionStorage w2 = sessionStorage w.
Proof.
  intros H1 H2 S1 S2. cbn [run].
  rewrite (step_opens_exact e1 f1 w H1 S1), (step_opens_exact e2 f2 _ H2 S2).
  eexists. split; [reflexivity|].
  destruct e1, e2; try contradiction; cbn; rewrite <- app_assoc; auto.
Qed.

(** X9: a read that fails changes nothing.  When the read of an accepted file
    ends in [reader.onerror], the text, the file name and the other settings,
    the saved flag, the welcome screen, the store, the timers and the reads in
    flight are what they were before the file was chosen; the page shows no
    alert, the failure goes to the console only. *)
Theorem X9_failed_read_changes_nothing e f w :
  opens e f -> file_size f <= MAX_FILE_SIZE ->
  exists w1 w2,
    step e w = Some (w1, [Out_readAsText f])
    /\ step (ReaderError (List.length (reading w))) w1
       = Some (w2, [Out_console_error "Failed to read file"])
    /\ ui w2 = ui (entered e w)
    /\ content (ui w2) = content (ui w)
    /\ settings (ui w2) = settings (ui w)
    /\ isSaved (ui w2) = isSaved (ui w)
    /\ showWelcome (ui w2) = showWelcome (ui w)
    /\ sessionStorage w2 = sessionStorage w
    /\ timers w2 = timers w
    /\ reading w2 = reading w.
Proof.
  intros Ho Hs.
  pose proof (step_opens_exact e f w Ho Hs) as E1.
  set (w1 := setReading (reading w ++ [f]) (entered e w)) in *.
  assert (Hn : nth_error (reading w1) (List.length (reading w)) = Some f)
    by apply nth_error_snoc.
  pose proof (step_ReaderError_exact _ _ _ Hn) as E2.
  exists w1. eexists. split; [exact E1|]. split; [exact E2|].
  cbn [reading w1 setReading]. rewrite removeNth_snoc.
  destruct e; try contradiction; cbn; auto 10.
Qed.

Lemma X9_failed_read_changes_nothing_witness :
  exists w1 w2,
    step (FileSelect [notesFile]) draftWorld = Some (w1, [Out_readAsText notesFile])
    /\ step (ReaderError 0) w1 = Some (w2, [Out_console_error "Failed to read file"])
    /\ content (ui w2) = content (ui draftWorld)
    /\ sessionStorage w2 = sessionStorage draftWorld.
Proof.
  destruct (X9_failed_read_changes_nothing (FileSelect [notesFile]) notesFile draftWorld)
    as (w1 & w2 & E1 & E2 & _ & C & _ & _ & _ & S & _).
  - reflexivity.
  - vm_compute. discriminate.
  - exists w1, w2. split; [exact E1|]. split; [exact E2|]. split; [exact C|exact S].
Defined.

(** X10: with two reads in flight the one that completes last wins.  Two
    accepted files are chosen one after the other before either read has
    completed.  If their reads complete in the order they were started the
    document is the second file; if the second read completes first the
    document ends as the first file, with its name, although it was chosen
    earlier.  The store follows only as far as it takes the writes: it holds
    the text of the last read whose write it accepted, so when the write of
    the last read throws it holds the text of the other file, or what it held
    before, while the document is marked clean. *)
Theorem X10_last_completed_read_wins e1 e2 f1 f2 w (ok1 ok2 : bool) :
  opens e1 f1 -> opens e2 f2 ->
  file_size f1 <= MAX_FILE_SIZE -> file_size f2 <= MAX_FILE_SIZE ->
  let n := List.length (reading w) in
  exists wa oa wb ob,
    run [e1; e2; ReaderLoad n ok1; ReaderLoad n ok2] w = Some (wa, oa)
    /\ run [e1; e2; ReaderLoad (S n) ok1; ReaderLoad n ok2] w = Some (wb, ob)
    /\ content (ui wa) = file_text f2
    /\ currentFilename (settings (ui wa)) = file_name f2
    /\ item_content (sessionStorage wa)
       = (if ok2 then Some (file_text f2)
          else if ok1 then Some (file_text f1)
          else item_content (sessionStorage w))
    /\ content (ui wb) = file_text f1
    /\ currentFilename (settings (ui wb)) = file_name f1
    /\ item_content (sessionStorage wb)
       = (if ok2 then Some (file_text f1)
          else if ok1 then Some (file_text f2)
          else item_content (sessionStorage w))
    /\ isSaved (ui wa) = true /\ isSaved (ui wb) = true
    /\ reading wa = reading w /\ reading wb = reading w.
Proof.
  intros H1 H2 S1 S2 n.
  destruct (reading_two_opens e1 e2 f1 f2 w H1 H2 S1 S2) as (w2 & R & Hr & _ & Hst).
  assert (Na : nth_error (reading w2) n = Some f1)
    by (rewrite Hr; apply nth_error_middle).
  assert (Nb : nth_error (reading w2) (S n) = Some f2).
  { rewrite Hr. change (reading w ++ [f1; f2]) with (reading w ++ [f1] ++ [f2]).
    rewrite app_assoc. replace (S n) with (List.length (reading w ++ [f1]))
      by (rewrite length_app; cbn; subst n; lia).
    apply nth_error_snoc. }
  destruct (step_ReaderLoad_exact n ok1 f1 w2 Na) as (wa1 & Ea1 & Ua1 & Sa1 & Ra1).
  destruct (step_ReaderLoad_exact (S n) ok1 f2 w2 Nb) as (wb1 & Eb1 & Ub1 & Sb1 & Rb1).
  assert (Na2 : nth_error (reading wa1) n = Some f2).
  { rewrite Ra1, Hr. unfold n. rewrite removeNth_middle. apply nth_error_snoc. }
  assert (Nb2 : nth_error (reading wb1) n = Some f1).
  { rewrite Rb1, Hr. change (reading w ++ [f1; f2]) with (reading w ++ [f1] ++ [f2]).
    rewrite app_assoc. replace (S n) with (List.length (reading w ++ [f1]))
      by (rewrite length_app; cbn; subst n; lia).
    rewrite removeNth_snoc. apply nth_error_snoc. }
  destruct (step_ReaderLoad_exact n ok2 f2 wa1 Na2) as (wa & Ea & Ua & Sa & Ra).
  destruct (step_ReaderLoad_exact n ok2 f1 wb1 Nb2) as (wb & Eb & Ub & Sb & Rb).
  exists wa. eexists. exists wb. eexists.
  split.
  { change [e1; e2; ReaderLoad n ok1; ReaderLoad n ok2]
      with ([e1; e2] ++ [ReaderLoad n ok1; ReaderLoad n ok2]).
    rewrite run_app, R. cbn [run]. rewrite Ea1, Ea. reflexivity. }
  split.
  { change [e1; e2; ReaderLoad (S n) ok1; ReaderLoad n ok2]
      with ([e1; e2] ++ [ReaderLoad (S n) ok1; ReaderLoad n ok2]).
    rewrite run_app, R. cbn [run]. rewrite Eb1, Eb. reflexivity. }
  rewrite Ua, Ub, Sa, Sb, Sa1, Sb1, Ra, Rb, Ra1, Rb1, Hr, Hst.
  split; [reflexivity|]. split; [reflexivity|].
  split; [destruct ok1, ok2; reflexivity|].
  split; [reflexivity|]. split; [reflexivity|].
  split; [destruct ok1, ok2; reflexivity|].
  split; [reflexivity|]. split; [reflexivity|].
  split.
  - unfold n. rewrite removeNth_middle. apply removeNth_snoc.
  - change (reading w ++ [f1; f2]) with (reading w ++ [f1] ++ [f2]).
    rewrite app_assoc. replace (S n) with (List.length (reading w ++ [f1]))
      by (rewrite length_app; cbn; subst n; lia).
    rewrite removeNth_snoc. apply removeNth_snoc.
Qed.

Lemma X10_last_completed_read_wins_witness :
  exists wa oa wb ob,
    run [FileSelect [notesFile]; Drop [pictureFile; todoFile];
         ReaderLoad 0 true; ReaderLoad 0 false] fresh = Some (wa, oa)
    /\ run [FileSelect [notesFile]; Drop [pictureFile; todoFile];
            ReaderLoad 1 true; ReaderLoad 0 false] fresh = Some (wb, ob)
    /\ content (ui wa) = js "- buy tea"
    /\ item_content (sessionStorage wa) = Some (js "# Title")
    /\ content (ui wb) = js "# Title"
    /\ currentFilename (settings (ui wb)) = js "notes.md"
    /\ item_content (sessionStorage wb) = Some (js "- buy tea").
Proof.
  destruct (X10_last_completed_read_wins
              (FileSelect [notesFile]) (Drop [pictureFile; todoFile])
              notesFile todoFile fresh true false)
    as (wa & oa & wb & ob & Ea & Eb & Ca & _ & Sa & Cb & Fb & Sb & _).
  - reflexivity.
  - reflexivity.
  - vm_compute. discriminate.
  - vm_compute. discriminate.
  - exists wa, oa, wb, ob.
    split; [exact Ea|]. split; [exact Eb|]. split; [exact Ca|]. split; [exact Sa|].
    split; [exact Cb|]. split; [exact Fb|exact Sb].
Defined.

(** X11: opening the file that is already open changes nothing on the page.
    Once an accepted file has been chosen and read, choosing it again and
    reading it again leaves the same snapshot and the same reads in flight.
    The store is the same as well when the first write was accepted or the
    second one throws; when the store takes both writes or refuses both, the
    outputs are the same too.  Only a write accepted after a refused one
    changes the store, which then holds the text of the file. *)
Theorem X11_reopening_is_idempotent e f w (ok1 ok2 : bool) :
  opens e f -> file_size f <= MAX_FILE_SIZE ->
  exists w1 o1 w2 o2,
    run [e; ReaderLoad (List.length (reading w)) ok1] w = Some (w1, o1)
    /\ run [e; ReaderLoad (List.length (reading w1)) ok2] w1 = Some (w2, o2)
    /\ ui w2 = ui w1
    /\ reading w2 = reading w1
    /\ content (ui w1) = file_text f
    /\ isSaved (ui w1) = true
    /\ (ok1 = ok2 -> o2 = o1)
    /\ (ok1 = true \/ ok2 = false -> sessionStorage w2 = sessionStorage w1)
    /\ (ok2 = true -> item_content (sessionStorage w2) = Some (file_text f)).
Proof.
  intros Ho Hs.
  assert (Once : forall ok v, exists v1,
            run [e; ReaderLoad (List.length (reading v)) ok] v
            = Some (v1, [Out_readAsText f;
                         if ok then Out_setItem_content (file_text f)
                         else Out_setItem_content_throws (file_text f);
                         Out_setItem_settings
                           (stringify (settings (loaded f (ui (entered e v)))))])
            /\ ui v1 = loaded f (ui (entered e v))
            /\ sessionStorage v1
               = setItem_settings (stringify (settings (loaded f (ui (entered e v)))))
                   (if ok then setItem_content (file_text f) (sessionStorage v)
                    else sessionStorage v)
            /\ reading v1 = reading v).
  { intros ok v. pose proof (step_opens_exact e f v Ho Hs) as E1.
    set (v0 := setReading (reading v ++ [f]) (entered e v)) in *.
    assert (Hn : nth_error (reading v0) (List.length (reading v)) = Some f)
      by apply nth_error_snoc.
    destruct (step_ReaderLoad_exact _ ok _ _ Hn) as (v1 & E2 & U & S & R).
    exists v1. cbn [run]. rewrite E1, E2. split; [reflexivity|].
    split; [exact U|]. split.
    - rewrite S. destruct e; try contradiction; reflexivity.
    - rewrite R. cbn [reading v0 setReading]. apply removeNth_snoc. }
  assert (Idem : forall v v1, ui v1 = loaded f (ui (entered e v)) ->
                 loaded f (ui (entered e v1)) = ui v1).
  { intros v v1 H. destruct e; cbn; rewrite H; reflexivity. }
  destruct (Once ok1 w) as (w1 & E1 & U1 & S1 & R1).
  destruct (Once ok2 w1) as (w2 & E2 & U2 & S2 & R2).
  rewrite (Idem w w1 U1) in E2, U2, S2.
  exists w1. eexists. exists w2. eexists.
  split; [exact E1|]. split; [exact E2|]. split; [exact U2|]. split; [exact R2|].
  split; [now rewrite U1|]. split; [now rewrite U1|].
  split; [intros ->; now rewrite U1|].
  split.
  - intros H. rewrite S2, S1, U1.
    destruct ok1, ok2; try reflexivity. destruct H; discriminate.
  - intros ->. rewrite S2. reflexivity.
Qed.

Lemma X11_reopening_is_idempotent_witness :
  exists w1 o1 w2 o2,
    run [Drop [pictureFile; todoFile]; ReaderLoad 0 true] draftWorld = Some (w1, o1)
    /\ run [Drop [pictureFile; todoFile]; ReaderLoad (List.length (reading w1)) false] w1
       = Some (w2, o2)
    /\ ui w2 = ui w1
    /\ sessionStorage w2 = sessionStorage w1.
Proof.
  destruct (X11_reopening_is_idempotent (Drop [pictureFile; todoFile]) todoFile draftWorld
              true false)
    as (w1 & o1 & w2 & o2 & E1 & E2 & U & _ & _ & _ & _ & S & _).
  - reflexivity.
  - vm_compute. discriminate.
  - exists w1, o1, w2, o2. split; [exact E1|]. split; [exact E2|]. split; [exact U|].
    apply S. now left.
Defined.

Lemma isTextFile_spec f :
  isTextFile f = true
  <-> file_type f = js "text/plain"
      \/ (exists p, file_name f = p ++ js ".txt")
      \/ (exists p, file_name f = p ++ js ".md").
Proof.
  unfold isTextFile. rewrite !orb_true_iff. split.
  - intros [[H|H]|H].
    + left. now apply js_eqb_eq.
    + right. left. now apply endsWith_inv.
    + right. right. now apply endsWith_inv.
  - intros [H|[[p H]|[p H]]].
    + left. left. rewrite H. apply js_eqb_refl.
    + left. right. rewrite H. apply endsWith_app.
    + right. rewrite H. apply endsWith_app.
Qed.

Lemma step_Drop_found files f w :
  find isTextFile files = Some f ->
  step (Drop files) w
  = if MAX_FILE_SIZE <? file_size f
    then Some (onUi (setIsDragOver false) w, [Out_alert "File size exceeds 5MB limit."])
    else Some (setReading (reading w ++ [f]) (onUi (setIsDragOver false) w),
               [Out_readAsText f]).
Proof.
  intros Hf. rewrite step_handle by reflexivity. cbn [handle]. unfold handleDrop.
  rewrite Hf. unfold readFile.
  destruct (MAX_FILE_SIZE <? file_size f);
    now rewrite commit_quiet by (apply depsUnchanged_true; cbn; auto).
Qed.

(** X12: a drop reads the first text file and nothing else.  A file counts as
    text when its type is text/plain or its name ends in .txt or .md, in this
    exact case.  Of the dropped files the ones before the first text file are
    skipped and the ones after it are never looked at: a drop without a text
    file only ends the drag highlight; otherwise the first text file is read,
    or, when it is over the limit, the alert is shown and no later file is
    tried. *)
Theorem X12_drop_reads_the_first_text_file pre f post w :
  forallb (fun x => negb (isTextFile x)) pre = true ->
  file_type f = js "text/plain"
  \/ (exists p, file_name f = p ++ js ".txt")
  \/ (exists p, file_name f = p ++ js ".md") ->
  step (Drop pre) w = Some (onUi (setIsDragOver false) w, [])
  /\ (file_size f <= MAX_FILE_SIZE ->
      step (Drop (pre ++ f :: post)) w
      = Some (setReading (reading w ++ [f]) (onUi (setIsDragOver false) w),
              [Out_readAsText f]))
  /\ (MAX_FILE_SIZE < file_size f ->
      step (Drop (pre ++ f :: post)) w
      = Some (onUi (setIsDragOver false) w,
              [Out_alert "File size exceeds 5MB limit."])).
Proof.
  intros Hpre Hf. apply isTextFile_spec in Hf.
  pose proof (find_skips isTextFile pre f post Hpre Hf) as Hfind.
  split.
  - rewrite step_handle by reflexivity. cbn [handle]. unfold handleDrop.
    rewrite (find_none _ _ Hpre).
    now rewrite commit_quiet by (apply depsUnchanged_true; cbn; auto).
  - rewrite (step_Drop_found _ _ w Hfind). split; intros Hs.
    + apply N.ltb_ge in Hs. now rewrite Hs.
    + apply N.ltb_lt in Hs. now rewrite Hs.
Qed.

Lemma X12_drop_reads_the_first_text_file_witness :
  step (Drop [pictureFile; notesFile; todoFile]) draftWorld
  = Some (setReading [notesFile] (onUi (setIsDragOver false) draftWorld),
          [Out_readAsText notesFile]).
Proof.
  refine (proj1 (proj2 (X12_drop_reads_the_first_text_file
                          [pictureFile] notesFile [todoFile] draftWorld _ _)) _).
  - reflexivity.
  - right. right. exists (js "notes"). reflexivity.
  - vm_compute. discriminate.
Defined.

End ReadsInFlight.

(** ** Undoing a change of the settings *)

Section SettingsUndo.

Lemma step_setting e g w :
  isReload e = false ->
  handle e w = Some (handled (onUi (setSettings g) w) [] true) ->
  step e w
  = Some (onStorage (setItem_settings (stringify (g (settings (ui w)))))
            (onUi (setSettings g) w),
          [Out_setItem_settings (stringify (g (settings (ui w))))]).
Proof.
  intros R H. rewrite step_handle by exact R. rewrite H. unfold commit.
  cbn [h_settings h_world h_out handled saveSettingsEffect app].
  replace (depsUnchanged (ui w) _) with true; [reflexivity|].
  symmetry. apply depsUnchanged_true. cbn. auto.
Qed.

Lemma setting_restored g1 g2 w :
  settingsMirrored w ->
  g2 (g1 (settings (ui w))) = settings (ui w) ->
  onStorage (setItem_settings (stringify (g2 (g1 (settings (ui w))))))
    (onUi (setSettings g2)
       (onStorage (setItem_settings (stringify (g1 (settings (ui w)))))
          (onUi (setSettings g1) w)))
  = w.
Proof.
  unfold settingsMirrored. intros M E. rewrite E.
  destruct w as [u st tm r nx nw rd]. cbn in *.
  unfold onStorage, onUi. cbn. f_equal.
  - destruct u. cbn in *. unfold setSettings. cbn. now rewrite E.
  - destruct st as [c b]. cbn in *. unfold setItem_settings. cbn. now rewrite M.
Qed.

Lemma run_setting_restored e1 e2 g1 g2 w :
  settingsMirrored w ->
  isReload e1 = false -> isReload e2 = false ->
  (forall v, handle e1 v = Some (handled (onUi (setSettings g1) v) [] true)) ->
  (forall v, handle e2 v = Some (handled (onUi (setSettings g2) v) [] true)) ->
  g2 (g1 (settings (ui w))) = settings (ui w) ->
  run [e1; e2] w
  = Some (w, [Out_setItem_settings (stringify (g1 (settings (ui w))));
              Out_setItem_settings (stringify (settings (ui w)))]).
Proof.
  intros M R1 R2 H1 H2 E. cbn [run].
  rewrite (step_setting e1 g1 w R1 (H1 w)).
  rewrite (step_setting e2 g2 _ R2 (H2 _)).
  cbn [ui onStorage onUi settings setSettings].
  change (settings (setSettings g1 (ui w))) with (g1 (settings (ui w))).
  pose proof (setting_restored g1 g2 w M E) as K.
  unfold onStorage, onUi in K. cbn [ui sessionStorage timers autoSaveTimerRef
    nextTimerId now reading] in K.
  change (settings (setSettings g1 (ui w))) with (g1 (settings (ui w))) in K.
  rewrite E in *. cbn [app]. unfold onStorage, onUi.
  cbn [ui sessionStorage timers autoSaveTimerRef nextTimerId now reading].
  rewrite K. reflexivity.
Qed.

End SettingsUndo.

(** X13: a change of the settings can be undone exactly.  In a session,
    flipping one of the three toggles twice, or moving a slider to an allowed
    value and back to the value it had, gives back the very same state: the
    text, the saved flag, the pending auto-save and the store are the ones
    from before, and the last thing written is the original settings. *)
Theorem X13_settings_changes_undo w :
  reachable w ->
  let s := settings (ui w) in
  let back (e1 e2 : Event) :=
    exists b, run [e1; e2] w
              = Some (w, [Out_setItem_settings b; Out_setItem_settings (stringify s)]) in
  back ThemeToggle ThemeToggle
  /\ back WordCountToggle WordCountToggle
  /\ back CountDisplayToggle CountDisplayToggle
  /\ (forall v, fontSizeSlider v = true ->
        back (FontSizeSlider v) (FontSizeSlider (fontSize s)))
  /\ (forall v, marginSlider v = true ->
        back (LeftMarginSlider v) (LeftMarginSlider (leftMargin s)))
  /\ (forall v, marginSlider v = true ->
        back (RightMarginSlider v) (RightMarginSlider (rightMargin s))).
Proof.
  intros Hr s back.
  pose proof (reachable_settingsMirrored w Hr) as M.
  destruct (reachable_settingsOk w Hr) as ((Hf & (Hl & Hl4) & (Hm & Hm4)) & _).
  fold s in Hf, Hl, Hl4, Hm, Hm4.
  assert (Bf : fontSizeSlider (fontSize s) = true).
  { unfold fontSizeSlider, slider_allows. rewrite Z.mod_1_r.
    apply andb_true_iff; split; [apply andb_true_iff; split|reflexivity];
      apply Z.leb_le; lia. }
  assert (Bm : forall m, (0 <= m <= 200)%Z -> (m mod 4 = 0)%Z -> marginSlider m = true).
  { intros m Hm0 Hm1. unfold marginSlider, slider_allows. rewrite Z.sub_0_r, Hm1.
    apply andb_true_iff; split; [apply andb_true_iff; split|reflexivity];
      apply Z.leb_le; lia. }
  unfold back.
  split; [|split; [|split; [|split; [|split]]]].
  - eexists.
    apply (run_setting_restored ThemeToggle ThemeToggle
             (fun prev => setIsDarkMode (negb (isDarkMode prev)) prev)
             (fun prev => setIsDarkMode (negb (isDarkMode prev)) prev) w M);
      try reflexivity.
    fold s. destruct s. cbn. now rewrite negb_involutive.
  - eexists.
    apply (run_setting_restored WordCountToggle WordCountToggle
             (fun prev => setShowWordCount (negb (showWordCount prev)) prev)
             (fun prev => setShowWordCount (negb (showWordCount prev)) prev) w M);
      try reflexivity.
    fold s. destruct s. cbn. now rewrite negb_involutive.
  - eexists.
    apply (run_setting_restored CountDisplayToggle CountDisplayToggle
             (fun prev => setShowCountDisplay (negb (showCountDisplay prev)) prev)
             (fun prev => setShowCountDisplay (negb (showCountDisplay prev)) prev) w M);
      try reflexivity.
    fold s. destruct s. cbn. now rewrite negb_involutive.
  - intros v Hv. eexists.
    apply (run_setting_restored (FontSizeSlider v) (FontSizeSlider (fontSize s))
             (setFontSize v) (setFontSize (fontSize s)) w M); try reflexivity.
    + intros v0. cbn [handle]. now rewrite Hv.
    + intros v0. cbn [handle]. now rewrite Bf.
    + fold s. destruct s. reflexivity.
  - intros v Hv. eexists.
    apply (run_setting_restored (LeftMarginSlider v) (LeftMarginSlider (leftMargin s))
             (setLeftMargin v) (setLeftMargin (leftMargin s)) w M); try reflexivity.
    + intros v0. cbn [handle]. now rewrite Hv.
    + intros v0. cbn [handle]. now rewrite (Bm _ Hl Hl4).
    + fold s. destruct s. reflexivity.
  - intros v Hv. eexists.
    apply (run_setting_restored (RightMarginSlider v) (RightMarginSlider (rightMargin s))
             (setRightMargin v) (setRightMargin (rightMargin s)) w M); try reflexivity.
    + intros v0. cbn [handle]. now rewrite Hv.
    + intros v0. cbn [handle]. now rewrite (Bm _ Hm Hm4).
    + fold s. destruct s. reflexivity.
Qed.

Lemma X13_settings_changes_undo_witness :
  exists b,
    run [FontSizeSlider 20; FontSizeSlider 16] draftWorld
    = Some (draftWorld,
            [Out_setItem_settings b;
             Out_setItem_settings (stringify (settings (ui draftWorld)))]).
Proof.
  destruct (X13_settings_changes_undo draftWorld (reachable_after _))
    as (_ & _ & _ & F & _).
  exact (F 20%Z eq_refl).
Defined.

(** ** What is written under the document key *)

Section StoredText.

Lemma autoSave_storedBy en ok w0 w :
  sessionStorage w0 = sessionStorage w ->
  storedBy w (autoSave (content (ui w0)) en ok w0).
Proof.
  intros S. unfold storedBy, autoSave.
  destruct (negb en || _); [left; cbn; now rewrite S|].
  destruct (MAX_FILE_SIZE <? blobSize _); [left; cbn; now rewrite S|].
  destruct ok; [right; right|left]; cbn; [split; reflexivity|now rewrite S].
Qed.

Lemma runPending_storedBy a w0 w : storedBy w (runPending a w0).
Proof. destruct a. right. left. split; reflexivity. Qed.

Lemma handle_storedBy e w h : wf w -> handle e w = Some h -> storedBy w h.
Proof.
  intros Hwf E.
  destruct e; cbn [handle] in E;
    try (injection E as <-);
    try (apply guard_Some in E as [G ->]);
    try (left; split; reflexivity).
  - (* KeyDown *)
    destruct k; cbn [handleKeyDown]; try (left; split; reflexivity).
    + unfold handleNew. destruct (negb _ && _); [left; split; reflexivity|].
      apply runPending_storedBy.
    + now apply autoSave_storedBy.
  - (* ClickNew *)
    unfold handleNew. destruct (negb _ && _); [left; split; reflexivity|].
    apply runPending_storedBy.
  - (* FileSelect *)
    unfold handleFileSelect, readFile. destruct files; [left; split; reflexivity|].
    destruct (MAX_FILE_SIZE <? file_size f); left; split; reflexivity.
  - (* Drop *)
    unfold handleDrop, readFile.
    destruct (find isTextFile files); [|left; split; reflexivity].
    destruct (MAX_FILE_SIZE <? file_size f); left; split; reflexivity.
  - (* ReaderLoad *)
    destruct (nth_error (reading w) i); [injection E as <-|discriminate].
    destruct storeOk; [right; right|left]; split; reflexivity.
  - (* ReaderError *)
    destruct (nth_error (reading w) i); [injection E as <-|discriminate].
    left. split; reflexivity.
  - (* UnsavedDontSave *)
    unfold unsaved_dontSave. destruct (pendingAction (ui w)) as [[]|];
      [right; left; split; reflexivity|left; split; reflexivity].
  - (* UnsavedSave *)
    unfold unsaved_save.
    pose proof (autoSave_storedBy (autoSaveEnabled (ui w)) storeOk w w eq_refl) as K.
    unfold storedBy in *.
    destruct (pendingAction (ui w)); cbn [h_world h_out handled] in *; exact K.
  - (* Fire *)
    unfold fire in E. destruct (findTimer id w) as [t|] eqn:Ft; [|discriminate].
    destruct (due t <=? now w); [injection E as <-|discriminate].
    apply findTimer_Some in Ft as [Hin _].
    destruct (callback t) as [c en| |a] eqn:Cb; cbn [runCallback].
    + destruct (ok_armed _ _ Hwf t Hin c en Cb) as (_ & -> & _).
      now apply (autoSave_storedBy en storeOk (clearTimeout id w) w).
    + left. split; reflexivity.
    + destruct a. right. left. split; reflexivity.
  - discriminate.
Qed.

Lemma step_storedBy e w w' o :
  wf w -> step e w = Some (w', o) ->
  (item_content (sessionStorage w') = item_content (sessionStorage w)
   /\ contentWrites o = [])
  \/ (item_content (sessionStorage w') = None /\ contentWrites o = [])
  \/ (item_content (sessionStorage w') = Some (content (ui w'))
      /\ contentWrites o = [content (ui w')]).
Proof.
  intros Hwf E. destruct (isReload e) eqn:R.
  - destruct e; try discriminate. cbn [step] in E. unfold reload in E.
    right. left.
    assert (K : forall st t nx,
              item_content st = None ->
              item_content (sessionStorage (fst (mount st t nx))) = None
              /\ contentWrites (snd (mount st t nx)) = []).
    { intros st t nx H. unfold mount.
      destruct (item_settings st); cbn; rewrite H; split; reflexivity. }
    destruct (K (removeItem_content (sessionStorage w)) (now w) (nextTimerId w) eq_refl)
      as (K1 & K2).
    destruct (mount _ _ _) as [w1 o1]. injection E as <- <-. split; [exact K1|].
    exact K2.
  - apply step_inv in E as (h & Hh & -> & ->); [|exact R].
    pose proof (handle_storedBy e w h Hwf Hh) as K. unfold storedBy in K.
    rewrite commit_ui, commit_storage, commit_out, contentWrites_app.
    assert (Z0 : contentWrites
                   (if h_settings h
                    then [Out_setItem_settings (stringify (settings (ui (h_world h))))]
                    else []) = [])
      by (destruct (h_settings h); reflexivity).
    rewrite Z0, app_nil_r.
    destruct (h_settings h); exact K.
Qed.

End StoredText.

(** X15: the store never receives a text other than the one on screen.
    Whatever happens in a session, one event either leaves the stored document
    as it was, or removes it, or writes it once; and when it writes, what it
    writes and what the store then holds is exactly the text the editor shows
    after the event.  In particular a timer armed for an older text never
    writes that older text. *)
Theorem X15_only_the_shown_text_is_stored e w w' o :
  reachable w -> step e w = Some (w', o) ->
  (item_content (sessionStorage w') = item_content (sessionStorage w)
   /\ contentWrites o = [])
  \/ (item_content (sessionStorage w') = None /\ contentWrites o = [])
  \/ (item_content (sessionStorage w') = Some (content (ui w'))
      /\ contentWrites o = [content (ui w')]).
Proof.
  intros Hr E. exact (step_storedBy e w w' o (reachable_wf _ Hr) E).
Qed.

Lemma X15_only_the_shown_text_is_stored_witness :
  item_content (sessionStorage (after [Change (js "draft"); KeyDown Key_mod_s true]))
  = Some (js "draft").
Proof.
  destruct (X15_only_the_shown_text_is_stored
              (KeyDown Key_mod_s true) draftWorld
              (after [Change (js "draft"); KeyDown Key_mod_s true])
              [Out_setItem_content (js "draft")]
              (reachable_after _))
    as [(_ & H)|[(_ & H)|(H & _)]].
  - vm_compute. reflexivity.
  - discriminate H.
  - discriminate H.
  - exact H.
Defined.

(** ** The welcome animation *)

Section Welcome.

Lemma animation_stopped n : forall a,
  anim_running a = false -> animation_ticks n a = a.
Proof.
  induction n as [|n IH]; intros a H; [reflexivity|]. cbn [animation_ticks].
  unfold animation_tick. rewrite H. now apply IH.
Qed.

Lemma animation_ticks_from n : forall k t,
  (k <= List.length welcomeMessage)%nat ->
  let a := animation_ticks (S n)
             {| anim_index := k; anim_welcomeText := t; anim_running := true |} in
  anim_index a = Nat.min (k + S n) (List.length welcomeMessage)
  /\ anim_running a = (k + S n <=? List.length welcomeMessage)%nat
  /\ anim_welcomeText a
     = if (k <? List.length welcomeMessage)%nat
       then firstn (k + S n) welcomeMessage else t.
Proof.
  induction n as [|n IH]; intros k t Hk.
  - cbn [animation_ticks]. unfold animation_tick. cbn [anim_running anim_index].
    destruct (k <? List.length welcomeMessage)%nat eqn:E.
    + apply Nat.ltb_lt in E. cbn [anim_index anim_running anim_welcomeText].
      split; [lia|]. split; [symmetry; apply Nat.leb_le; lia|].
      unfold slice. now rewrite Nat.sub_0_r.
    + apply Nat.ltb_ge in E. cbn [anim_index anim_running anim_welcomeText].
      split; [lia|]. split; [symmetry; apply Nat.leb_gt; lia|reflexivity].
  - intros a. subst a.
    change (animation_ticks (S (S n)) ?x) with (animation_ticks (S n) (animation_tick x)).
    unfold animation_tick. cbn [anim_running anim_index anim_welcomeText].
    destruct (k <? List.length welcomeMessage)%nat eqn:E.
    + apply Nat.ltb_lt in E.
      destruct (IH (S k) (slice 0 (k + 1) welcomeMessage) E) as (I & R & T).
      rewrite I, R, T.
      split; [f_equal; lia|]. split; [f_equal; lia|].
      destruct (S k <? List.length welcomeMessage)%nat eqn:E2.
      * f_equal. lia.
      * apply Nat.ltb_ge in E2. unfold slice. rewrite Nat.sub_0_r. cbn [skipn].
        rewrite !firstn_all2 by lia. reflexivity.
    + apply Nat.ltb_ge in E.
      rewrite animation_stopped by reflexivity.
      cbn [anim_index anim_running anim_welcomeText].
      split; [lia|]. split; [symmetry; apply Nat.leb_gt; lia|reflexivity].
Qed.

End Welcome.

(** X16: the welcome text is typed out one character per tick.  From the
    moment the welcome screen appears, the text shown is what the state held
    until the first tick; after [n] ticks of the 80 ms interval it is the
    first [n] characters of the message; from the 48th tick on it is the whole
    message, and the 49th tick clears the interval, after which nothing
    changes. *)
Theorem X16_welcome_text_is_typed_out (n : nat) (before : jsstring) :
  let a := animation_ticks n (animation_start before) in
  anim_welcomeText a
  = match n with O => before | S _ => firstn n welcomeMessage end
  /\ anim_running a = (n <=? 48)%nat
  /\ (forall m, (49 <= n)%nat -> animation_ticks m a = a)
  /\ ((48 <= n)%nat -> anim_welcomeText a = welcomeMessage).
Proof.
  intros a. subst a.
  assert (L : List.length welcomeMessage = 48%nat) by reflexivity.
  destruct n as [|n].
  - split; [reflexivity|]. split; [reflexivity|]. split; intros; lia.
  - unfold animation_start.
    destruct (animation_ticks_from n 0 before) as (I & R & T); [lia|].
    rewrite L in R, T. cbn [Nat.add Nat.ltb Nat.leb] in R, T.
    split; [exact T|]. split; [exact R|]. split.
    + intros m H. apply animation_stopped. rewrite R. apply Nat.leb_gt. lia.
    + intros H. rewrite T. apply firstn_all2. lia.
Qed.

(** ** Save As *)

Section SaveAs.

Lemma step_handleSaveAs w :
  step ClickSaveAs w = Some (h_world (handleSaveAs w), []).
Proof.
  rewrite step_handle by reflexivity. cbn [handle]. unfold handleSaveAs.
  cbn [h_world handled]. now rewrite commit_quiet by (apply depsUnchanged_true; cbn; auto).
Qed.

Lemma step_SaveDialogInput v w :
  showSaveDialog (ui w) = true ->
  step (SaveDialogInput v) w = Some (onUi (setSaveFilename v) w, []).
Proof.
  intros H. rewrite step_handle by reflexivity. cbn [handle]. rewrite H. cbn [guard].
  now rewrite commit_quiet by (apply depsUnchanged_true; cbn; auto).
Qed.

Lemma step_SaveDialogClose w :
  showSaveDialog (ui w) = true ->
  step SaveDialogClose w = Some (onUi (setShowSaveDialog false) w, []).
Proof.
  intros H. rewrite step_handle by reflexivity. cbn [handle]. rewrite H. cbn [guard].
  now rewrite commit_quiet by (apply depsUnchanged_true; cbn; auto).
Qed.

Lemma step_SaveDialogSave w :
  showSaveDialog (ui w) = true ->
  exists w',
    step SaveDialogSave w
    = Some (w', [Out_download (saveFilename (ui w)) (content (ui w));
                 Out_setItem_settings
                   (stringify (setCurrentFilename (saveFilename (ui w)) (settings (ui w))))])
    /\ ui w' = setSettings (setCurrentFilename (saveFilename (ui w)))
                 (setIsSaved true (setShowSaveDialog false (ui w)))
    /\ item_content (sessionStorage w') = item_content (sessionStorage w).
Proof.
  intros H.
  assert (Hh : handle SaveDialogSave w = Some (downloadFile w))
    by (cbn [handle]; now rewrite H).
  pose proof (step_commit SaveDialogSave w _ eq_refl Hh) as E.
  rewrite commit_out in E. cbn [downloadFile h_out h_settings h_world handled app] in E.
  eexists. split; [exact E|]. rewrite commit_ui, commit_item_content. split; reflexivity.
Qed.

End SaveAs.

(** X17: Save As downloads the text under the name typed in the dialog.  The
    dialog opens with the current file name.  Saving downloads exactly the
    text of the editor under the name in the field, makes that name the
    current file name and stores it with the settings, closes the dialog and
    marks the document clean, so that no auto-save stays pending, while the
    stored text is left as it was.  Cancelling after typing a name downloads
    and stores nothing and leaves the settings, the dirty flag, the text and
    the timers alone. *)
Theorem X17_save_as_uses_the_typed_name (w : World) (name : jsstring) :
  reachable w ->
  let s := settings (ui w) in
  exists w0 w1 w2,
    step ClickSaveAs w = Some (w0, [])
    /\ saveFilename (ui w0) = currentFilename s
    /\ showSaveDialog (ui w0) = true
    /\ run [ClickSaveAs; SaveDialogInput name; SaveDialogSave] w
       = Some (w1, [Out_download name (content (ui w));
                    Out_setItem_settings (stringify (setCurrentFilename name s))])
    /\ content (ui w1) = content (ui w)
    /\ settings (ui w1) = setCurrentFilename name s
    /\ isSaved (ui w1) = true
    /\ showSaveDialog (ui w1) = false
    /\ pendingSaves w1 = []
    /\ item_content (sessionStorage w1) = item_content (sessionStorage w)
    /\ run [ClickSaveAs; SaveDialogInput name; SaveDialogClose] w = Some (w2, [])
    /\ settings (ui w2) = s
    /\ isSaved (ui w2) = isSaved (ui w)
    /\ content (ui w2) = content (ui w)
    /\ showSaveDialog (ui w2) = false
    /\ sessionStorage w2 = sessionStorage w
    /\ timers w2 = timers w.
Proof.
  intros Hr s.
  pose proof (step_handleSaveAs w) as E0.
  set (w0 := h_world (handleSaveAs w)) in *.
  assert (D0 : showSaveDialog (ui w0) = true) by reflexivity.
  pose proof (step_SaveDialogInput name w0 D0) as Ei.
  set (wi := onUi (setSaveFilename name) w0) in *.
  assert (Di : showSaveDialog (ui wi) = true) by reflexivity.
  destruct (step_SaveDialogSave wi Di) as (w1 & E1 & U1 & S1).
  pose proof (step_SaveDialogClose wi Di) as E2.
  assert (R1 : run [ClickSaveAs; SaveDialogInput name; SaveDialogSave] w
               = Some (w1, [Out_download name (content (ui w));
                            Out_setItem_settings (stringify (setCurrentFilename name s))])).
  { cbn [run]. rewrite E0, Ei, E1. reflexivity. }
  exists w0, w1, (onUi (setShowSaveDialog false) wi).
  split; [exact E0|]. split; [reflexivity|]. split; [reflexivity|].
  split; [exact R1|].
  split; [now rewrite U1|]. split; [now rewrite U1|]. split; [now rewrite U1|].
  split; [now rewrite U1|].
  split.
  { apply wf_clean_no_pendingSaves; [|now rewrite U1].
    apply reachable_wf. exact (reachable_run _ _ _ _ Hr R1). }
  split; [exact S1|].
  split; [cbn [run]; rewrite E0, Ei, E2; reflexivity|].
  split; [reflexivity|]. split; [reflexivity|]. split; [reflexivity|].
  split; [reflexivity|]. split; reflexivity.
Qed.

Lemma X17_save_as_uses_the_typed_name_witness :
  exists w1,
    run [ClickSaveAs; SaveDialogInput (js "draft.md"); SaveDialogSave] draftWorld
    = Some (w1, [Out_download (js "draft.md") (js "draft");
                 Out_setItem_settings
                   (stringify (setCurrentFilename (js "draft.md")
                                 (settings (ui draftWorld))))])
    /\ pendingSaves w1 = []
    /\ item_content (sessionStorage w1) = None.
Proof.
  destruct (X17_save_as_uses_the_typed_name draftWorld (js "draft.md") (reachable_after _))
    as (w0 & w1 & w2 & _ & _ & _ & R & _ & _ & _ & _ & P & S & _).
  exists w1. split; [exact R|]. split; [exact P|exact S].
Defined.

(** X14: what the margin and font settings render to.  In a session the left
    padding of the editor is the left margin, except that the slider values
    below 32 all render as 32; the floor of 32 never applies to the right
    padding of the earlier revision, which is always the right margin plus
    200; and the inline count is drawn two pixels smaller than the text, but
    not below 12, so between 12 and 22 pixels. *)
Theorem X14_rendered_sizes (w : World) :
  reachable w ->
  let s := settings (ui w) in
  (32 <= paddingLeft s <= 200
   /\ (32 <= leftMargin s -> paddingLeft s = leftMargin s)
   /\ (leftMargin s < 32 -> paddingLeft s = 32)
   /\ paddingRight s = rightMargin s + 200
   /\ 32 <= marginRight s <= 200
   /\ 12 <= countFontSize s <= 22
   /\ (14 <= fontSize s -> countFontSize s = fontSize s - 2)
   /\ (fontSize s < 14 -> countFontSize s = 12))%Z.
Proof.
  intros Hr s.
  destruct (reachable_settingsOk w Hr) as ((Hf & (Hl & _) & (Hm & _)) & _).
  fold s in Hf, Hl, Hm.
  unfold paddingLeft, paddingRight, marginRight, countFontSize.
  repeat split; intros; lia.
Qed.

Lemma X14_rendered_sizes_witness :
  let s := settings (ui (after [LeftMarginSlider 8; FontSizeSlider 13])) in
  (leftMargin s = 8 /\ paddingLeft s = 32 /\ countFontSize s = 12
   /\ paddingRight s = 272)%Z.
Proof.
  intros s.
  destruct (X14_rendered_sizes (after [LeftMarginSlider 8; FontSizeSlider 13])
              (reachable_after _)) as (_ & _ & L & R & _ & _ & _ & F).
  split; [reflexivity|]. split; [apply L; reflexivity|].
  split; [apply F; reflexivity|exact R].
Defined.

(** X18: a pending auto-save is always the one for the text on screen.  At any
    point of a session at most one auto-save timer is pending; it is the timer
    the component remembers, its closure holds the current text and the
    current auto-save flag, and the document is dirty and not empty.  So a
    clean or an empty document has no auto-save pending. *)
Theorem X18_pending_save_is_current (w : World) :
  reachable w ->
  (List.length (pendingSaves w) <= 1)%nat
  /\ (forall t, In t (pendingSaves w) ->
        callback t = CbAutoSave (content (ui w)) (autoSaveEnabled (ui w))
        /\ autoSaveTimerRef w = Some (tid t)
        /\ isSaved (ui w) = false
        /\ content (ui w) <> [])
  /\ (isSaved (ui w) = true \/ content (ui w) = [] -> pendingSaves w = []).
Proof.
  intros Hr. pose proof (reachable_wf w Hr) as Hwf.
  assert (A : forall t, In t (pendingSaves w) ->
              callback t = CbAutoSave (content (ui w)) (autoSaveEnabled (ui w))
              /\ autoSaveTimerRef w = Some (tid t)
              /\ isSaved (ui w) = false
              /\ content (ui w) <> []).
  { intros t Ht. apply filter_In in Ht as [Hin Hcb].
    destruct (callback t) as [c en| |a] eqn:Cb; try discriminate.
    destruct (ok_armed _ _ Hwf t Hin c en Cb) as (R & C & E & S & N).
    subst c en. auto. }
  split; [now apply wf_pendingSaves|]. split; [exact A|].
  intros H. destruct (pendingSaves w) as [|t l] eqn:P; [reflexivity|exfalso].
  destruct (A t (or_introl eq_refl)) as (_ & _ & S & N).
  destruct H as [H|H]; [congruence|contradiction].
Qed.

Lemma X18_pending_save_is_current_witness :
  (List.length (pendingSaves draftWorld) <= 1)%nat
  /\ (isSaved (ui draftWorld) = true \/ content (ui draftWorld) = [] ->
      pendingSaves draftWorld = []).
Proof.
  destruct (X18_pending_save_is_current draftWorld (reachable_after _)) as (L & _ & E).
  split; [exact L|exact E].
Defined.
